(** * Grouped fit / extrapolation workflow of MAST-ML

    A shallow embedding of the group matching, fit-and-predict and grouped
    statistics code of [ExtrapolateFull.py], [SingleFitGrouped.py] and
    [ExtrapolateFullFit.py].

    Numbers: the numpy [float64] arrays are modelled by lists of real
    numbers ([R]); rounding and NaN are outside the model.  Group labels are
    strings, ordered as Python orders [str] values (by code point).
    Exceptions are values of [exn]; a Python call that may raise returns a
    [result]. *)

From Stdlib Require Import Reals Lra.
From Stdlib Require Import Ascii.
From stdpp Require Import gmap strings list sorting.

Local Open Scope string_scope.
Local Open Scope list_scope.

(** ** Exceptions and results *)

Inductive exn : Type :=
| ValueError (msg : string)
| TypeError
| IndexError
| KeyError (key : string).

Inductive result (A : Type) : Type :=
| Ok (a : A)
| Raise (e : exn).

Arguments Ok {A} a.
Arguments Raise {A} e.

Definition rbind {A B} (m : result A) (k : A -> result B) : result B :=
  match m with
  | Ok a => k a
  | Raise e => Raise e
  end.

Declare Scope py_scope.
Delimit Scope py_scope with py.
Notation "x <- m ;; k" := (rbind m (fun x => k))
  (at level 100, m at next level, right associativity) : py_scope.

Definition raises {A} (m : result A) : Prop := exists e, m = Raise e.

#[global] Instance R_eq_dec : EqDecision R := Req_dec_T.
#[global] Instance Rlt_decision : RelDecision Rlt := Rlt_dec.
#[global] Instance Rle_decision : RelDecision Rle := Rle_dec.
#[global] Instance Rgt_decision : RelDecision Rgt := Rgt_dec.

(** A group index map is the dict [{group: {"test_index": [...]}}] built by
    [get_logo_indices]; the keys are kept in dict order. *)
Abbreviation index_map := (list (string * list nat)).

(** ** Python built-ins used by the code *)
Module Py.

(** [d[key]] on a dict kept as an association list. *)
Fixpoint getitem {V} (d : list (string * V)) (key : string) : result V :=
  match d with
  | [] => Raise (KeyError key)
  | (k, v) :: d' => if decide (k = key) then Ok v else getitem d' key
  end.

(** Using an attribute as a sequence ([len], [for ... in], indexing): a
    [TypeError] when it still holds [None]. *)
Definition not_none {A} (attr : option A) : result A :=
  match attr with
  | Some a => Ok a
  | None => Raise TypeError
  end.

(** [list(d.keys())] *)
Definition keys {V} (d : list (string * V)) : list string := d.*1.

(** An entry of [highest_rmses]: the tuple [(rmse, group)]. *)
Abbreviation entry := (R * string)%type.

(** [a < b] on tuples: the first components that differ decide. *)
Definition entry_lt (a b : entry) : bool :=
  if decide (a.1 = b.1) then String.ltb a.2 b.2
  else bool_decide (a.1 < b.1)%R.

(** [min(l)]: the first element that no later element is below. *)
Fixpoint min_from (best : entry) (l : list entry) : entry :=
  match l with
  | [] => best
  | e :: l' => min_from (if entry_lt e best then e else best) l'
  end.

Definition min (l : list entry) : result entry :=
  match l with
  | [] => Raise (ValueError "min() arg is an empty sequence")
  | e :: l' => Ok (min_from e l')
  end.

(** [l.index(x)]: position of the first element equal to [x]. *)
Fixpoint index (l : list entry) (x : entry) : result nat :=
  match l with
  | [] => Raise (ValueError "x is not in list")
  | e :: l' => if decide (e = x) then Ok 0
               else (i <- index l' x ;; Ok (S i))%py
  end.

(** [l[i]] on a list, for one non-negative index. *)
Definition list_getitem {A} (l : list A) (i : nat) : result A :=
  match l !! i with
  | Some a => Ok a
  | None => Raise IndexError
  end.

(** Strings: a [str] is modelled by the sequence of its characters, for
    code points below 256. *)

(** [s.split(sep)] for a separator of one character: the pieces between the
    occurrences of [sep]; a string without [sep] is its only piece. *)
Fixpoint split (sep : Ascii.ascii) (s : string) : list string :=
  match s with
  | EmptyString => [EmptyString]
  | String c s' =>
      if decide (c = sep) then EmptyString :: split sep s'
      else match split sep s' with
           | piece :: pieces => String c piece :: pieces
           | [] => [String c EmptyString]
           end
  end.

Arguments split sep%_char s%_string.

(** [c.isspace()]: the code points 9 to 13, 28 to 32, 133 and 160. *)
Definition isspace (c : Ascii.ascii) : bool :=
  let n := Ascii.N_of_ascii c in
  ((9 <=? n) && (n <=? 13) || (28 <=? n) && (n <=? 32)
   || (n =? 133) || (n =? 160))%N.

Fixpoint lstrip (s : string) : string :=
  match s with
  | EmptyString => EmptyString
  | String c s' => if isspace c then lstrip s' else s
  end.

Fixpoint rstrip (s : string) : string :=
  match s with
  | EmptyString => EmptyString
  | String c s' =>
      match rstrip s' with
      | EmptyString => if isspace c then EmptyString else String c EmptyString
      | r => String c r
      end
  end.

(** [s.strip()]: [s] without its leading and trailing whitespace. *)
Definition strip (s : string) : string := rstrip (lstrip s).

(** [s.replace(old, new)] for [old] and [new] of one character. *)
Fixpoint replace (old new : Ascii.ascii) (s : string) : string :=
  match s with
  | EmptyString => EmptyString
  | String c s' =>
      String (if decide (c = old) then new else c) (replace old new s')
  end.

Arguments replace (old new)%_char s%_string.

End Py.

(** ** os.path *)
Module Os.

(** [os.path.join(a, b)] (POSIX): [b] when it is absolute; otherwise [a],
    a separator unless [a] is empty or ends with one, and [b]. *)
Definition path_join (a b : string) : string :=
  match b with
  | String "/" _ => b
  | _ =>
      match a, last (String.list_ascii_of_string a) with
      | EmptyString, _ => b
      | _, Some "/"%char => a +:+ b
      | _, _ => a +:+ "/" +:+ b
      end
  end.

End Os.

(** ** numpy *)
Module Np.

Definition label_le (a b : string) : Prop := String.leb a b = true.

#[global] Instance label_le_dec : RelDecision label_le.
Proof. intros a b. unfold label_le. apply _. Defined.

#[global] Instance label_le_total : Total label_le.
Proof. intros a b. apply String.leb_total. Qed.

(** [np.unique]: the distinct values, sorted. *)
Definition unique (l : list string) : list string :=
  merge_sort label_le (remove_dups l).

(** [np.intersect1d(a, b)]: sorted distinct values found in both. *)
Definition intersect1d (a b : list string) : list string :=
  filter (fun g => g ∈ unique b) (unique a).

(** [np.setdiff1d(a, b)]: sorted distinct values of [a] not in [b]. *)
Definition setdiff1d (a b : list string) : list string :=
  filter (fun g => g ∉ unique b) (unique a).

(** [np.intersect1d] on row-index arrays. *)
Definition intersect1d_idx (a b : list nat) : list nat :=
  filter (fun i => i ∈ b) (merge_sort Nat.le (remove_dups a)).

(** [arr[i]] for one non-negative index. *)
Definition item {A} (arr : list A) (i : nat) : result A :=
  match arr !! i with
  | Some a => Ok a
  | None => Raise IndexError
  end.

(** [arr[index]] with a list of row indices (fancy indexing). *)
Fixpoint take {A} (arr : list A) (index : list nat) : result (list A) :=
  match index with
  | [] => Ok []
  | i :: index' =>
      (a <- item arr i ;; rest <- take arr index' ;; Ok (a :: rest))%py
  end.

(** [np.union1d(a, b)]: sorted distinct values found in either. *)
Definition union1d (a b : list string) : list string := unique (a ++ b).

Definition zeros (n : nat) : list R := replicate n 0%R.

(** [np.sqrt] *)
Definition sqrt (x : R) : R := R_sqrt.sqrt x.

End Np.

(** ** sklearn.metrics *)
Module Sklearn.

Definition sum (l : list R) : R := foldr Rplus 0%R l.

Definition average (l : list R) : R := (sum l / INR (length l))%R.

(** [mean_squared_error(y_true, y_pred)] on one-dimensional arrays: the
    average of the squared differences.  The input validation comes first:
    it rejects arrays of different lengths (the message goes on with the two
    lengths) and arrays with no sample. *)
Definition mean_squared_error (y_true y_pred : list R) : result R :=
  if decide (length y_true = length y_pred) then
    if decide (length y_true = 0) then
      Raise (ValueError "Found array with 0 sample(s) (shape=(0,)) while a minimum of 1 is required.")
    else Ok (average (zip_with (fun t p => ((t - p) ^ 2)%R) y_true y_pred))
  else Raise (ValueError "Found input variables with inconsistent numbers of samples").

End Sklearn.

(** ** data_parser *)
Module DataParser.

(** Modelled from the spec: the dataset collaborator ([data_parser]) is not
    among the sources.  A dataset is the ordered sequence of its rows that
    survive the exclusive filters; a row exposes its feature columns, its
    target, its grouping label and its measured-error column. *)
Record row : Type := Row {
  features : list R;
  target : R;
  group : string;
  meas_err : R
}.

Abbreviation dataset := (list row).

Definition get_x_data (d : dataset) : list (list R) := map features d.
Definition get_y_data (d : dataset) : list R := map target d.
Definition get_group_data (d : dataset) : list string := map group d.
Definition get_err_data (d : dataset) : list R := map meas_err d.

(** Modelled from the spec: [add_exclusive_filter(grouping_field, "=", value)]
    removes the rows whose grouping label equals [value] before subsequent
    reads. *)
Definition add_exclusive_filter (d : dataset) (value : string) : dataset :=
  filter (fun r => group r <> value) d.

End DataParser.

(** ** portion_data.get_test_train_data *)
Module Gttd.

(** Modelled from the spec: the distinct labels, in the order they are
    first met. *)
Definition first_seen (labels : list string) : list string :=
  reverse (remove_dups (reverse labels)).

(** Modelled from the spec: the rows bearing the label [g], in row order. *)
Definition test_index (labels : list string) (g : string) : list nat :=
  filter (fun i => labels !! i = Some g) (seq 0 (length labels)).

(** Modelled from the spec: [get_logo_indices] is not among the sources.  It
    maps each distinct label to the ordered list of the row indices bearing
    it; the keys come in the order the labels are first met. *)
Definition get_logo_indices (labels : list string) : index_map :=
  map (fun g => (g, test_index labels g)) (first_seen labels).

End Gttd.

(** [indexes labels im]: [im] is a group index map of the label column
    [labels] (the GroupIndexMap invariant): distinct keys, every key is a
    label that occurs, and the list of a key holds, once each, exactly the
    rows bearing that label. *)
Definition indexes (labels : list string) (im : index_map) : Prop :=
  NoDup im.*1 /\
  (forall g, g ∈ labels -> g ∈ im.*1) /\
  (forall g idx, (g, idx) ∈ im ->
     NoDup idx /\ g ∈ labels /\ forall i, i ∈ idx <-> labels !! i = Some g).

(** ** Loops *)

(** [for x in l: body], threading the variables the body assigns. *)
Fixpoint for_each {S A} (l : list A) (body : S -> A -> result S) (s : S)
  : result S :=
  match l with
  | [] => Ok s
  | a :: l' => (s' <- body s a ;; for_each l' body s')%py
  end.

(** ** The model object and the calls made on it *)

(** The dataset a prediction is made for: the evaluation ("to predict")
    dataset or the standard conditions. *)
Inductive predicted : Type := ToPredict | Standard.

Inductive event : Type :=
| EvFit (X : list (list R)) (y : list R)
| EvPredict (target : predicted) (X : list (list R))
| EvMeanSquaredError (y_true y_pred : list R)
| EvPlot (supported_y supported_pred unsupported_y unsupported_pred
          xerr_supported xerr_unsupported notelist : list R).

(** The state a run acts on: the model object, which [fit] mutates, and the
    log of the calls made so far (oldest first). *)
Record world (Model : Type) : Type := World {
  model : Model;
  log : list event
}.

Arguments World {Model} model log.
Arguments model {Model} w.
Arguments log {Model} w.

(** A computation that may mutate the world and may raise. *)
Definition run (Model A : Type) : Type := world Model -> world Model * result A.

Definition ret {Model A} (a : A) : run Model A := fun w => (w, Ok a).

Definition bind {Model A B} (m : run Model A) (k : A -> run Model B)
  : run Model B :=
  fun w => match m w with
           | (w', Ok a) => k a w'
           | (w', Raise e) => (w', Raise e)
           end.

Definition lift {Model A} (r : result A) : run Model A := fun w => (w, r).

Declare Scope run_scope.
Delimit Scope run_scope with run.
Notation "x <- m ;; k" := (bind m (fun x => k))
  (at level 100, m at next level, right associativity) : run_scope.

(** ** ExtrapolateFull.py *)
Module ExtrapolateFull.
Import DataParser.

(** The local variables of [execute] when it returns. *)
Record locals : Type := Locals {
  fit_Xdata : list (list R);
  fit_ydata : list R;
  match_groups : list string;
  supported_index : list nat;
  unsupported_index : list nat;
  Ypredict : list R;
  std_Ypredict : option (list R);
  overall_rms : R;
  supported_rms : R;
  unsupported_rms : R
}.

(** Lines 78-80: the rows of the matched groups. *)
Definition fit_index (fit_indices : index_map) (match_groups : list string)
  : result (list nat) :=
  for_each match_groups
    (fun fit_index mgroup =>
       (idx <- Py.getitem fit_indices mgroup ;; Ok (fit_index ++ idx))%py)
    [].

(** Lines 77-82: the training arrays the model is fitted on. *)
Definition fit_data (data : dataset) (fit_indices : index_map)
    (match_groups : list string) (fit_only_on_matched_groups : Z)
  : result (list (list R) * list R) :=
  let fit_Xdata := get_x_data data in
  let fit_ydata := get_y_data data in
  if decide (fit_only_on_matched_groups = 1%Z) then
    (fit_index <- fit_index fit_indices match_groups ;;
     fit_Xdata <- Np.take fit_Xdata fit_index ;;
     fit_ydata <- Np.take fit_ydata fit_index ;;
     Ok (fit_Xdata, fit_ydata))%py
  else Ok (fit_Xdata, fit_ydata).

(** Lines 84-90: the rows of the groups seen, and not seen, in training. *)
Definition supported_unsupported (topredict_indices : index_map)
    (match_groups : list string) : result (list nat * list nat) :=
  for_each (Py.keys topredict_indices)
    (fun '(supported_index, unsupported_index) pgroup =>
       (idx <- Py.getitem topredict_indices pgroup ;;
        if bool_decide (pgroup ∈ match_groups)
        then Ok (supported_index ++ idx, unsupported_index)
        else Ok (supported_index, unsupported_index ++ idx))%py)
    ([], []).

Section execute.
Context {Model : Type}.
(** [model.fit(X, y)]: the model object as the call leaves it, and whether
    the call returns or raises. *)
Variable fit : Model -> list (list R) -> list R -> Model * result unit.
(** [model.predict(X)]: the predictions, or the exception raised. *)
Variable predict : Model -> list (list R) -> result (list R).
(** [gttd.get_field_logo_indices(data, group_field_name)] *)
Variable get_field_logo_indices : dataset -> index_map.

Definition model_fit (X : list (list R)) (y : list R) : run Model unit :=
  fun w => (World (fit (model w) X y).1 (log w ++ [EvFit X y]),
            (fit (model w) X y).2).

Definition model_predict (target : predicted) (X : list (list R))
  : run Model (list R) :=
  fun w => (World (model w) (log w ++ [EvPredict target X]),
            predict (model w) X).

Definition mean_squared_error (y_true y_pred : list R) : run Model R :=
  fun w => (World (model w) (log w ++ [EvMeanSquaredError y_true y_pred]),
            Sklearn.mean_squared_error y_true y_pred).

Definition single_supported_unsupported
    (sy sp uy up xerr_s xerr_u notelist : list R) : run Model unit :=
  fun w => (World (model w) (log w ++ [EvPlot sy sp uy up xerr_s xerr_u notelist]),
            Ok tt).

(** [execute], lines 47-122, on the parsed datasets: [topredict_data] is
    the dataset of [topredict_data_csv] and [std_data] that of
    [standard_conditions_csv], when one is given. *)
Definition execute (data topredict_data : dataset) (std_data : option dataset)
    (measerrfield : option string) (plot_filter_out : string)
    (fit_only_on_matched_groups : Z) : run Model locals :=
  let topredict_Xdata := get_x_data topredict_data in
  let topredict_ydata := get_y_data topredict_data in
  let topredict_ydata_err :=
    match measerrfield with
    | Some _ => get_err_data topredict_data
    | None => Np.zeros (length topredict_ydata)
    end in
  let fit_indices := get_field_logo_indices data in
  let fit_groups := Py.keys fit_indices in
  let topredict_indices := get_field_logo_indices topredict_data in
  let topredict_groups := Py.keys topredict_indices in
  let match_groups := Np.intersect1d fit_groups topredict_groups in
  (fit_arrays <-
     lift (fit_data data fit_indices match_groups fit_only_on_matched_groups) ;;
   let '(fit_Xdata, fit_ydata) := fit_arrays in
   indices <- lift (supported_unsupported topredict_indices match_groups) ;;
   let '(supported_index, unsupported_index) := indices in
   _ <- model_fit fit_Xdata fit_ydata ;;
   Ypredict <- model_predict ToPredict topredict_Xdata ;;
   std_Ypredict <-
     match std_data with
     | Some std => (y <- model_predict Standard (get_x_data std) ;; ret (Some y))
     | None => ret None
     end ;;
   overall_mse <- mean_squared_error topredict_ydata Ypredict ;;
   let overall_rms := Np.sqrt overall_mse in
   sy <- lift (Np.take topredict_ydata supported_index) ;;
   sp <- lift (Np.take Ypredict supported_index) ;;
   supported_mse <- mean_squared_error sy sp ;;
   let supported_rms := Np.sqrt supported_mse in
   uy <- lift (Np.take topredict_ydata unsupported_index) ;;
   up <- lift (Np.take Ypredict unsupported_index) ;;
   unsupported_mse <- mean_squared_error uy up ;;
   let unsupported_rms := Np.sqrt unsupported_mse in
   let notelist := [overall_rms; supported_rms; unsupported_rms] in
   xerr_supported <- lift (Np.take topredict_ydata_err supported_index) ;;
   xerr_unsupported <- lift (Np.take topredict_ydata_err unsupported_index) ;;
   _ <- single_supported_unsupported sy sp uy up
          xerr_supported xerr_unsupported notelist ;;
   ret (Locals fit_Xdata fit_ydata match_groups supported_index
          unsupported_index Ypredict std_Ypredict
          overall_rms supported_rms unsupported_rms))%run.

End execute.
End ExtrapolateFull.

(** ** SingleFitGrouped.py *)
Module SingleFitGrouped.
Import DataParser.

(** The attributes of the parent class [SingleFit] that this class uses. *)
Record SingleFit : Type := MkSingleFit {
  training_dataset : dataset;
  testing_dataset : dataset;
  plot_filter_out : option (list string);
  testing_target_data : option (list R);
  testing_target_prediction : list R;
  plotting_index : list nat
}.

Record t : Type := Mk {
  base : SingleFit;
  grouping_feature : string;
  mark_outlying_groups : Z;
  fit_only_on_matched_groups : Z;
  train_group_data : option (list string);
  train_group_indices : option index_map;
  train_groups : option (list string);
  test_group_data : option (list string);
  test_group_indices : option index_map;
  test_groups : option (list string);
  per_group_statistics : gmap string (gmap string R);
  outlying_groups : list string
}.

Definition set_base (self : t) (b : SingleFit) : t :=
  Mk b (grouping_feature self) (mark_outlying_groups self)
    (fit_only_on_matched_groups self) (train_group_data self)
    (train_group_indices self) (train_groups self) (test_group_data self)
    (test_group_indices self) (test_groups self) (per_group_statistics self)
    (outlying_groups self).

Definition set_training_dataset (b : SingleFit) (d : dataset) : SingleFit :=
  MkSingleFit d (testing_dataset b) (plot_filter_out b) (testing_target_data b)
    (testing_target_prediction b) (plotting_index b).

Definition set_per_group_statistics (self : t)
    (stats : gmap string (gmap string R)) : t :=
  Mk (base self) (grouping_feature self) (mark_outlying_groups self)
    (fit_only_on_matched_groups self) (train_group_data self)
    (train_group_indices self) (train_groups self) (test_group_data self)
    (test_group_indices self) (test_groups self) stats (outlying_groups self).

Definition set_outlying_groups (self : t) (groups : list string) : t :=
  Mk (base self) (grouping_feature self) (mark_outlying_groups self)
    (fit_only_on_matched_groups self) (train_group_data self)
    (train_group_indices self) (train_groups self) (test_group_data self)
    (test_group_indices self) (test_groups self) (per_group_statistics self)
    groups.

Section methods.
(** The keyword arguments handed on to the parent constructor. *)
Context {parent_args : Type}.
(** [SingleFit.__init__] and [SingleFit.set_data] *)
Variable SingleFit_init : parent_args -> result SingleFit.
Variable SingleFit_set_data : SingleFit -> result SingleFit.
(** [gttd.get_logo_indices] *)
Variable get_logo_indices : list string -> index_map.

Definition __init__ (args : parent_args) (grouping_feature : option string)
    (mark_outlying_groups fit_only_on_matched_groups : Z) : result t :=
  (b <- SingleFit_init args ;;
   match grouping_feature with
   | None => Raise (ValueError "grouping_feature is not set.")
   | Some grouping_feature =>
       Ok (Mk b grouping_feature mark_outlying_groups
             fit_only_on_matched_groups None None None None None None ∅ [])
   end)%py.

Definition set_group_info (self : t) : t :=
  let train_group_data := get_group_data (training_dataset (base self)) in
  let train_group_indices := get_logo_indices train_group_data in
  let train_groups := Py.keys train_group_indices in
  let test_group_data := get_group_data (testing_dataset (base self)) in
  let test_group_indices := get_logo_indices test_group_data in
  let test_groups := Py.keys test_group_indices in
  Mk (base self) (grouping_feature self) (mark_outlying_groups self)
    (fit_only_on_matched_groups self) (Some train_group_data)
    (Some train_group_indices) (Some train_groups) (Some test_group_data)
    (Some test_group_indices) (Some test_groups) (per_group_statistics self)
    (outlying_groups self).

(** Lines 119-122: the training dataset with the groups that are not in the
    testing dataset filtered out. *)
Definition filter_training_dataset (self : t) : result t :=
  if decide (fit_only_on_matched_groups self = 1%Z) then
    (train_groups <- Py.not_none (train_groups self) ;;
     test_groups <- Py.not_none (test_groups self) ;;
     let out_training_groups := Np.setdiff1d train_groups test_groups in
     Ok (set_base self
           (set_training_dataset (base self)
              (foldl add_exclusive_filter (training_dataset (base self))
                 out_training_groups))))%py
  else Ok self.

Definition set_data (self : t) : result t :=
  let self := set_group_info self in
  (self <- filter_training_dataset self ;;
   b <- SingleFit_set_data (base self) ;;
   let self := set_base self b in
   match testing_target_data (base self) with
   | None => Raise (ValueError "testing target data cannot be None")
   | Some _ => Ok self
   end)%py.

End methods.

(** Lines 175-178 and 184-187: the RMSE of the rows [g_index]. *)
Definition g_rmse (self : t) (g_index : list nat) : result R :=
  (g_ypredict <- Np.take (testing_target_prediction (base self)) g_index ;;
   testing_target_data <- Py.not_none (testing_target_data (base self)) ;;
   g_ydata <- Np.take testing_target_data g_index ;;
   mse <- Sklearn.mean_squared_error g_ypredict g_ydata ;;
   Ok (Np.sqrt mse))%py.

(** The body of the loop of [get_per_group_statistics]. *)
Definition group_statistics (self : t) (stats : gmap string (gmap string R))
    (group : string) : result (gmap string (gmap string R)) :=
  (test_group_indices <- Py.not_none (test_group_indices self) ;;
   g_index <- Py.getitem test_group_indices group ;;
   rmse <- g_rmse self g_index ;;
   let stats := <[group := {["rmse" := rmse]}]> stats in
   match plot_filter_out (base self) with
   | None => Ok stats
   | Some _ =>
       let g_index := Np.intersect1d_idx g_index (plotting_index (base self)) in
       if decide (0 < length g_index) then
         (rmse_filtered <- g_rmse self g_index ;;
          Ok (<[group := <["rmse_plot_filter_out" := rmse_filtered]>
                            {["rmse" := rmse]}]> stats))
       else Ok stats
   end)%py.

Definition get_per_group_statistics (self : t) : result t :=
  (test_groups <- Py.not_none (test_groups self) ;;
   stats <- for_each test_groups (group_statistics self)
              (per_group_statistics self) ;;
   Ok (set_per_group_statistics self stats))%py.

Definition criterion (self : t) : string :=
  match plot_filter_out (base self) with
  | None => "rmse"
  | Some _ => "rmse_plot_filter_out"
  end.

Definition nogroup : Py.entry := (0%R, "nogroup").

(** The body of the loop of [get_outlying_groups]. *)
Definition mark_group (self : t) (highest_rmses : list Py.entry)
    (group : string) : result (list Py.entry) :=
  (min_entry <- Py.min highest_rmses ;;
   let min_rmse := min_entry.1 in
   match per_group_statistics self !! group with
   | None => Raise (KeyError group)
   | Some stats =>
       match stats !! criterion self with
       | Some g_rmse =>
           if decide (g_rmse > min_rmse)%R then
             (i <- Py.index highest_rmses min_entry ;;
              Ok (<[i := (g_rmse, group)]> highest_rmses))
           else Ok highest_rmses
       | None => Ok highest_rmses
       end
   end)%py.

(** The list [highest_rmses] when the loop of [get_outlying_groups] ends. *)
Definition highest_rmses (self : t) : result (list Py.entry) :=
  (test_groups <- Py.not_none (test_groups self) ;;
   let num_mark :=
     Z.min (mark_outlying_groups self) (Z.of_nat (length test_groups)) in
   let highest_rmses := replicate (Z.to_nat num_mark) nogroup in
   for_each test_groups (mark_group self) highest_rmses)%py.

Definition get_outlying_groups (self : t) : result t :=
  (highest_rmses <- highest_rmses self ;;
   Ok (set_outlying_groups self highest_rmses.*2))%py.

(** *** Statistics, report and plots

    The methods below also use attributes that [t] does not carry
    ([readme_list], [statistics], [testing_target_data_error], [xlabel],
    [ylabel], [save_path], [stepsize] and [plotting_dict]): they are passed
    as arguments and returned as results.  A method of the parent class is
    a variable, taken by its effect on the attributes that the code of this
    class reads afterwards. *)

Section statistics.
(** [SingleFit.get_statistics] *)
Variable SingleFit_get_statistics : SingleFit -> result SingleFit.

Definition get_statistics (self : t) : result t :=
  (b <- SingleFit_get_statistics (base self) ;;
   self <- get_per_group_statistics (set_base self b) ;;
   get_outlying_groups self)%py.

End statistics.

(** The line feed that ends a line of the readme. *)
Definition nl : string := String "010" EmptyString.

(** An entry of [readme_list]: a text, or the formatted line
    ["    %s: %s: %3.3f\n" % (group, skey, value)], kept by its arguments. *)
Inductive readme_line : Type :=
| Line (text : string)
| StatLine (group skey : string) (value : R).


Section print_statistics.
(** [SingleFit.print_statistics], by its effect on [readme_list]. *)
Variable SingleFit_print_statistics
  : list readme_line -> result (list readme_line).


End print_statistics.

(** The dict [plot_dict[group]]: the measured values ([xdata]), their
    errors ([xerrdata]), the predicted values ([ydata]) and the RMSE of the
    group, [None] when the criterion statistic is absent. *)
Record plot_entry : Type := PlotEntry {
  xdata : list R;
  xerrdata : list R;
  ydata : list R;
  rmse : option R
}.

(** Lines 220-236: the entry of one group.  The row indices, and so
    [plotting_index], are arrays of integers: an empty intersection indexes
    no row. *)
Definition plotting_entry (self : t)
    (testing_target_data_error : option (list R)) (group : string)
  : result plot_entry :=
  (test_group_indices <- Py.not_none (test_group_indices self) ;;
   g_index <- Py.getitem test_group_indices group ;;
   let g_index :=
     match plot_filter_out (base self) with
     | None => g_index
     | Some _ => Np.intersect1d_idx g_index (plotting_index (base self))
     end in
   g_ypredict <- Np.take (testing_target_prediction (base self)) g_index ;;
   testing_target_data <- Py.not_none (testing_target_data (base self)) ;;
   g_ydata <- Np.take testing_target_data g_index ;;
   g_ydata_err <-
     match testing_target_data_error with
     | None => Ok (Np.zeros (length g_index))
     | Some err => Np.take err g_index
     end ;;
   match per_group_statistics self !! group with
   | None => Raise (KeyError group)
   | Some stats =>
       Ok (PlotEntry g_ydata g_ydata_err g_ypredict (stats !! criterion self))
   end)%py.

(** The value that [get_plotting_dict] assigns to [self.plotting_dict]. *)
Definition get_plotting_dict (self : t)
    (testing_target_data_error : option (list R))
  : result (gmap string plot_entry) :=
  (test_groups <- Py.not_none (test_groups self) ;;
   for_each test_groups
     (fun plot_dict group =>
        entry <- plotting_entry self testing_target_data_error group ;;
        Ok (<[group := entry]> plot_dict))
     ∅)%py.

(** An entry of [group_notelist]: a text, or the formatted note
    ["Overall: %3.3f" % value], kept by its argument. *)
Inductive note : Type :=
| Note (text : string)
| OverallNote (value : R).

(** Lines 147-157 of [plot_results]. *)
Definition group_notelist (self : t) (statistics : gmap string R)
  : result (list note) :=
  match plot_filter_out (base self) with
  | None =>
      match statistics !! "rmse" with
      | Some value => Ok [Note "RMSEs for overall fit:"; OverallNote value]
      | None => Raise (KeyError "rmse")
      end
  | Some plot_filter_out =>
      let shown :=
        Note "Data not shown:"
        :: map (fun pfstr => Note ("  " +:+ Py.replace ";" " " pfstr))
             plot_filter_out in
      match statistics !! "rmse_plot_filter_out" with
      | Some value =>
          Ok (shown ++ [Note "RMSEs for shown data:"; OverallNote value])
      | None => Raise (KeyError "rmse_plot_filter_out")
      end
  end.

(** The call [plotdict.plot_group_splits_with_outliers(...)] that
    [plot_group_splits_with_outliers] makes, by its arguments; the last five
    are [addl_kwargs]. *)
Record group_splits_call : Type := GroupSplitsCall {
  call_group_dict : gmap string plot_entry;
  call_outlying_groups : list string;
  call_label : string;
  call_group_notelist : list note;
  kw_xlabel : string;
  kw_ylabel : string;
  kw_save_path : string;
  kw_stepsize : R;
  kw_guideline : Z
}.

Definition plot_group_splits_with_outliers (xlabel ylabel save_path : string)
    (stepsize : R) (group_dict : gmap string plot_entry)
    (outlying_groups : list string) (label : string)
    (group_notelist : list note) : group_splits_call :=
  GroupSplitsCall group_dict outlying_groups label group_notelist
    xlabel ylabel (Os.path_join save_path label) stepsize 1.

Section plot_results.
(** [SingleFit.plot_results], by its effect on [readme_list]. *)
Variable SingleFit_plot_results
  : list readme_line -> result (list readme_line).

(** [plot_results]: the new [plotting_dict], the plot call made and the new
    [readme_list]. *)
Definition plot_results (self : t)
    (testing_target_data_error : option (list R))
    (statistics : gmap string R) (xlabel ylabel save_path : string)
    (stepsize : R) (readme_list : list readme_line)
  : result (gmap string plot_entry * group_splits_call * list readme_line) :=
  (readme_list <- SingleFit_plot_results readme_list ;;
   plotting_dict <- get_plotting_dict self testing_target_data_error ;;
   group_notelist <- group_notelist self statistics ;;
   let call :=
     plot_group_splits_with_outliers xlabel ylabel save_path stepsize
       plotting_dict (outlying_groups self) "per_group_info"
       group_notelist in
   Ok (plotting_dict, call,
       readme_list
       ++ [Line ("Plot in subfolder per_group_info created" +:+ nl);
           Line ("    labeling outlying groups and their RMSEs." +:+ nl)]))%py.

End plot_results.

End SingleFitGrouped.

(** ** ExtrapolateFullFit.py *)
Module ExtrapolateFullFit.
Import DataParser.

(** Lines 57-58 and 82-93 of [execute]: the training dataset after the
    filters, and the training arrays handed to [FullFit.do_full_fit].
    [test_data] is the test dataset as line 87 reads it, that is, after the
    plot filters of lines 63-74. *)
Definition train_arrays (data test_data : dataset)
    (group_field_name : option string) (fit_only_on_matched_groups : Z)
  : dataset * (list (list R) * list R) :=
  let train_xdata := get_x_data data in
  let train_ydata := get_y_data data in
  if decide (fit_only_on_matched_groups = 1%Z) then
    match group_field_name with
    | None => (data, (train_xdata, train_ydata))
    | Some _ =>
        let train_groupdata := get_group_data data in
        let test_groupdata := get_group_data test_data in
        let groups_not_in_test := Np.setdiff1d train_groupdata test_groupdata in
        let data := foldl add_exclusive_filter data groups_not_in_test in
        (data, (get_x_data data, get_y_data data))
    end
  else (data, (train_xdata, train_ydata)).

(** *** The plot filters *)

(** The value of a filter: the number [float(fval)] when the text reads as
    a number, the text itself otherwise. *)
Inductive fval : Type :=
| FFloat (x : R)
| FStr (s : string).

Section plot_filters.
(** [float(s)] on a string, [None] when it raises [ValueError]. *)
Variable float : string -> option R.
(** [d.add_exclusive_filter(ffield, foperator, fval)] of [data_parser], for
    any field and operator; it is taken to return. *)
Variable data_add_exclusive_filter
  : dataset -> string -> string -> fval -> dataset.

(** Lines 66-73: the filter that one triplet reads as. *)
Definition filter_triplet (ftriplet : string)
  : result (string * string * fval) :=
  let fpcs := Py.split "," ftriplet in
  (ffield <- Py.list_getitem fpcs 0 ;;
   let ffield := Py.strip ffield in
   foperator <- Py.list_getitem fpcs 1 ;;
   let foperator := Py.strip foperator in
   fval <- Py.list_getitem fpcs 2 ;;
   let fval := Py.strip fval in
   let fval :=
     match float fval with
     | Some x => FFloat x
     | None => FStr fval
     end in
   Ok (ffield, foperator, fval))%py.

(** Lines 63-74 (and 124-135, for the standard data): the dataset with the
    plot filters added. *)
Definition add_plot_filters (plot_filter_out : string) (test_data : dataset)
  : result dataset :=
  if decide (0 < String.length plot_filter_out) then
    for_each (Py.split ";" plot_filter_out)
      (fun test_data ftriplet =>
         (triplet <- filter_triplet ftriplet ;;
          let '(ffield, foperator, fval) := triplet in
          Ok (data_add_exclusive_filter test_data ffield foperator fval))%py)
      test_data
  else Ok test_data.

(** Lines 57-93 of [execute]: the training dataset as the call leaves it,
    the test dataset, the numeric field name and the training arrays.
    [test_csv] is the dataset parsed from the file of that name, [None]
    when the argument is [None]; [x_features] is [data.x_features]. *)
Definition full_fit_inputs (data : dataset) (x_features : list string)
    (test_csv : option dataset) (plot_filter_out : string)
    (numeric_field_name group_field_name : option string)
    (fit_only_on_matched_groups : Z)
  : result (dataset * dataset * string * (list (list R) * list R)) :=
  match test_csv with
  | None => Raise (ValueError "test_csv is None")
  | Some test_data =>
      (test_data <- add_plot_filters plot_filter_out test_data ;;
       numeric_field_name <-
         match numeric_field_name with
         | None => Py.list_getitem x_features 0
         | Some name => Ok name
         end ;;
       let '(data, train_arrays) :=
         train_arrays data test_data group_field_name
           fit_only_on_matched_groups in
       Ok (data, test_data, numeric_field_name, train_arrays))%py
  end.

End plot_filters.

(** *** The plots against the numeric field *)

(** The keyword arguments [kwargs_p] of [plotxy.multiple_overlay]. *)
Record kwargs_p : Type := KwargsP {
  kw_savepath : string;
  kw_xlabel : string;
  kw_ylabel : string;
  kw_guideline : Z;
  kw_linestyles : string;
  kw_markers : string;
  kw_sizes : string;
  kw_faces : string;
  kw_xdatalist : list (option (list R));
  kw_ydatalist : list (option (list R));
  kw_xerrlist : list (option (list R));
  kw_yerrlist : list (option (list R));
  kw_labellist : list string;
  kw_plotlabel : string
}.

(** The lists and strings that lines 176-206 build, one series at a time. *)
Record series : Type := Series {
  xdatalist : list (option (list R));
  ydatalist : list (option (list R));
  xerrlist : list (option (list R));
  yerrlist : list (option (list R));
  labellist : list string;
  markers : string;
  linestyles : string
}.

(** One of the three blocks of lines 183-206. *)
Definition add_series (x y : option (list R)) (label linestyle marker : string)
    (s : series) : series :=
  Series (xdatalist s ++ [x]) (ydatalist s ++ [y]) (xerrlist s ++ [None])
    (yerrlist s ++ [None]) (labellist s ++ [label])
    (markers s +:+ marker) (linestyles s +:+ linestyle).

(** A row of the array that [FullFit.do_full_fit] returns, by the columns
    that lines 230-250 read: the numeric data (column [numidx]), the group
    and its label ([gidx], [lidx]), the measured and the predicted value
    ([midx], [pidx]).  Without a grouping field the group and label columns
    do not exist and are not read. *)
Record fit_row : Type := FitRow {
  numericdata : R;
  groupdata : string;
  labeldata : string;
  measured : R;
  predicted_y : R
}.

(** The exceptions of [do_numeric_plots]: those of [exn], and the one that
    reading the local variable [label] raises when nothing was assigned to
    it. *)
Inductive plot_exn : Type :=
| Builtin (e : exn)
| UnboundLocalError (name : string).

Section plots.
(** The file system, with [os.path.isdir], [os.mkdir] and the effect of
    [plotxy.multiple_overlay] on it; the two calls are taken to return. *)
Context {FS : Type}.
Variable isdir : FS -> string -> bool.
Variable mkdir : FS -> string -> FS.
Variable multiple_overlay : FS -> kwargs_p -> FS.
(** [gttd.get_logo_indices] *)
Variable get_logo_indices : list string -> index_map.

(** [do_single_train_test_std_plot], acting on the file system and on the
    list of the calls of [plotxy.multiple_overlay] made so far. *)
Definition do_single_train_test_std_plot
    (train_x train_y test_x test_y std_x std_y : option (list R))
    (xlabel ylabel savepath plotlabel : string) (w : FS * list kwargs_p)
  : FS * list kwargs_p :=
  let s := Series [] [] [] [] [] "" "" in
  let s := match train_x with
           | Some _ => add_series train_x train_y "Measured" "None," "o," s
           | None => s
           end in
  let s := match test_y with
           | Some _ => add_series test_x test_y "Predicted" "None," "*," s
           | None => s
           end in
  let s := match std_x with
           | Some _ => add_series std_x std_y "Predicted" "-" "None" s
           | None => s
           end in
  let path := Os.path_join savepath plotlabel in
  let fs := if isdir w.1 path then w.1 else mkdir w.1 path in
  let kwargs :=
    KwargsP path xlabel ylabel 0 (linestyles s) (markers s) "10,10,10"
      "None,None,None" (xdatalist s) (ydatalist s) (xerrlist s) (yerrlist s)
      (labellist s) plotlabel in
  (multiple_overlay fs kwargs, w.2 ++ [kwargs]).

(** Lines 277-286: the row indices of a group in one array and the label
    read from its first row; the label is left as it was when the array has
    no such group. *)
Definition group_index (groups : list string) (indices : index_map)
    (labels : list string) (label : option string) (group : string)
  : result (list nat * option string) :=
  if bool_decide (group ∈ groups) then
    (index <- Py.getitem indices group ;;
     first <- Py.list_getitem index 0 ;;
     label <- Np.item labels first ;;
     Ok (index, Some label))%py
  else Ok ([], label).

(** Lines 277-296: the arrays of the plot of one group and its label. *)
Definition group_arrays (test_array : list fit_row)
    (std_array : option (list fit_row)) (test_indices std_indices : index_map)
    (label : option string) (group : string)
  : result (list R * list R * list R
            * option (list R) * option (list R) * option string) :=
  (test <- group_index (Py.keys test_indices) test_indices
             (map labeldata test_array) label group ;;
   let '(test_index, label) := test in
   std <- group_index (Py.keys std_indices) std_indices
            (map labeldata (default [] std_array)) label group ;;
   let '(std_index, label) := std in
   trainx <- Np.take (map numericdata test_array) test_index ;;
   trainy <- Np.take (map measured test_array) test_index ;;
   testy <- Np.take (map predicted_y test_array) test_index ;;
   match std_array with
   | None => Ok (trainx, trainy, testy, None, None, label)
   | Some std_array =>
       stdx <- Np.take (map numericdata std_array) std_index ;;
       stdy <- Np.take (map predicted_y std_array) std_index ;;
       Ok (trainx, trainy, testy, Some stdx, Some stdy, label)
   end)%py.

(** Lines 276-303: the loop over the groups.  [label] is the local variable
    of that name, [None] until the first assignment.  The result is the
    exception raised, if any. *)
Fixpoint group_plots (test_array : list fit_row)
    (std_array : option (list fit_row)) (test_indices std_indices : index_map)
    (xlabel ylabel savepath : string) (all_groups : list string)
    (label : option string) (w : FS * list kwargs_p)
  : FS * list kwargs_p * option plot_exn :=
  match all_groups with
  | [] => (w, None)
  | group :: all_groups' =>
      match group_arrays test_array std_array test_indices std_indices
              label group with
      | Raise e => (w, Some (Builtin e))
      | Ok (trainx, trainy, testy, stdx, stdy, None) =>
          (w, Some (UnboundLocalError "label"))
      | Ok (trainx, trainy, testy, stdx, stdy, Some plotlabel) =>
          group_plots test_array std_array test_indices std_indices
            xlabel ylabel savepath all_groups' (Some plotlabel)
            (do_single_train_test_std_plot (Some trainx) (Some trainy)
               (Some trainx) (Some testy) stdx stdy
               xlabel ylabel savepath plotlabel w)
      end
  end.

Definition do_numeric_plots (test_array : list fit_row)
    (std_array : option (list fit_row)) (xlabel ylabel savepath : string)
    (group_field_name : option string) (w : FS * list kwargs_p)
  : FS * list kwargs_p * option plot_exn :=
  let test_numericdata := map numericdata test_array in
  let test_measured := map measured test_array in
  let test_predicted := map predicted_y test_array in
  let std_numericdata := map numericdata <$> std_array in
  let std_predicted := map predicted_y <$> std_array in
  let w :=
    do_single_train_test_std_plot (Some test_numericdata) (Some test_measured)
      (Some test_numericdata) (Some test_predicted)
      std_numericdata std_predicted xlabel ylabel savepath "alldata" w in
  match group_field_name with
  | None => (w, None)
  | Some _ =>
      let test_indices := get_logo_indices (map groupdata test_array) in
      let test_groups := Py.keys test_indices in
      let std_indices :=
        match std_array with
        | None => []
        | Some std_array => get_logo_indices (map groupdata std_array)
        end in
      let std_groups := Py.keys std_indices in
      let all_groups :=
        match std_array with
        | None => test_groups
        | Some _ => Np.union1d test_groups std_groups
        end in
      group_plots test_array std_array test_indices std_indices
        xlabel ylabel savepath all_groups None w
  end.

End plots.

End ExtrapolateFullFit.

(** ** Notions the statements use *)

(** The rows an index map lists for a group (none when it has no such key). *)
Definition group_rows (im : index_map) (g : string) : list nat :=
  match Py.getitem im g with
  | Ok idx => idx
  | Raise _ => []
  end.

(** Every row index present in an index map. *)
Definition all_rows (im : index_map) : list nat := im ≫= snd.

(** A call on the model object, as opposed to a metric or a plot call. *)
Definition is_model_call (e : event) : bool :=
  match e with
  | EvFit _ _ | EvPredict _ _ => true
  | EvMeanSquaredError _ _ | EvPlot _ _ _ _ _ _ _ => false
  end.

(** A run as the specification words it: among the calls of the run, the
    calls on the model object are one call of [fit] followed by one call of
    [predict]. *)
Definition fits_then_predicts_once (calls : list event) : Prop :=
  exists X y target X',
    filter (fun e => is_model_call e = true) calls
    = [EvFit X y; EvPredict target X'].

(** The RMSE as the specification words it: the square root of the mean of
    the squared differences between predicted and measured values, over the
    rows [rows]. *)
Definition rmse_spec (y_hat y : list R) (rows : list nat) : R :=
  R_sqrt.sqrt
    (foldr Rplus 0%R
       (map (fun i => ((nth i y_hat 0 - nth i y 0) ^ 2)%R) rows)
     / INR (length rows))%R.

(** The record of a group as the specification words it: [rmse] over the
    rows of the group and, when a plot filter was given and rows of the
    group survive it, [rmse_plot_filter_out] over the surviving rows. *)
Definition group_record_spec (plot_filter_out : option (list string))
    (plotting_index : list nat) (y_hat y : list R) (rows : list nat)
  : gmap string R :=
  let filtered := Np.intersect1d_idx rows plotting_index in
  match plot_filter_out, filtered with
  | Some _, _ :: _ =>
      <["rmse_plot_filter_out" := rmse_spec y_hat y filtered]>
        {["rmse" := rmse_spec y_hat y rows]}
  | _, _ => {["rmse" := rmse_spec y_hat y rows]}
  end.

(** The value of the criterion statistic of a group, when it is present. *)
Definition criterion_value (self : SingleFitGrouped.t) (g : string) : option R :=
  SingleFitGrouped.per_group_statistics self !! g
    ≫= (fun stats => stats !! SingleFitGrouped.criterion self).

(** The entry of a group whose criterion statistic is present and strictly
    positive. *)
Definition candidate (self : SingleFitGrouped.t) (g : string) : option Py.entry :=
  match criterion_value self g with
  | Some v => if decide (0 < v)%R then Some (v, g) else None
  | None => None
  end.

Definition candidates (self : SingleFitGrouped.t) (groups : list string)
  : list Py.entry :=
  omap (candidate self) groups.

(** The entries of [highest_rmses] that are not the sentinel. *)
Definition real_entries (highest_rmses : list Py.entry) : list Py.entry :=
  filter (fun e => e <> SingleFitGrouped.nogroup) highest_rmses.

(** What the selection loop keeps true, [done] being the groups looked at so
    far: every slot holds the sentinel or a candidate of [done], no candidate
    is held twice, and a candidate of [done] that is not held is not above
    any slot. *)
Definition selection_inv (self : SingleFitGrouped.t) (done : list string)
    (highest_rmses : list Py.entry) : Prop :=
  (forall e, e ∈ highest_rmses ->
     e = SingleFitGrouped.nogroup \/ e ∈ candidates self done) /\
  NoDup (real_entries highest_rmses) /\
  (forall c, c ∈ candidates self done ->
     c ∈ highest_rmses \/ forall e, e ∈ highest_rmses -> (c.1 <= e.1)%R).

(** *** The selection of outlying groups, as stated and as amended *)

(** The number of groups whose criterion statistic is present. *)
Definition present_count (self : SingleFitGrouped.t) (groups : list string) : nat :=
  length (filter (fun g => is_Some (criterion_value self g)) groups).

(** The property of the selection as it is stated: when there are at least
    as many slots asked for as groups with the criterion present, every such
    group is among the entries that are not the sentinel. *)
Definition selects_all_present (self : SingleFitGrouped.t) : Prop :=
  forall groups hr,
    SingleFitGrouped.test_groups self = Some groups ->
    SingleFitGrouped.highest_rmses self = Ok hr ->
    (Z.of_nat (present_count self groups)
     <= SingleFitGrouped.mark_outlying_groups self)%Z ->
    forall g, g ∈ groups -> is_Some (criterion_value self g) ->
              g ∈ (real_entries hr).*2.

(** The length of the result as it is stated. *)
Definition length_as_stated (self : SingleFitGrouped.t) (groups : list string)
  : nat :=
  Z.to_nat (SingleFitGrouped.mark_outlying_groups self)
    `min` present_count self groups.

(** The minimum slot as it is stated: the first slot, in slot order, whose
    value is the least. *)
Definition first_least_value_slot (slots : list Py.entry) (i : nat) : Prop :=
  exists m, slots !! i = Some m /\
    (forall e, e ∈ slots -> (m.1 <= e.1)%R) /\
    (forall j e, j < i -> slots !! j = Some e -> (m.1 < e.1)%R).

(** The minimum slot as amended: the first slot holding the least entry,
    entries being ordered as Python orders tuples (by value, then label). *)
Definition least_entry_slot (slots : list Py.entry) (i : nat) : Prop :=
  exists m, slots !! i = Some m /\
    (forall e, e ∈ slots -> Py.entry_lt e m = false) /\
    (forall j, j < i -> slots !! j <> Some m).

(** One step of the selection as amended: a group whose criterion is present
    and whose value strictly exceeds the value of the least entry replaces
    that entry in its slot; any other group leaves the slots as they are. *)
Inductive selection_step_spec (criterion_of : string -> option R)
    (slots : list Py.entry) (group : string) : list Py.entry -> Prop :=
| step_replace v i m :
    criterion_of group = Some v ->
    least_entry_slot slots i -> slots !! i = Some m -> (v > m.1)%R ->
    selection_step_spec criterion_of slots group (<[i := (v, group)]> slots)
| step_not_above v i m :
    criterion_of group = Some v ->
    least_entry_slot slots i -> slots !! i = Some m -> ~ (v > m.1)%R ->
    selection_step_spec criterion_of slots group slots
| step_absent :
    criterion_of group = None ->
    selection_step_spec criterion_of slots group slots.

(** The selection as amended: the steps over the groups, in order. *)
Inductive selection_spec (criterion_of : string -> option R)
  : list Py.entry -> list string -> list Py.entry -> Prop :=
| selection_done slots : selection_spec criterion_of slots [] slots
| selection_next slots group slots' groups slots'' :
    selection_step_spec criterion_of slots group slots' ->
    selection_spec criterion_of slots' groups slots'' ->
    selection_spec criterion_of slots (group :: groups) slots''.

(** The replacement rule as it is stated: a step of the run that changes
    the slots writes the group into the first slot of least value.  [done]
    are the groups looked at before [g], [hr] the slots they leave. *)
Definition follows_stated_rule (self : SingleFitGrouped.t) : Prop :=
  forall done g todo hr hr',
    SingleFitGrouped.test_groups self = Some (done ++ g :: todo) ->
    for_each done (SingleFitGrouped.mark_group self)
      (replicate
         (Z.to_nat (Z.min (SingleFitGrouped.mark_outlying_groups self)
                      (Z.of_nat (length (done ++ g :: todo)))))
         SingleFitGrouped.nogroup) = Ok hr ->
    SingleFitGrouped.mark_group self hr g = Ok hr' -> hr' <> hr ->
    exists i v, first_least_value_slot hr i /\ hr' = <[i := (v, g)]> hr.

(** The length of the result is the one stated. *)
Definition has_stated_length (self : SingleFitGrouped.t) : Prop :=
  forall groups hr,
    SingleFitGrouped.test_groups self = Some groups ->
    SingleFitGrouped.highest_rmses self = Ok hr ->
    length hr = length_as_stated self groups.

(** *** Notions of the further properties *)

(** The exception of [mean_squared_error] on arrays with no sample. *)
Definition no_sample : exn :=
  ValueError "Found array with 0 sample(s) (shape=(0,)) while a minimum of 1 is required.".

(** A call of the plot function. *)
Definition is_plot_call (e : event) : bool :=
  match e with
  | EvPlot _ _ _ _ _ _ _ => true
  | EvFit _ _ | EvPredict _ _ | EvMeanSquaredError _ _ => false
  end.

(** The rows of a group that are plotted: all of them, or those that the
    plot filter keeps. *)
Definition plotted_rows (self : SingleFitGrouped.t) (ti : index_map)
    (g : string) : list nat :=
  match SingleFitGrouped.plot_filter_out (SingleFitGrouped.base self) with
  | None => group_rows ti g
  | Some _ =>
      Np.intersect1d_idx (group_rows ti g)
        (SingleFitGrouped.plotting_index (SingleFitGrouped.base self))
  end.


(** The number of occurrences of a character in a string. *)
Fixpoint occurrences (c : ascii) (s : string) : nat :=
  match s with
  | EmptyString => 0
  | String c' s' => (if decide (c' = c) then 1 else 0) + occurrences c s'
  end.

Arguments occurrences c%_char s%_string.

(** The text of a filter triplet and of a list of filters, as the
    docstring of [ExtrapolateFullFit.execute] gives the format: the three
    parts of a triplet separated by commas, the triplets separated by
    semicolons. *)
Definition render_triplet (t : string * string * string) : string :=
  String.concat "," [t.1.1; t.1.2; t.2].

Definition render_filters (triplets : list (string * string * string))
  : string :=
  String.concat ";" (map render_triplet triplets).

(** A part of a triplet that holds no separator. *)
Definition plain (part : string) : Prop :=
  occurrences "," part = 0 /\ occurrences ";" part = 0.

(** Whether a series is given to a plot: 1 when it is, 0 when it is
    [None]. *)
Definition given {A} (x : option A) : nat :=
  match x with
  | Some _ => 1
  | None => 0
  end.

(** What the plot of one group holds: the series "Measured" and "Predicted"
    over the rows of the group in the test array and, when there is a
    standard array, a second series "Predicted" over the rows of the group
    there; its label is that of the first row taken from the standard array
    or, when the standard array has no row of the group, from the test
    array. *)
Definition group_plot_spec (test_array : list ExtrapolateFullFit.fit_row)
    (std_array : option (list ExtrapolateFullFit.fit_row))
    (test_indices std_indices : index_map) (group : string)
    (kwargs : ExtrapolateFullFit.kwargs_p) : Prop :=
  exists test_rows std_rows first,
    Np.take test_array (group_rows test_indices group) = Ok test_rows /\
    Np.take (default [] std_array) (group_rows std_indices group)
    = Ok std_rows /\
    test_rows
    ≡ₚ filter (fun r => ExtrapolateFullFit.groupdata r = group) test_array /\
    std_rows
    ≡ₚ filter (fun r => ExtrapolateFullFit.groupdata r = group)
         (default [] std_array) /\
    head (std_rows ++ test_rows) = Some first /\
    ExtrapolateFullFit.kw_plotlabel kwargs = ExtrapolateFullFit.labeldata first /\
    ExtrapolateFullFit.kw_labellist kwargs
    = "Measured" :: "Predicted"
      :: match std_array with Some _ => ["Predicted"] | None => [] end /\
    ExtrapolateFullFit.kw_xdatalist kwargs
    = Some (map ExtrapolateFullFit.numericdata test_rows)
      :: Some (map ExtrapolateFullFit.numericdata test_rows)
      :: match std_array with
         | Some _ => [Some (map ExtrapolateFullFit.numericdata std_rows)]
         | None => []
         end /\
    ExtrapolateFullFit.kw_ydatalist kwargs
    = Some (map ExtrapolateFullFit.measured test_rows)
      :: Some (map ExtrapolateFullFit.predicted_y test_rows)
      :: match std_array with
         | Some _ => [Some (map ExtrapolateFullFit.predicted_y std_rows)]
         | None => []
         end.

(** ** The inputs of the worked scenarios *)
Module Scenario.
Import DataParser.

(** A model object that predicts, for a row, the first feature of the row;
    fitting leaves it as it is; both calls return. *)
Definition predicted_values (X : list (list R)) : list R :=
  map (fun x => hd 0%R x) X.
Definition fit (m : unit) (X : list (list R)) (y : list R)
  : unit * result unit :=
  (m, Ok tt).
Definition predict (m : unit) (X : list (list R)) : result (list R) :=
  Ok (predicted_values X).

(** A model object whose [fit] rejects training arrays with no row, as the
    input validation of a scikit-learn estimator does. *)
Definition no_row : exn :=
  ValueError "Found array with 0 sample(s) (shape=(0, 1)) while a minimum of 1 is required.".
Definition strict_fit (m : unit) (X : list (list R)) (y : list R)
  : unit * result unit :=
  match X with
  | [] => (m, Raise no_row)
  | _ :: _ => (m, Ok tt)
  end.

Definition get_field_logo_indices (d : dataset) : index_map :=
  Gttd.get_logo_indices (get_group_data d).

(** Training groups X and Y. *)
Definition train : dataset :=
  [Row [1%R] 1%R "X" 0%R; Row [2%R] 2%R "Y" 0%R].

(** Evaluation groups Y (rows 0, 1, 2) and Z (row 3); measured values
    1, 2, 3, 4 and, with [predict], predicted values 1, 2, 3, 6. *)
Definition evaluation : dataset :=
  [Row [1%R] 1%R "Y" 0%R; Row [2%R] 2%R "Y" 0%R; Row [3%R] 3%R "Y" 0%R;
   Row [6%R] 4%R "Z" 0%R].

(** Evaluation data with no group seen in training. *)
Definition unseen : dataset := [Row [6%R] 4%R "Z" 0%R].

(** Evaluation data with every group seen in training. *)
Definition seen : dataset := [Row [3%R] 3%R "Y" 0%R].

Definition w0 : world unit := World tt [].

Definition execute (topredict_data : dataset)
  : world unit * result ExtrapolateFull.locals :=
  ExtrapolateFull.execute fit predict get_field_logo_indices
    train topredict_data None None "" 0 w0.

(** The same run with a dataset of standard conditions. *)
Definition execute_with_standard
  : world unit * result ExtrapolateFull.locals :=
  ExtrapolateFull.execute fit predict get_field_logo_indices
    train evaluation (Some seen) None "" 0 w0.

(** A run that fits on matched groups only, no group of the evaluation data
    being matched, with the model object whose [fit] rejects training arrays
    with no row. *)
Definition execute_unmatched
  : world unit * result ExtrapolateFull.locals :=
  ExtrapolateFull.execute strict_fit predict get_field_logo_indices
    train unseen None None "" 1 w0.

(** A grouped fit on the same data after prediction, with the plot filter
    "group = Z": the rows 0, 1, 2 are kept for plotting, row 3 is not. *)
Definition grouped : SingleFitGrouped.t :=
  SingleFitGrouped.set_group_info Gttd.get_logo_indices
    (SingleFitGrouped.Mk
       (SingleFitGrouped.MkSingleFit train evaluation (Some ["group;=;Z"])
          (Some (get_y_data evaluation))
          (predicted_values (get_x_data evaluation))
          [0; 1; 2])
       "group" 2 0 None None None None None None ∅ []).

(** A parent class whose constructor and [set_data] succeed and leave the
    testing target data unset ([None]). *)
Definition parent_init (args : unit) : result SingleFitGrouped.SingleFit :=
  Ok (SingleFitGrouped.MkSingleFit train evaluation None None [] []).

Definition parent_set_data (b : SingleFitGrouped.SingleFit)
  : result SingleFitGrouped.SingleFit :=
  Ok b.

(** A grouped fit as [__init__] leaves it. *)
Definition constructed : SingleFitGrouped.t :=
  SingleFitGrouped.Mk
    (SingleFitGrouped.MkSingleFit train evaluation None None [] [])
    "group" 2 0 None None None None None None ∅ [].

(** A grouped fit after [get_per_group_statistics], with the given
    per-group RMSEs, no plot filter, and [mark] outlying groups to mark. *)
Definition with_rmses (rmses : list (string * R)) (mark : Z)
  : SingleFitGrouped.t :=
  SingleFitGrouped.Mk
    (SingleFitGrouped.MkSingleFit [] [] None None [] [])
    "group" mark 0 None None None None None (Some rmses.*1)
    (list_to_map
       (map (fun gv : string * R => (gv.1, ({["rmse" := gv.2]} : gmap string R)))
          rmses))
    [].

(** Groups A, B, C, D with RMSE 1, 5, 3, 2; two groups to mark. *)
Definition four_groups : SingleFitGrouped.t :=
  with_rmses [("A", 1%R); ("B", 5%R); ("C", 3%R); ("D", 2%R)] 2.

(** One group, predicted without error; one group to mark. *)
Definition perfect_group : SingleFitGrouped.t := with_rmses [("A", 0%R)] 1.

(** Groups B and C share the RMSE 5 when D, with RMSE 6, is looked at. *)
Definition tied_groups : SingleFitGrouped.t :=
  with_rmses [("A", 1%R); ("B", 5%R); ("C", 5%R); ("D", 6%R)] 2.

(** One group and no group to mark. *)
Definition no_marks : SingleFitGrouped.t := with_rmses [("A", 1%R)] 0.

(** One group, all of whose rows the plot filter removes: its record has
    [rmse] only, and the criterion is [rmse_plot_filter_out]. *)
Definition all_filtered : SingleFitGrouped.t :=
  SingleFitGrouped.Mk
    (SingleFitGrouped.MkSingleFit [] [] (Some ["group;=;A"]) None [] [])
    "group" 1 0 None None None None None (Some ["A"])
    {["A" := {["rmse" := 1%R]}]} [].

(** A parent class whose [get_statistics], [print_statistics] and
    [plot_results] leave the object and the readme as they are. *)
Definition parent_get_statistics (b : SingleFitGrouped.SingleFit)
  : result SingleFitGrouped.SingleFit :=
  Ok b.

Definition parent_readme (readme_list : list SingleFitGrouped.readme_line)
  : result (list SingleFitGrouped.readme_line) :=
  Ok readme_list.


(** A grouped fit that fits on matched groups only, before [set_data]: the
    training group X is not in the testing data. *)
Definition matched_only : SingleFitGrouped.t :=
  SingleFitGrouped.Mk
    (SingleFitGrouped.MkSingleFit train evaluation None
       (Some (get_y_data evaluation))
       (predicted_values (get_x_data evaluation)) [])
    "group" 2 1 None None None None None None ∅ [].

(** A dataset collaborator for which every filter removes the rows of the
    group that the value names, and a [float] that reads no text as a
    number. *)
Definition add_group_filter (d : dataset) (ffield foperator : string)
    (fval : ExtrapolateFullFit.fval) : dataset :=
  match fval with
  | ExtrapolateFullFit.FStr value => add_exclusive_filter d value
  | ExtrapolateFullFit.FFloat _ => d
  end.

Definition no_float (s : string) : option R := None.

(** A file system in which every directory exists and plotting leaves no
    trace. *)
Definition isdir (fs : unit) (path : string) : bool := true.
Definition mkdir (fs : unit) (path : string) : unit := fs.
Definition multiple_overlay (fs : unit) (kwargs : ExtrapolateFullFit.kwargs_p)
  : unit :=
  fs.

(** The array of a full fit on three test points of the groups Y and Z. *)
Definition test_array : list ExtrapolateFullFit.fit_row :=
  [ExtrapolateFullFit.FitRow 1%R "Y" "group Y" 1%R 1%R;
   ExtrapolateFullFit.FitRow 2%R "Z" "group Z" 4%R 6%R;
   ExtrapolateFullFit.FitRow 3%R "Y" "group Y" 3%R 3%R].

End Scenario.

(** * Properties *)

(** ** Results and loops *)

Lemma rbind_Ok {A B} (m : result A) (k : A -> result B) b :
  rbind m k = Ok b <-> exists a, m = Ok a /\ k a = Ok b.
Proof.
  destruct m as [a|e]; simpl; split.
  - eauto.
  - intros (a' & Ha & Hk). congruence.
  - discriminate.
  - intros (a' & Ha & _). discriminate.
Qed.

Lemma for_each_app {S A} (l1 l2 : list A) (body : S -> A -> result S) s :
  for_each (l1 ++ l2) body s = rbind (for_each l1 body s) (for_each l2 body).
Proof.
  revert s. induction l1 as [|a l1 IH]; intros s; simpl; [done|].
  destruct (body s a); simpl; auto.
Qed.

(** ** numpy *)

Lemma elem_of_unique l g : g ∈ Np.unique l <-> g ∈ l.
Proof.
  unfold Np.unique. rewrite merge_sort_Permutation. apply elem_of_remove_dups.
Qed.

Lemma NoDup_unique l : NoDup (Np.unique l).
Proof.
  unfold Np.unique. rewrite merge_sort_Permutation. apply NoDup_remove_dups.
Qed.

Lemma elem_of_intersect1d a b g :
  g ∈ Np.intersect1d a b <-> g ∈ a /\ g ∈ b.
Proof.
  unfold Np.intersect1d.
  rewrite list_elem_of_filter, !elem_of_unique. tauto.
Qed.

Lemma NoDup_intersect1d a b : NoDup (Np.intersect1d a b).
Proof. apply NoDup_filter, NoDup_unique. Qed.

Lemma elem_of_setdiff1d a b g :
  g ∈ Np.setdiff1d a b <-> g ∈ a /\ g ∉ b.
Proof.
  unfold Np.setdiff1d.
  rewrite list_elem_of_filter, !elem_of_unique. tauto.
Qed.

Lemma elem_of_intersect1d_idx a b i :
  i ∈ Np.intersect1d_idx a b <-> i ∈ a /\ i ∈ b.
Proof.
  unfold Np.intersect1d_idx.
  rewrite list_elem_of_filter, merge_sort_Permutation, elem_of_remove_dups.
  tauto.
Qed.

Lemma NoDup_intersect1d_idx a b : NoDup (Np.intersect1d_idx a b).
Proof.
  apply NoDup_filter. rewrite merge_sort_Permutation. apply NoDup_remove_dups.
Qed.

Lemma take_Ok {A} (arr : list A) index l :
  Np.take arr index = Ok l <-> Forall2 (fun i a => arr !! i = Some a) index l.
Proof.
  revert l. induction index as [|i index IH]; intros l; simpl.
  - split.
    + intros [= <-]. constructor.
    + intros H. inversion H. done.
  - unfold Np.item. split.
    + destruct (arr !! i) as [a|] eqn:Hi; simpl; [|discriminate].
      destruct (Np.take arr index) as [rest|] eqn:Hr; simpl; [|discriminate].
      intros [= <-]. constructor; [done|]. by apply IH.
    + intros H. inversion H as [|? a ? rest Hi Hrest]; subst.
      rewrite Hi. simpl. apply IH in Hrest. rewrite Hrest. done.
Qed.

Lemma take_in_range {A} (arr : list A) index :
  Forall (fun i => i < length arr) index ->
  exists l, Np.take arr index = Ok l /\ length l = length index.
Proof.
  induction 1 as [|i index Hi _ (rest & Hrest & Hlen)]; simpl.
  - by exists [].
  - apply lookup_lt_is_Some_2 in Hi as [a Ha].
    exists (a :: rest). unfold Np.item. rewrite Ha, Hrest. simpl.
    by rewrite Hlen.
Qed.

Lemma take_length {A} (arr : list A) index l :
  Np.take arr index = Ok l -> length l = length index.
Proof. rewrite take_Ok. intros H. symmetry. by eapply Forall2_length. Qed.

Lemma take_map {A B} (f : A -> B) (arr : list A) index l :
  Np.take arr index = Ok l -> Np.take (map f arr) index = Ok (map f l).
Proof.
  rewrite !take_Ok. intros H. apply Forall2_fmap_r.
  eapply Forall2_impl; [exact H|]. intros i a Hi. simpl.
  rewrite list_lookup_fmap, Hi. done.
Qed.

(** ** Dicts *)

Lemma getitem_elem_of {V} (d : list (string * V)) g v :
  Py.getitem d g = Ok v -> (g, v) ∈ d.
Proof.
  induction d as [|[k w] d IH]; simpl; [discriminate|].
  destruct (decide (k = g)) as [->|].
  - intros [= ->]. left.
  - intros H. right. auto.
Qed.

Lemma getitem_NoDup {V} (d : list (string * V)) g v :
  NoDup d.*1 -> (g, v) ∈ d -> Py.getitem d g = Ok v.
Proof.
  induction d as [|[k w] d IH]; simpl; intros Hnd Hin.
  - by apply elem_of_nil in Hin.
  - apply NoDup_cons in Hnd as [Hk Hnd].
    apply elem_of_cons in Hin as [[= <- <-]|Hin].
    + by rewrite decide_True.
    + rewrite decide_False; [auto|].
      intros ->. apply Hk. apply list_elem_of_fmap. by exists (g, v).
Qed.

Lemma getitem_key {V} (d : list (string * V)) g :
  g ∈ Py.keys d -> exists v, Py.getitem d g = Ok v.
Proof.
  unfold Py.keys. induction d as [|[k w] d IH]; simpl; intros Hin.
  - by apply elem_of_nil in Hin.
  - destruct (decide (k = g)) as [->|Hne]; [eauto|].
    apply elem_of_cons in Hin as [->|Hin]; [done|auto].
Qed.

Lemma group_rows_elem_of im g :
  NoDup im.*1 -> forall idx, (g, idx) ∈ im -> group_rows im g = idx.
Proof.
  intros Hnd idx Hin. unfold group_rows. by rewrite (getitem_NoDup im g idx).
Qed.

Lemma elem_of_group_rows im g i :
  i ∈ group_rows im g -> exists idx, (g, idx) ∈ im /\ i ∈ idx.
Proof.
  unfold group_rows. destruct (Py.getitem im g) as [idx|] eqn:Hg.
  - intros Hi. exists idx. split; [by apply getitem_elem_of|done].
  - intros Hi. by apply elem_of_nil in Hi.
Qed.

Lemma elem_of_all_rows im i :
  i ∈ all_rows im <-> exists g idx, (g, idx) ∈ im /\ i ∈ idx.
Proof.
  unfold all_rows. rewrite list_elem_of_bind. split.
  - intros ([g idx] & Hi & Hin). eauto.
  - intros (g & idx & Hin & Hi). exists (g, idx). done.
Qed.

(** ** Group matching (ExtrapolateFull.py, lines 71-90) *)

Lemma fit_index_rows fit_indices mgs :
  (forall g, g ∈ mgs -> g ∈ Py.keys fit_indices) ->
  ExtrapolateFull.fit_index fit_indices mgs
  = Ok (mgs ≫= group_rows fit_indices).
Proof.
  unfold ExtrapolateFull.fit_index.
  enough (forall acc,
    (forall g, g ∈ mgs -> g ∈ Py.keys fit_indices) ->
    for_each mgs
      (fun fit_index mgroup =>
         (idx <- Py.getitem fit_indices mgroup ;; Ok (fit_index ++ idx))%py) acc
    = Ok (acc ++ mgs ≫= group_rows fit_indices)) as H by (intros; by apply H).
  induction mgs as [|g mgs IH]; intros acc Hk.
  - simpl. by rewrite app_nil_r.
  - destruct (getitem_key fit_indices g) as [idx Hidx]; [apply Hk; left|].
    rewrite bind_cons. cbn [for_each].
    rewrite Hidx. cbn [rbind]. rewrite IH by (intros; apply Hk; by right).
    unfold group_rows at 2. rewrite Hidx.
    by rewrite (assoc_L (++)).
Qed.

Lemma supported_unsupported_rows topredict_indices mgs :
  ExtrapolateFull.supported_unsupported topredict_indices mgs
  = Ok (filter (fun g => g ∈ mgs) (Py.keys topredict_indices)
          ≫= group_rows topredict_indices,
        filter (fun g => g ∉ mgs) (Py.keys topredict_indices)
          ≫= group_rows topredict_indices).
Proof.
  unfold ExtrapolateFull.supported_unsupported.
  match goal with |- for_each _ ?b _ = _ => set (body := b) end.
  enough (forall ks sup unsup,
    (forall g, g ∈ ks -> g ∈ Py.keys topredict_indices) ->
    for_each ks body (sup, unsup)
    = Ok (sup ++ filter (fun g => g ∈ mgs) ks ≫= group_rows topredict_indices,
          unsup ++ filter (fun g => g ∉ mgs) ks
            ≫= group_rows topredict_indices)) as H by (by apply H).
  induction ks as [|g ks IH]; intros sup unsup Hk.
  - simpl. by rewrite !app_nil_r.
  - destruct (getitem_key topredict_indices g) as [idx Hidx]; [apply Hk; left|].
    cbn [for_each]. unfold body at 1. rewrite Hidx. cbn [rbind].
    assert (group_rows topredict_indices g = idx) as Hrows
      by (unfold group_rows; by rewrite Hidx).
    rewrite !filter_cons. case_bool_decide as Hg.
    + rewrite decide_True, decide_False by tauto.
      cbn [rbind]. rewrite IH by (intros; apply Hk; by right).
      by rewrite bind_cons, Hrows, (assoc_L (++)).
    + rewrite decide_False, decide_True by tauto.
      cbn [rbind]. rewrite IH by (intros; apply Hk; by right).
      by rewrite bind_cons, Hrows, (assoc_L (++)).
Qed.

Lemma keys_get_logo_indices labels :
  Py.keys (Gttd.get_logo_indices labels) = Gttd.first_seen labels.
Proof.
  unfold Py.keys, Gttd.get_logo_indices.
  rewrite <- list_fmap_compose. apply list_fmap_id.
Qed.

Lemma elem_of_first_seen labels g : g ∈ Gttd.first_seen labels <-> g ∈ labels.
Proof.
  unfold Gttd.first_seen.
  by rewrite elem_of_reverse, elem_of_remove_dups, elem_of_reverse.
Qed.

Lemma elem_of_test_index labels g i :
  i ∈ Gttd.test_index labels g <-> labels !! i = Some g.
Proof.
  unfold Gttd.test_index. rewrite list_elem_of_filter, elem_of_seq.
  split; [tauto|]. intros Hi. split; [done|].
  apply lookup_lt_Some in Hi. lia.
Qed.

(** The modelled indexer builds a group index map of its label column. *)
Lemma get_logo_indices_indexes labels :
  indexes labels (Gttd.get_logo_indices labels).
Proof.
  split; [|split].
  - fold (Py.keys (Gttd.get_logo_indices labels)).
    rewrite keys_get_logo_indices. unfold Gttd.first_seen.
    rewrite reverse_Permutation. apply NoDup_remove_dups.
  - intros g Hg. fold (Py.keys (Gttd.get_logo_indices labels)).
    rewrite keys_get_logo_indices. by apply elem_of_first_seen.
  - intros g idx Hin. unfold Gttd.get_logo_indices in Hin.
    apply list_elem_of_fmap in Hin as (g' & [= -> ->] & Hg').
    split; [|split].
    + unfold Gttd.test_index. apply NoDup_filter, NoDup_seq.
    + by apply elem_of_first_seen.
    + intros i. apply elem_of_test_index.
Qed.

Lemma indexes_key_rows labels im g i :
  indexes labels im -> g ∈ Py.keys im ->
  (i ∈ group_rows im g <-> labels !! i = Some g).
Proof.
  intros (Hnd & _ & Hrows) Hg.
  destruct (getitem_key im g Hg) as [idx Hidx].
  unfold group_rows. rewrite Hidx.
  apply getitem_elem_of in Hidx. by apply Hrows.
Qed.

(** C4: the matched groups are the intersection of the training and the
    evaluation groups; the supported and the unsupported rows are disjoint,
    together they are every row of the evaluation index map, and the rows of
    a group go to the supported rows when the group was seen in training and
    to the unsupported rows otherwise.  With training groups X, Y and
    evaluation groups Y, Z: Y is matched, its rows are supported and the rows
    of Z are unsupported. *)
Theorem group_matching_partition (labels : list string)
    (fit_indices topredict_indices : index_map)
    (Hidx : indexes labels topredict_indices) :
  let mgs := Np.intersect1d (Py.keys fit_indices) (Py.keys topredict_indices) in
  exists supported unsupported,
    ExtrapolateFull.supported_unsupported topredict_indices mgs
    = Ok (supported, unsupported) /\
    (forall g, g ∈ mgs <->
       g ∈ Py.keys fit_indices /\ g ∈ Py.keys topredict_indices) /\
    (forall i, i ∈ supported -> i ∉ unsupported) /\
    (forall i, i ∈ supported \/ i ∈ unsupported <->
       i ∈ all_rows topredict_indices) /\
    (forall g idx i, (g, idx) ∈ topredict_indices -> i ∈ idx ->
       (g ∈ Py.keys fit_indices -> i ∈ supported) /\
       (g ∉ Py.keys fit_indices -> i ∈ unsupported)) /\
    Np.intersect1d ["X"; "Y"] ["Y"; "Z"] = ["Y"] /\
    ExtrapolateFull.supported_unsupported [("Y", [0; 2]); ("Z", [1])] ["Y"]
    = Ok ([0; 2], [1]).
Proof.
  intros mgs. eexists _, _. split; [apply supported_unsupported_rows|].
  assert (Hm : forall g, g ∈ mgs <->
            g ∈ Py.keys fit_indices /\ g ∈ Py.keys topredict_indices)
    by (intros g; apply elem_of_intersect1d).
  assert (Hsup : forall i, i ∈ filter (fun g => g ∈ mgs) (Py.keys topredict_indices)
                     ≫= group_rows topredict_indices <->
            exists g, g ∈ mgs /\ g ∈ Py.keys topredict_indices /\
                      labels !! i = Some g).
  { intros i. rewrite list_elem_of_bind. split.
    - intros (g & Hi & [Hg Hk]%list_elem_of_filter). exists g.
      split_and!; [done..|]. by apply (indexes_key_rows labels topredict_indices).
    - intros (g & Hg & Hk & Hi). exists g. rewrite list_elem_of_filter.
      split; [|done]. by apply (indexes_key_rows labels topredict_indices). }
  assert (Hunsup : forall i, i ∈ filter (fun g => g ∉ mgs) (Py.keys topredict_indices)
                     ≫= group_rows topredict_indices <->
            exists g, (g ∉ mgs) /\ g ∈ Py.keys topredict_indices /\
                      labels !! i = Some g).
  { intros i. rewrite list_elem_of_bind. split.
    - intros (g & Hi & [Hg Hk]%list_elem_of_filter). exists g.
      split_and!; [done..|]. by apply (indexes_key_rows labels topredict_indices).
    - intros (g & Hg & Hk & Hi). exists g. rewrite list_elem_of_filter.
      split; [|done]. by apply (indexes_key_rows labels topredict_indices). }
  assert (Hrow : forall g idx i, (g, idx) ∈ topredict_indices -> i ∈ idx ->
            g ∈ Py.keys topredict_indices /\ labels !! i = Some g).
  { intros g idx i Hin Hi. split.
    - apply list_elem_of_fmap. by exists (g, idx).
    - destruct Hidx as (_ & _ & Hrows). by apply (Hrows g idx). }
  split_and!.
  - exact Hm.
  - intros i Hs Hu.
    apply Hsup in Hs as (g & Hg & _ & Hi).
    apply Hunsup in Hu as (g' & Hg' & _ & Hi').
    congruence.
  - intros i. rewrite Hsup, Hunsup, elem_of_all_rows. split.
    + intros [(g & _ & Hk & Hi)|(g & _ & Hk & Hi)];
        destruct (getitem_key _ _ Hk) as [idx Hg];
        apply getitem_elem_of in Hg; exists g, idx;
        (split; [done|]); destruct Hidx as (_ & _ & Hrows);
        by apply (Hrows g idx).
    + intros (g & idx & Hin & Hi).
      destruct (Hrow g idx i Hin Hi) as [Hk Hl].
      destruct (decide (g ∈ mgs)); [left|right]; by exists g.
  - intros g idx i Hin Hi. destruct (Hrow g idx i Hin Hi) as [Hk Hl].
    split; intros Hfit.
    + apply Hsup. exists g. split_and!; [|done..]. by apply Hm.
    + apply Hunsup. exists g. split_and!; [|done..].
      rewrite Hm. tauto.
  - by vm_compute.
  - by vm_compute.
Qed.

Lemma group_matching_partition_witness :
  indexes ["Y"; "Z"; "Y"] (Gttd.get_logo_indices ["Y"; "Z"; "Y"]) /\
  exists supported unsupported,
    ExtrapolateFull.supported_unsupported
      (Gttd.get_logo_indices ["Y"; "Z"; "Y"])
      (Np.intersect1d (Py.keys (Gttd.get_logo_indices ["X"; "Y"]))
         (Py.keys (Gttd.get_logo_indices ["Y"; "Z"; "Y"])))
    = Ok (supported, unsupported) /\
    (forall i, i ∈ supported -> i ∉ unsupported).
Proof.
  split; [apply get_logo_indices_indexes|].
  destruct (group_matching_partition ["Y"; "Z"; "Y"]
              (Gttd.get_logo_indices ["X"; "Y"])
              (Gttd.get_logo_indices ["Y"; "Z"; "Y"])
              (get_logo_indices_indexes _))
    as (s & u & H1 & _ & H2 & _).
  exists s, u. split; [exact H1|exact H2].
Defined.

(** ** Fitting only on matched groups *)

Lemma filter_ext_elem {A} (P Q : A -> Prop) `{!forall x, Decision (P x)}
    `{!forall x, Decision (Q x)} (l : list A) :
  (forall x, x ∈ l -> (P x <-> Q x)) -> filter P l = filter Q l.
Proof.
  induction l as [|x l IH]; intros Hpq; [done|].
  rewrite !filter_cons.
  destruct (decide (P x)) as [HP|HP], (decide (Q x)) as [HQ|HQ].
  - f_equal. apply IH. intros y Hy. apply Hpq. by right.
  - exfalso. apply HQ, Hpq; [left|done].
  - exfalso. apply HP, Hpq; [left|done].
  - apply IH. intros y Hy. apply Hpq. by right.
Qed.

Lemma add_exclusive_filters d groups :
  foldl DataParser.add_exclusive_filter d groups
  = filter (fun r => DataParser.group r ∉ groups) d.
Proof.
  revert d. induction groups as [|g groups IH]; intros d.
  - change (d = filter (fun r => DataParser.group r ∉ []) d).
    induction d as [|r d IHd]; [done|].
    rewrite filter_cons_True by apply not_elem_of_nil. by rewrite <- IHd.
  - change (foldl DataParser.add_exclusive_filter
              (DataParser.add_exclusive_filter d g) groups
            = filter (fun r => DataParser.group r ∉ g :: groups) d).
    rewrite IH. unfold DataParser.add_exclusive_filter.
    rewrite list_filter_filter. apply list_filter_iff. intros r.
    rewrite not_elem_of_cons. tauto.
Qed.

Lemma indexes_keys labels im g : indexes labels im -> g ∈ Py.keys im <-> g ∈ labels.
Proof.
  intros (_ & Hl & Hrows). split; [|apply Hl].
  intros Hg. destruct (getitem_key im g Hg) as [idx Hidx].
  apply getitem_elem_of in Hidx. by apply (Hrows g idx).
Qed.

Lemma lookup_group_data (d : DataParser.dataset) i g :
  DataParser.get_group_data d !! i = Some g <->
  exists r, d !! i = Some r /\ DataParser.group r = g.
Proof.
  unfold DataParser.get_group_data. rewrite list_lookup_fmap.
  destruct (d !! i) as [r|]; simpl; split.
  - intros [= <-]. eauto.
  - intros (r' & [= <-] & <-). done.
  - discriminate.
  - intros (r' & [=] & _).
Qed.

(** [ExtrapolateFull.execute]: the rows fitted on are, once each, the rows
    of the training data whose group is matched. *)
Lemma fit_data_matched (data : DataParser.dataset) fit_indices mgs :
  indexes (DataParser.get_group_data data) fit_indices ->
  NoDup mgs -> (forall g, g ∈ mgs -> g ∈ Py.keys fit_indices) ->
  exists fit_index X y,
    ExtrapolateFull.fit_index fit_indices mgs = Ok fit_index /\
    ExtrapolateFull.fit_data data fit_indices mgs 1 = Ok (X, y) /\
    Np.take (DataParser.get_x_data data) fit_index = Ok X /\
    Np.take (DataParser.get_y_data data) fit_index = Ok y /\
    NoDup fit_index /\
    forall i, i ∈ fit_index <->
      exists r, data !! i = Some r /\ DataParser.group r ∈ mgs.
Proof.
  intros Hidx Hnd Hk.
  set (labels := DataParser.get_group_data data) in *.
  assert (Hin : forall i, i ∈ mgs ≫= group_rows fit_indices <->
            exists r, data !! i = Some r /\ DataParser.group r ∈ mgs).
  { intros i. rewrite list_elem_of_bind. split.
    - intros (g & Hi & Hg).
      apply (indexes_key_rows labels) in Hi; [|done|by apply Hk].
      apply lookup_group_data in Hi as (r & Hr & <-). eauto.
    - intros (r & Hr & Hg). exists (DataParser.group r). split; [|done].
      apply (indexes_key_rows labels); [done|by apply Hk|].
      apply lookup_group_data. eauto. }
  assert (Hrange : Forall (fun i => i < length data)
                     (mgs ≫= group_rows fit_indices)).
  { apply Forall_forall. intros i (r & Hr & _)%Hin.
    by apply lookup_lt_Some in Hr. }
  destruct (take_in_range (DataParser.get_x_data data)
              (mgs ≫= group_rows fit_indices)) as (X & HX & _).
  { unfold DataParser.get_x_data. by rewrite length_map. }
  destruct (take_in_range (DataParser.get_y_data data)
              (mgs ≫= group_rows fit_indices)) as (y & Hy & _).
  { unfold DataParser.get_y_data. by rewrite length_map. }
  exists (mgs ≫= group_rows fit_indices), X, y.
  split_and!; [by apply fit_index_rows| |done|done| |done].
  - unfold ExtrapolateFull.fit_data. rewrite decide_True by done.
    rewrite fit_index_rows by done. simpl. rewrite HX. simpl.
    rewrite Hy. done.
  - apply NoDup_bind; [| |done].
    + intros g1 g2 i Hg1 Hg2 Hi1 Hi2.
      apply (indexes_key_rows labels) in Hi1; [|done|by apply Hk].
      apply (indexes_key_rows labels) in Hi2; [|done|by apply Hk].
      congruence.
    + intros g Hg. destruct (getitem_key fit_indices g (Hk g Hg)) as [idx Hi].
      unfold group_rows. rewrite Hi. apply getitem_elem_of in Hi.
      destruct Hidx as (_ & _ & Hrows). by apply (Hrows g idx).
Qed.

(** [SingleFitGrouped.set_data] and [ExtrapolateFullFit.execute]: filtering
    out the training groups that are not in the testing data keeps, in
    order, the training rows whose group is in the testing data. *)
Lemma exclusive_filters_matched (train : DataParser.dataset)
    (train_groups test_groups : list string) :
  (forall r, r ∈ train -> DataParser.group r ∈ train_groups) ->
  foldl DataParser.add_exclusive_filter train
    (Np.setdiff1d train_groups test_groups)
  = filter (fun r => DataParser.group r ∈ test_groups) train.
Proof.
  intros Htrain. rewrite add_exclusive_filters.
  apply filter_ext_elem. intros r Hr. rewrite elem_of_setdiff1d.
  specialize (Htrain r Hr).
  destruct (decide (DataParser.group r ∈ test_groups)); tauto.
Qed.



(** ** Root-mean-squared error *)

Lemma sum_squares_take (a b : list R) rows xs ys :
  Np.take a rows = Ok xs -> Np.take b rows = Ok ys ->
  Sklearn.sum (zip_with (fun t p => ((t - p) ^ 2)%R) xs ys)
  = foldr Rplus 0%R (map (fun i => ((nth i a 0 - nth i b 0) ^ 2)%R) rows) /\
  length (zip_with (fun t p => ((t - p) ^ 2)%R) xs ys) = length rows.
Proof.
  rewrite !take_Ok. intros Ha. revert ys.
  induction Ha as [|i x rows xs Hi Ha IH]; intros ys Hb.
  - inversion Hb. done.
  - inversion Hb as [|? y ? ys' Hj Hb']; subst.
    destruct (IH ys' Hb') as [IH1 IH2]. unfold Sklearn.sum in *.
    cbn [zip_with foldr map length]. rewrite IH1, IH2.
    by rewrite !nth_lookup, Hi, Hj.
Qed.

(** The square root of [mean_squared_error] over the rows [rows] is the RMSE
    of the specification, whichever of the two arrays is passed first. *)
Lemma rmse_rows (y_hat y : list R) rows ps ys :
  Np.take y_hat rows = Ok ps -> Np.take y rows = Ok ys ->
  match rows with
  | [] => raises (Sklearn.mean_squared_error ys ps) /\
          raises (Sklearn.mean_squared_error ps ys)
  | _ :: _ =>
      rbind (Sklearn.mean_squared_error ys ps) (fun mse => Ok (Np.sqrt mse))
      = Ok (rmse_spec y_hat y rows) /\
      rbind (Sklearn.mean_squared_error ps ys) (fun mse => Ok (Np.sqrt mse))
      = Ok (rmse_spec y_hat y rows)
  end.
Proof.
  intros Hp Hy.
  pose proof (take_length _ _ _ Hp) as Lp.
  pose proof (take_length _ _ _ Hy) as Ly.
  destruct (sum_squares_take y y_hat rows ys ps Hy Hp) as [S1 L1].
  destruct (sum_squares_take y_hat y rows ps ys Hp Hy) as [S2 L2].
  unfold Sklearn.mean_squared_error.
  rewrite (decide_True (P := length ys = length ps)) by congruence.
  rewrite (decide_True (P := length ps = length ys)) by congruence.
  destruct rows as [|i rows].
  - rewrite !decide_True by done. split; eexists; reflexivity.
  - rewrite !decide_False by (simpl in *; lia).
    cbn [rbind]. unfold Sklearn.average, Np.sqrt, rmse_spec.
    rewrite S1, S2, L1, L2. split; [|done].
    do 4 f_equal. apply map_ext. intros j. ring.
Qed.

(** ** The run of [ExtrapolateFull.execute] *)

Section execute_properties.
Context {Model : Type}.
Variable fit : Model -> list (list R) -> list R -> Model * result unit.
Variable predict : Model -> list (list R) -> result (list R).
Variable get_field_logo_indices : DataParser.dataset -> index_map.

Let execute := ExtrapolateFull.execute fit predict get_field_logo_indices.

Lemma fit_data_returns data fit_indices mgs flag :
  indexes (DataParser.get_group_data data) fit_indices ->
  NoDup mgs -> (forall g, g ∈ mgs -> g ∈ Py.keys fit_indices) ->
  exists X y, ExtrapolateFull.fit_data data fit_indices mgs flag = Ok (X, y).
Proof.
  intros Hidx Hnd Hk. destruct (decide (flag = 1%Z)) as [->|Hne].
  - destruct (fit_data_matched data fit_indices mgs Hidx Hnd Hk)
      as (_ & X & y & _ & H & _). eauto.
  - unfold ExtrapolateFull.fit_data. rewrite decide_False by done. eauto.
Qed.

Ltac run_unfold :=
  unfold execute, ExtrapolateFull.execute, bind, lift, ret,
    ExtrapolateFull.model_fit, ExtrapolateFull.model_predict,
    ExtrapolateFull.mean_squared_error,
    ExtrapolateFull.single_supported_unsupported.

Ltac run_cases :=
  repeat match goal with
    | |- context [match ?r with Ok _ => _ | Raise _ => _ end] =>
        destruct r; cbn [fst snd log model]
    end.

(** C6 (amended): in every run, [fit] is called exactly once, as the first
    call, on the training arrays that [fit_data] selects; the model the run
    leaves behind is the one this call leaves.  When [fit] returns,
    [predict] is called once on the full feature matrix of the evaluation
    data, never per group; when this call returns and a dataset of standard
    conditions is given, [predict] is called once more, on the full feature
    matrix of the standard conditions.  Every metric and plot call comes
    after these model calls, and there is no other model call.  A model
    call that raises is the last call of the run, which raises the same
    exception. *)
Theorem fit_once_predict_once_per_dataset data topredict_data std_data
    measerrfield plot_filter_out fit_only_on_matched_groups w
    (Hidx : indexes (DataParser.get_group_data data)
              (get_field_logo_indices data)) :
  let fit_indices := get_field_logo_indices data in
  let topredict_indices := get_field_logo_indices topredict_data in
  let mgs := Np.intersect1d (Py.keys fit_indices) (Py.keys topredict_indices) in
  let ran := execute data topredict_data std_data measerrfield plot_filter_out
               fit_only_on_matched_groups w in
  exists X y later,
    ExtrapolateFull.fit_data data fit_indices mgs fit_only_on_matched_groups
    = Ok (X, y) /\
    log ran.1 = log w ++ EvFit X y :: later /\
    model ran.1 = (fit (model w) X y).1 /\
    match (fit (model w) X y).2 with
    | Raise e => later = [] /\ ran.2 = Raise e
    | Ok _ =>
        exists later',
          later
          = EvPredict ToPredict (DataParser.get_x_data topredict_data)
            :: later' /\
          match predict (fit (model w) X y).1
                  (DataParser.get_x_data topredict_data) with
          | Raise e => later' = [] /\ ran.2 = Raise e
          | Ok _ =>
              match std_data with
              | None => Forall (fun e => is_model_call e = false) later'
              | Some std =>
                  exists stats,
                    later'
                    = EvPredict Standard (DataParser.get_x_data std) :: stats /\
                    match predict (fit (model w) X y).1
                            (DataParser.get_x_data std) with
                    | Raise e => stats = [] /\ ran.2 = Raise e
                    | Ok _ => Forall (fun e => is_model_call e = false) stats
                    end
              end
          end
    end.
Proof.
  intros fit_indices topredict_indices mgs ran.
  destruct (fit_data_returns data fit_indices mgs fit_only_on_matched_groups)
    as (X & y & Hfd); [done|apply NoDup_intersect1d| |].
  { intros g Hg. unfold mgs in Hg. by apply elem_of_intersect1d in Hg as [? _]. }
  exists X, y. subst ran. run_unfold.
  fold fit_indices topredict_indices mgs.
  rewrite Hfd, supported_unsupported_rows.
  destruct (fit (model w) X y) as [m' [[]|e]]; cbn [fst snd log model].
  2: { exists []. by split_and!. }
  destruct (predict m' (DataParser.get_x_data topredict_data)) as [Yp|e];
    cbn [fst snd log model].
  2: { eexists. split; [reflexivity|].
       split; [rewrite <- !(assoc_L (++)); reflexivity|].
       split; [done|]. eexists. split; [reflexivity|]. done. }
  destruct std_data as [std|]; cbn [fst snd log model].
  - destruct (predict m' (DataParser.get_x_data std)) as [sYp|e];
      cbn [fst snd log model].
    2: { eexists. split; [reflexivity|].
       split; [rewrite <- !(assoc_L (++)); reflexivity|].
         split; [done|]. eexists. split; [reflexivity|].
         eexists. split; [reflexivity|]. done. }
    run_cases;
      (eexists; split; [reflexivity|]);
      (split; [rewrite <- !(assoc_L (++)); reflexivity|]);
      (split; [done|]); (eexists; split; [reflexivity|]);
      (eexists; split; [reflexivity|]); repeat constructor.
  - run_cases;
      (eexists; split; [reflexivity|]);
      (split; [rewrite <- !(assoc_L (++)); reflexivity|]);
      (split; [done|]); (eexists; split; [reflexivity|]);
      repeat constructor.
Qed.

(** C10: [plot_filter_out] is bound and never read: two runs that differ
    only in it leave the same world (fitted model and calls made) and return
    the same locals (predictions, overall, supported and unsupported RMSE),
    or raise the same exception. *)
Theorem plot_filter_out_has_no_effect data topredict_data std_data measerrfield
    plot_filter_out1 plot_filter_out2 fit_only_on_matched_groups w :
  execute data topredict_data std_data measerrfield plot_filter_out1
    fit_only_on_matched_groups w
  = execute data topredict_data std_data measerrfield plot_filter_out2
      fit_only_on_matched_groups w.
Proof. reflexivity. Qed.

Lemma take_all {A} (arr : list A) :
  Np.take arr (seq 0 (length arr)) = Ok arr.
Proof.
  apply take_Ok. apply Forall2_lookup. intros i.
  destruct (decide (i < length arr)) as [Hi|Hi].
  - rewrite lookup_seq_lt by done.
    destruct (lookup_lt_is_Some_2 arr i Hi) as [a Ha]. rewrite Ha.
    constructor. done.
  - rewrite lookup_seq_ge, lookup_ge_None_2 by lia. constructor.
Qed.

Lemma mean_squared_error_lengths ys ps m :
  Sklearn.mean_squared_error ys ps = Ok m ->
  length ys = length ps /\ length ys <> 0.
Proof.
  unfold Sklearn.mean_squared_error.
  repeat case_decide; try discriminate. done.
Qed.

Ltac run_cases_eq :=
  repeat match goal with
    | H : context [match ?r with Ok _ => _ | Raise _ => _ end] |- _ =>
        destruct r eqn:?; cbn [fst snd log model] in H; try discriminate H
    end.

(** What a run that returns has computed. *)
Lemma execute_returns data topredict_data std_data measerrfield
    plot_filter_out fit_only_on_matched_groups w w' out :
  execute data topredict_data std_data measerrfield plot_filter_out
    fit_only_on_matched_groups w = (w', Ok out) ->
  let y := DataParser.get_y_data topredict_data in
  let topredict_indices := get_field_logo_indices topredict_data in
  ExtrapolateFull.supported_unsupported topredict_indices
    (ExtrapolateFull.match_groups out)
  = Ok (ExtrapolateFull.supported_index out,
        ExtrapolateFull.unsupported_index out) /\
  ExtrapolateFull.match_groups out
  = Np.intersect1d (Py.keys (get_field_logo_indices data))
      (Py.keys topredict_indices) /\
  predict (model w') (DataParser.get_x_data topredict_data)
  = Ok (ExtrapolateFull.Ypredict out) /\
  ExtrapolateFull.supported_index out <> [] /\
  ExtrapolateFull.unsupported_index out <> [] /\
  ExtrapolateFull.overall_rms out
  = rmse_spec (ExtrapolateFull.Ypredict out) y (seq 0 (length y)) /\
  ExtrapolateFull.supported_rms out
  = rmse_spec (ExtrapolateFull.Ypredict out) y
      (ExtrapolateFull.supported_index out) /\
  ExtrapolateFull.unsupported_rms out
  = rmse_spec (ExtrapolateFull.Ypredict out) y
      (ExtrapolateFull.unsupported_index out).
Proof.
  intros Hrun y topredict_indices. revert Hrun. unfold y. run_unfold.
  rewrite supported_unsupported_rows.
  destruct (ExtrapolateFull.fit_data _ _ _ _) as [[X fy]|]; [|discriminate].
  cbn [fst snd log model].
  destruct (fit (model w) X fy) as [m' [[]|e]]; cbn [fst snd log model];
    [|discriminate].
  destruct (predict m' (DataParser.get_x_data topredict_data)) as [Yp|e]
    eqn:HYp; cbn [fst snd log model]; [|discriminate].
  set (sup := _ ≫= _). set (unsup := _ ≫= _).
  set (ty := DataParser.get_y_data topredict_data).
  intros Hrun.
  assert (exists sy sp uy up m ms mu sY,
    Sklearn.mean_squared_error ty Yp = Ok m /\
    Np.take ty sup = Ok sy /\ Np.take Yp sup = Ok sp /\
    Sklearn.mean_squared_error sy sp = Ok ms /\
    Np.take ty unsup = Ok uy /\ Np.take Yp unsup = Ok up /\
    Sklearn.mean_squared_error uy up = Ok mu /\
    model w' = m' /\
    out = ExtrapolateFull.Locals X fy
            (Np.intersect1d (Py.keys (get_field_logo_indices data))
               (Py.keys (get_field_logo_indices topredict_data)))
            sup unsup Yp sY
            (Np.sqrt m) (Np.sqrt ms) (Np.sqrt mu)) as Hsteps.
  { destruct std_data as [std|]; cbn [fst snd log model] in Hrun;
      run_cases_eq; injection Hrun as <- <-.
      all: do 8 eexists.
      all: do 3 (split; [reflexivity|]); split; [eassumption|].
      all: do 2 (split; [reflexivity|]); split; [eassumption|].
      all: split; reflexivity. }
  clear Hrun.
  destruct Hsteps as (sy & sp & uy & up & m & ms & mu & sY & Hm & Hsy & Hsp
                      & Hms & Huy & Hup & Hmu & Hmodel & ->).
  cbn [ExtrapolateFull.match_groups ExtrapolateFull.supported_index
       ExtrapolateFull.unsupported_index ExtrapolateFull.Ypredict
       ExtrapolateFull.overall_rms ExtrapolateFull.supported_rms
       ExtrapolateFull.unsupported_rms].
  rewrite Hmodel.
  pose proof (mean_squared_error_lengths _ _ _ Hm) as [Ll Ln].
  pose proof (rmse_rows Yp ty sup sp sy Hsp Hsy) as Hs.
  pose proof (rmse_rows Yp ty unsup up uy Hup Huy) as Hu.
  pose proof (rmse_rows Yp ty (seq 0 (length ty)) Yp ty) as Ho.
  rewrite Ll in Ho at 1. specialize (Ho (take_all Yp) (take_all ty)).
  split_and!.
  - apply supported_unsupported_rows.
  - reflexivity.
  - exact HYp.
  - intros E. rewrite E in Hs. destruct Hs as [[e He] _]. congruence.
  - intros E. rewrite E in Hu. destruct Hu as [[e He] _]. congruence.
  - destruct (seq 0 (length ty)) eqn:Eseq.
    + apply (f_equal length) in Eseq. rewrite length_seq in Eseq. done.
    + destruct Ho as [Ho _]. rewrite Hm in Ho. simpl in Ho. congruence.
  - destruct sup; [destruct Hs as [[e He] _]; congruence|].
    destruct Hs as [Hs _]. rewrite Hms in Hs. simpl in Hs. congruence.
  - destruct unsup; [destruct Hu as [[e He] _]; congruence|].
    destruct Hu as [Hu _]. rewrite Hmu in Hu. simpl in Hu. congruence.
Qed.

Lemma mean_squared_error_raises ys ps e :
  Sklearn.mean_squared_error ys ps = Raise e ->
  length ys <> length ps \/ length ys = 0.
Proof.
  unfold Sklearn.mean_squared_error.
  repeat case_decide; try discriminate; tauto.
Qed.

Lemma take_raises {A} (arr : list A) index e :
  Np.take arr index = Raise e ->
  ~ Forall (fun i => i < length arr) index.
Proof.
  intros Hr Hall. destruct (take_in_range arr index Hall) as (l & Hl & _).
  congruence.
Qed.

(** A run returns when the index maps are those of the label columns, the
    call of [fit] on the training arrays returns, the fitted model predicts
    one value per row, and the evaluation data has a row of a group seen in
    training and a row of a group not seen in training. *)
Lemma execute_total_fitted data topredict_data std_data measerrfield
    plot_filter_out fit_only_on_matched_groups w X fy :
  indexes (DataParser.get_group_data data) (get_field_logo_indices data) ->
  indexes (DataParser.get_group_data topredict_data)
    (get_field_logo_indices topredict_data) ->
  ExtrapolateFull.fit_data data (get_field_logo_indices data)
    (Np.intersect1d (Py.keys (get_field_logo_indices data))
       (Py.keys (get_field_logo_indices topredict_data)))
    fit_only_on_matched_groups = Ok (X, fy) ->
  (fit (model w) X fy).2 = Ok tt ->
  (forall X', exists Yp,
     predict (fit (model w) X fy).1 X' = Ok Yp /\ length Yp = length X') ->
  (exists r, r ∈ topredict_data /\
     DataParser.group r ∈ DataParser.get_group_data data) ->
  (exists r, r ∈ topredict_data /\
     DataParser.group r ∉ DataParser.get_group_data data) ->
  exists w' out,
    execute data topredict_data std_data measerrfield plot_filter_out
      fit_only_on_matched_groups w = (w', Ok out).
Proof.
  intros Hfit Htop Hfd Hfitted Hpred (rs & Hrs & Hgs) (ru & Hru & Hgu).
  set (fi := get_field_logo_indices data) in *.
  set (ti := get_field_logo_indices topredict_data) in *.
  set (mgs := Np.intersect1d (Py.keys fi) (Py.keys ti)) in *.
  set (n := length topredict_data).
  assert (Hm : forall g, g ∈ mgs <->
            g ∈ DataParser.get_group_data data /\
            g ∈ DataParser.get_group_data topredict_data).
  { intros g. unfold mgs. rewrite elem_of_intersect1d.
    by rewrite (indexes_keys _ _ g Hfit), (indexes_keys _ _ g Htop). }
  assert (Hrow : forall r, r ∈ topredict_data ->
            exists i, i ∈ group_rows ti (DataParser.group r) /\
                      DataParser.group r ∈ Py.keys ti).
  { intros r [i Hi]%list_elem_of_lookup. exists i.
    assert (DataParser.group r ∈ Py.keys ti) as Hk.
    { apply (indexes_keys _ _ _ Htop). unfold DataParser.get_group_data.
      apply list_elem_of_fmap. exists r. split; [done|].
      by eapply list_elem_of_lookup_2. }
    split; [|done]. apply (indexes_key_rows _ _ _ _ Htop Hk).
    apply lookup_group_data. eauto. }
  set (sup := filter (fun g => g ∈ mgs) (Py.keys ti) ≫= group_rows ti).
  set (unsup := filter (fun g => g ∉ mgs) (Py.keys ti) ≫= group_rows ti).
  assert (Hrange : forall gs : list string,
            (forall g, g ∈ gs -> g ∈ Py.keys ti) ->
            Forall (fun i => i < n) (gs ≫= group_rows ti)).
  { intros gs Hgs'. apply Forall_forall. intros i.
    rewrite list_elem_of_bind. intros (g & Hi & Hk%Hgs').
    apply (indexes_key_rows _ _ _ _ Htop Hk) in Hi.
    apply lookup_lt_Some in Hi. unfold DataParser.get_group_data in Hi.
    by rewrite length_map in Hi. }
  assert (Hsup : sup <> []).
  { destruct (Hrow rs Hrs) as (i & Hi & Hk). intros E.
    assert (i ∈ sup) as Hin.
    { apply list_elem_of_bind. exists (DataParser.group rs).
      split; [done|]. apply list_elem_of_filter. split; [|done].
      apply Hm. split; [done|]. by apply (indexes_keys _ _ _ Htop). }
    rewrite E in Hin. by apply elem_of_nil in Hin. }
  assert (Hunsup : unsup <> []).
  { destruct (Hrow ru Hru) as (i & Hi & Hk). intros E.
    assert (i ∈ unsup) as Hin.
    { apply list_elem_of_bind. exists (DataParser.group ru).
      split; [done|]. apply list_elem_of_filter. split; [|done].
      rewrite Hm. tauto. }
    rewrite E in Hin. by apply elem_of_nil in Hin. }
  set (ty := DataParser.get_y_data topredict_data).
  destruct (Hpred (DataParser.get_x_data topredict_data))
    as (Yp & HYp & LYp').
  set (err := match measerrfield with
              | Some _ => DataParser.get_err_data topredict_data
              | None => Np.zeros (length ty)
              end).
  assert (Lty : length ty = n)
    by (unfold ty, DataParser.get_y_data; by rewrite length_map).
  assert (LYp : length Yp = n).
  { rewrite LYp'. unfold DataParser.get_x_data. by rewrite length_map. }
  assert (Lerr : length err = n).
  { unfold err. destruct measerrfield.
    - unfold DataParser.get_err_data. by rewrite length_map.
    - unfold Np.zeros. by rewrite length_replicate. }
  assert (Hn : n <> 0).
  { unfold n. destruct topredict_data; [by apply elem_of_nil in Hrs|done]. }
  assert (Hin : forall (arr : list R) idx, length arr = n ->
            (idx = sup \/ idx = unsup) ->
            Forall (fun i => i < length arr) idx).
  { intros arr idx -> [->| ->]; apply Hrange; intros g Hg;
      by apply list_elem_of_filter in Hg as [_ ?]. }
  run_unfold. fold fi ti mgs. rewrite Hfd, supported_unsupported_rows.
  fold sup unsup ty err.
  destruct (fit (model w) X fy) as [m' fitted].
  cbn [fst snd] in Hfitted, HYp, Hpred. subst fitted.
  cbn [fst snd log model]. rewrite HYp.
  destruct std_data as [std|]; cbn [fst snd log model];
    [destruct (Hpred (DataParser.get_x_data std)) as (sYp & -> & _)|];
    cbn [fst snd log model];
    repeat match goal with
      | |- context [match ?r with Ok _ => _ | Raise _ => _ end] =>
          destruct r eqn:?; cbn [fst snd log model]
      end;
    try (by eexists _, _);
    exfalso;
    repeat match goal with
      | H : Np.take _ _ = Ok _ |- _ => apply take_length in H
      end;
    match goal with
    | H : Sklearn.mean_squared_error _ _ = Raise _ |- _ =>
        apply mean_squared_error_raises in H;
        destruct sup, unsup; simpl in *; try done; lia
    | H : Np.take _ _ = Raise _ |- _ =>
        apply take_raises in H; apply H; apply Hin; tauto
    end.
Qed.


End execute_properties.

(** C1 (the code departs from the claim): with no supported row, with no
    unsupported row, or with no evaluation row at all, the run raises the
    [ValueError] of [mean_squared_error] instead of reporting an undefined
    RMSE.  The log shows the call that raises: the metric on two empty
    arrays, after the model was fitted and has predicted. *)
Theorem execute_raises_on_empty_rows :
  let no_sample :=
    ValueError "Found array with 0 sample(s) (shape=(0,)) while a minimum of 1 is required." in
  Scenario.execute Scenario.unseen
  = (World tt [EvFit [[1%R]; [2%R]] [1%R; 2%R];
               EvPredict ToPredict [[6%R]];
               EvMeanSquaredError [4%R] [6%R];
               EvMeanSquaredError [] []],
     Raise no_sample) /\
  Scenario.execute Scenario.seen
  = (World tt [EvFit [[1%R]; [2%R]] [1%R; 2%R];
               EvPredict ToPredict [[3%R]];
               EvMeanSquaredError [3%R] [3%R];
               EvMeanSquaredError [3%R] [3%R];
               EvMeanSquaredError [] []],
     Raise no_sample) /\
  Scenario.execute []
  = (World tt [EvFit [[1%R]; [2%R]] [1%R; 2%R];
               EvPredict ToPredict [];
               EvMeanSquaredError [] []],
     Raise no_sample).
Proof. split_and!; vm_compute; reflexivity. Qed.

(** ** Per-group statistics (SingleFitGrouped.py, lines 172-189) *)


Lemma g_rmse_returns self g_index y :
  SingleFitGrouped.testing_target_data (SingleFitGrouped.base self) = Some y ->
  g_index <> [] ->
  Forall (fun i => i < length y) g_index ->
  Forall (fun i => i < length (SingleFitGrouped.testing_target_prediction
                                 (SingleFitGrouped.base self))) g_index ->
  SingleFitGrouped.g_rmse self g_index
  = Ok (rmse_spec
          (SingleFitGrouped.testing_target_prediction (SingleFitGrouped.base self))
          y g_index).
Proof.
  intros Hy Hne Hry Hrp. unfold SingleFitGrouped.g_rmse.
  destruct (take_in_range _ _ Hrp) as (ps & Hps & _).
  destruct (take_in_range _ _ Hry) as (ys & Hys & _).
  rewrite Hps, Hy. cbn [rbind Py.not_none]. rewrite Hys. cbn [rbind].
  pose proof (rmse_rows _ _ _ _ _ Hps Hys) as Hr.
  destruct g_index; [done|]. by destruct Hr as [_ ->].
Qed.

(** The loop body writes the record of the specification. *)
Lemma group_statistics_returns self ti y stats group :
  SingleFitGrouped.test_group_indices self = Some ti ->
  SingleFitGrouped.testing_target_data (SingleFitGrouped.base self) = Some y ->
  group ∈ Py.keys ti ->
  group_rows ti group <> [] ->
  Forall (fun i => i < length y) (group_rows ti group) ->
  Forall (fun i => i < length (SingleFitGrouped.testing_target_prediction
                                 (SingleFitGrouped.base self)))
    (group_rows ti group) ->
  SingleFitGrouped.group_statistics self stats group
  = Ok (<[group :=
           group_record_spec
             (SingleFitGrouped.plot_filter_out (SingleFitGrouped.base self))
             (SingleFitGrouped.plotting_index (SingleFitGrouped.base self))
             (SingleFitGrouped.testing_target_prediction (SingleFitGrouped.base self))
             y (group_rows ti group)]> stats).
Proof.
  intros Hti Hy Hk Hne Hry Hrp.
  unfold SingleFitGrouped.group_statistics, group_record_spec.
  rewrite Hti. cbn [rbind Py.not_none].
  destruct (getitem_key ti group Hk) as [idx Hidx].
  assert (group_rows ti group = idx) as Hrows
    by (unfold group_rows; by rewrite Hidx).
  rewrite Hrows in *. rewrite Hidx. cbn [rbind].
  rewrite (g_rmse_returns self idx y) by done. cbn [rbind].
  destruct (SingleFitGrouped.plot_filter_out _) as [pf|]; [|done].
  remember (Np.intersect1d_idx idx _) as fidx eqn:Ef.
  assert (Hsub : forall i, i ∈ fidx -> i ∈ idx).
  { intros i Hi. rewrite Ef in Hi.
    by apply elem_of_intersect1d_idx in Hi as [? _]. }
  clear Ef. destruct fidx as [|i rest].
  - rewrite decide_False by (simpl; lia). done.
  - rewrite decide_True by (simpl; lia).
    rewrite (g_rmse_returns self (i :: rest) y); [|done|done| |].
    + cbn [rbind]. by rewrite insert_insert_eq.
    + apply Forall_forall. intros j Hj.
      apply (proj1 (Forall_forall _ _) Hry). by apply Hsub.
    + apply Forall_forall. intros j Hj.
      apply (proj1 (Forall_forall _ _) Hrp). by apply Hsub.
Qed.

Lemma for_each_inserts {V} (body : gmap string V -> string -> result (gmap string V))
    (rec : string -> V) (groups : list string) stats :
  (forall st g, g ∈ groups -> body st g = Ok (<[g := rec g]> st)) ->
  exists stats',
    for_each groups body stats = Ok stats' /\
    forall g, stats' !! g = if decide (g ∈ groups) then Some (rec g)
                            else stats !! g.
Proof.
  revert stats. induction groups as [|g0 groups IH]; intros stats Hbody.
  - exists stats. split; [done|]. intros g.
    rewrite decide_False by apply not_elem_of_nil. done.
  - cbn [for_each]. rewrite Hbody by left. cbn [rbind].
    destruct (IH (<[g0 := rec g0]> stats)) as (stats' & Hloop & Hlook).
    { intros st g Hg. apply Hbody. by right. }
    exists stats'. split; [done|]. intros g. rewrite Hlook.
    destruct (decide (g ∈ groups)) as [Hg|Hg].
    + rewrite decide_True by (by right). done.
    + destruct (decide (g = g0)) as [->|Hne].
      * rewrite decide_True by left. by rewrite lookup_insert_eq.
      * rewrite decide_False by (rewrite elem_of_cons; tauto).
        by rewrite lookup_insert_ne.
Qed.

(** [indexes] makes the rows of every group non-empty and in range. *)
Lemma indexes_rows_in_range labels im g :
  indexes labels im -> g ∈ Py.keys im ->
  group_rows im g <> [] /\
  Forall (fun i => i < length labels) (group_rows im g).
Proof.
  intros Hidx Hk. split.
  - pose proof Hidx as (_ & _ & Hrows).
    apply (indexes_keys labels im g Hidx) in Hk as Hl.
    apply list_elem_of_lookup in Hl as [i Hi].
    apply (indexes_key_rows labels im g i Hidx Hk) in Hi.
    intros E. rewrite E in Hi. by apply elem_of_nil in Hi.
  - apply Forall_forall. intros i Hi.
    apply (indexes_key_rows labels im g i Hidx Hk) in Hi.
    by apply lookup_lt_Some in Hi.
Qed.

(** The whole loop: every testing group gets the record of the
    specification and no other entry of the mapping changes. *)
Lemma get_per_group_statistics_returns self labels ti y :
  SingleFitGrouped.test_groups self = Some (Py.keys ti) ->
  SingleFitGrouped.test_group_indices self = Some ti ->
  indexes labels ti ->
  SingleFitGrouped.testing_target_data (SingleFitGrouped.base self) = Some y ->
  length y = length labels ->
  length (SingleFitGrouped.testing_target_prediction (SingleFitGrouped.base self))
  = length labels ->
  exists stats',
    SingleFitGrouped.get_per_group_statistics self
    = Ok (SingleFitGrouped.set_per_group_statistics self stats') /\
    forall g,
      stats' !! g =
        if decide (g ∈ Py.keys ti) then
          Some (group_record_spec
                  (SingleFitGrouped.plot_filter_out (SingleFitGrouped.base self))
                  (SingleFitGrouped.plotting_index (SingleFitGrouped.base self))
                  (SingleFitGrouped.testing_target_prediction
                     (SingleFitGrouped.base self))
                  y (group_rows ti g))
        else SingleFitGrouped.per_group_statistics self !! g.
Proof.
  intros Htg Hti Hidx Hy Hly Hlp.
  unfold SingleFitGrouped.get_per_group_statistics.
  rewrite Htg. cbn [rbind Py.not_none].
  edestruct (for_each_inserts (SingleFitGrouped.group_statistics self))
    as (stats' & Hloop & Hlook).
  { intros st g Hg.
    destruct (indexes_rows_in_range labels ti g Hidx Hg) as [Hne Hr].
    apply (group_statistics_returns self ti y st g); try done.
    - by rewrite Hly.
    - by rewrite Hlp. }
  rewrite Hloop. cbn [rbind]. exists stats'. split; [done|exact Hlook].
Qed.

Lemma intersect1d_idx_nonempty a b :
  Np.intersect1d_idx a b <> [] <-> exists i, i ∈ a /\ i ∈ b.
Proof.
  split.
  - destruct (Np.intersect1d_idx a b) as [|i l] eqn:E; [done|].
    intros _. exists i. apply elem_of_intersect1d_idx. rewrite E. left.
  - intros (i & Ha & Hb) E.
    assert (i ∈ Np.intersect1d_idx a b) as Hi
      by (apply elem_of_intersect1d_idx; done).
    rewrite E in Hi. by apply elem_of_nil in Hi.
Qed.

Lemma group_record_spec_lookup pf pidx y_hat y rows :
  group_record_spec pf pidx y_hat y rows !! "rmse"
  = Some (rmse_spec y_hat y rows) /\
  group_record_spec pf pidx y_hat y rows !! "rmse_plot_filter_out"
  = match pf, Np.intersect1d_idx rows pidx with
    | Some _, _ :: _ => Some (rmse_spec y_hat y (Np.intersect1d_idx rows pidx))
    | _, _ => None
    end.
Proof.
  unfold group_record_spec.
  destruct pf as [f|], (Np.intersect1d_idx rows pidx) as [|i l];
    by rewrite ?lookup_insert_eq, ?lookup_insert_ne, ?lookup_singleton_eq,
         ?lookup_singleton_ne by done.
Qed.




(** C8: after [get_per_group_statistics] on a freshly constructed object,
    the mapping has a record for exactly the testing groups; every record
    has [rmse]; and [rmse_plot_filter_out] is present in the record of a
    group if and only if a plot filter was given and some row of the group is
    in the filtered row set.  Otherwise the key is absent. *)
Theorem filtered_rmse_present_iff_rows_survive
    (self : SingleFitGrouped.t) (labels : list string) (ti : index_map)
    (y : list R)
    (Hnew : SingleFitGrouped.per_group_statistics self = ∅)
    (Htg : SingleFitGrouped.test_groups self = Some (Py.keys ti))
    (Hti : SingleFitGrouped.test_group_indices self = Some ti)
    (Hidx : indexes labels ti)
    (Hy : SingleFitGrouped.testing_target_data (SingleFitGrouped.base self)
          = Some y)
    (Hly : length y = length labels)
    (Hlp : length (SingleFitGrouped.testing_target_prediction
                     (SingleFitGrouped.base self)) = length labels) :
  exists self',
    SingleFitGrouped.get_per_group_statistics self = Ok self' /\
    (forall group,
       is_Some (SingleFitGrouped.per_group_statistics self' !! group) <->
       group ∈ Py.keys ti) /\
    forall group rec,
      SingleFitGrouped.per_group_statistics self' !! group = Some rec ->
      is_Some (rec !! "rmse") /\
      (is_Some (rec !! "rmse_plot_filter_out") <->
         SingleFitGrouped.plot_filter_out (SingleFitGrouped.base self) <> None /\
         exists i, i ∈ group_rows ti group /\
                   i ∈ SingleFitGrouped.plotting_index (SingleFitGrouped.base self)) /\
      (rec !! "rmse_plot_filter_out" = None <->
         SingleFitGrouped.plot_filter_out (SingleFitGrouped.base self) = None \/
         Np.intersect1d_idx (group_rows ti group)
           (SingleFitGrouped.plotting_index (SingleFitGrouped.base self)) = []).
Proof.
  destruct (get_per_group_statistics_returns self labels ti y)
    as (stats' & Hrun & Hlook); try done.
  eexists. split; [exact Hrun|].
  cbn [SingleFitGrouped.per_group_statistics
       SingleFitGrouped.set_per_group_statistics].
  split.
  - intros group. rewrite Hlook. case_decide as Hg.
    + split; [done|]. intros _. by eexists.
    + rewrite Hnew, lookup_empty. split; [by intros [? ?]|done].
  - intros group rec. rewrite Hlook. case_decide as Hg.
    2: { rewrite Hnew, lookup_empty. discriminate. }
    intros [= <-].
    destruct (group_record_spec_lookup
                (SingleFitGrouped.plot_filter_out (SingleFitGrouped.base self))
                (SingleFitGrouped.plotting_index (SingleFitGrouped.base self))
                (SingleFitGrouped.testing_target_prediction
                   (SingleFitGrouped.base self))
                y (group_rows ti group)) as [-> ->].
    rewrite <- intersect1d_idx_nonempty.
    destruct (SingleFitGrouped.plot_filter_out _) as [pf|],
      (Np.intersect1d_idx _ _) as [|i l]; split_and!; try (by eexists).
    all: rewrite ?is_Some_alt.
    all: split; try done; try tauto.
    all: try (intros [? ?]; done).
    all: try (intros [?|?]; discriminate).
    all: try (intros _; by right).
    all: try (intros _; by left).
Qed.

Lemma filtered_rmse_present_iff_rows_survive_witness :
  indexes ["Y"; "Y"; "Y"; "Z"] (Gttd.get_logo_indices ["Y"; "Y"; "Y"; "Z"]) /\
  exists self',
    SingleFitGrouped.get_per_group_statistics Scenario.grouped = Ok self' /\
    forall group,
      is_Some (SingleFitGrouped.per_group_statistics self' !! group) <->
      group ∈ Py.keys (Gttd.get_logo_indices ["Y"; "Y"; "Y"; "Z"]).
Proof.
  split; [apply get_logo_indices_indexes|].
  destruct (filtered_rmse_present_iff_rows_survive Scenario.grouped
              ["Y"; "Y"; "Y"; "Z"] (Gttd.get_logo_indices ["Y"; "Y"; "Y"; "Z"])
              [1%R; 2%R; 3%R; 4%R]
              eq_refl eq_refl eq_refl (get_logo_indices_indexes _)
              eq_refl eq_refl eq_refl)
    as (self' & Hrun & Hdom & _).
  exists self'. split; [exact Hrun|exact Hdom].
Defined.

Ltac rmse_value v :=
  unfold Np.sqrt, Sklearn.average, Sklearn.sum;
  cbn [foldr length];
  match goal with
  | |- R_sqrt.sqrt ?x = _ =>
      replace x with (v * v)%R by (simpl; lra)
  end;
  apply sqrt_square; lra.

Lemma scenario_run :
  exists w' out,
    Scenario.execute Scenario.evaluation = (w', Ok out) /\
    ExtrapolateFull.Ypredict out = [1%R; 2%R; 3%R; 6%R] /\
    ExtrapolateFull.match_groups out = ["Y"] /\
    ExtrapolateFull.supported_index out = [0; 1; 2] /\
    ExtrapolateFull.unsupported_index out = [3] /\
    ExtrapolateFull.overall_rms out = 1%R /\
    ExtrapolateFull.supported_rms out = 0%R /\
    ExtrapolateFull.unsupported_rms out = 2%R.
Proof.
  eexists _, _. split.
  - lazy -[Np.sqrt Sklearn.average Rminus Rplus Rmult IZR pow]. reflexivity.
  - cbn [ExtrapolateFull.Ypredict ExtrapolateFull.match_groups
         ExtrapolateFull.supported_index ExtrapolateFull.unsupported_index
         ExtrapolateFull.overall_rms ExtrapolateFull.supported_rms
         ExtrapolateFull.unsupported_rms].
    split_and!; try reflexivity.
    + rmse_value 1%R.
    + rmse_value 0%R.
    + rmse_value 2%R.
Qed.



(** C6, as stated, fails: with a dataset of standard conditions the run
    returns and has called [predict] twice, once on the evaluation matrix
    and once on the matrix of the standard conditions, so the model calls
    of the run are not one [fit] followed by one [predict]. *)
Lemma predict_is_called_twice_with_standard_data :
  (exists out, Scenario.execute_with_standard.2 = Ok out) /\
  filter (fun e => is_model_call e = true)
    (log Scenario.execute_with_standard.1)
  = [EvFit (DataParser.get_x_data Scenario.train)
       (DataParser.get_y_data Scenario.train);
     EvPredict ToPredict (DataParser.get_x_data Scenario.evaluation);
     EvPredict Standard (DataParser.get_x_data Scenario.seen)] /\
  ~ fits_then_predicts_once (log Scenario.execute_with_standard.1).
Proof.
  assert (filter (fun e => is_model_call e = true)
            (log Scenario.execute_with_standard.1)
          = [EvFit (DataParser.get_x_data Scenario.train)
               (DataParser.get_y_data Scenario.train);
             EvPredict ToPredict (DataParser.get_x_data Scenario.evaluation);
             EvPredict Standard (DataParser.get_x_data Scenario.seen)])
    as Hcalls by (vm_compute; reflexivity).
  split_and!.
  - eexists.
    lazy -[Np.sqrt Sklearn.average Rminus Rplus Rmult IZR pow]. reflexivity.
  - exact Hcalls.
  - intros (X & y & target & X' & H). rewrite Hcalls in H. discriminate.
Qed.

Lemma fit_once_predict_once_per_dataset_witness :
  indexes (DataParser.get_group_data Scenario.train)
    (Scenario.get_field_logo_indices Scenario.train) /\
  exists X y stats,
    log Scenario.execute_with_standard.1
    = EvFit X y
      :: EvPredict ToPredict (DataParser.get_x_data Scenario.evaluation)
      :: EvPredict Standard (DataParser.get_x_data Scenario.seen)
      :: stats /\
    Forall (fun e => is_model_call e = false) stats.
Proof.
  split; [apply get_logo_indices_indexes|].
  destruct (fit_once_predict_once_per_dataset Scenario.fit Scenario.predict
              Scenario.get_field_logo_indices Scenario.train
              Scenario.evaluation (Some Scenario.seen) None "" 0%Z Scenario.w0
              (get_logo_indices_indexes _))
    as (X & y & later & _ & Hlog & _ & later' & -> & stats & -> & Hstats).
  exists X, y, stats. split; [exact Hlog|exact Hstats].
Defined.

(** ** Configuration errors (SingleFitGrouped.py, lines 100-126) *)

(** C9: constructing a grouped fit with [grouping_feature] unset raises, and
    the exception is the [ValueError] of line 101 whenever the parent
    constructor returns; an object that was constructed has its grouping
    feature.  [set_data] raises the [ValueError] of line 125 when the testing
    target data is [None] after the parent's [set_data], and an object that
    passed [set_data] has testing target data.  In both cases whatever
    follows in the workflow ([rest]: fitting the model, predicting, the
    statistics) is not run. *)
Theorem missing_configuration_raises {parent_args A : Type}
    (SingleFit_init : parent_args -> result SingleFitGrouped.SingleFit)
    (SingleFit_set_data :
       SingleFitGrouped.SingleFit -> result SingleFitGrouped.SingleFit)
    (get_logo_indices : list string -> index_map)
    (rest : SingleFitGrouped.t -> result A) :
  (forall args k f,
     raises (SingleFitGrouped.__init__ SingleFit_init args None k f) /\
     raises (rbind (SingleFitGrouped.__init__ SingleFit_init args None k f) rest) /\
     forall b, SingleFit_init args = Ok b ->
       SingleFitGrouped.__init__ SingleFit_init args None k f
       = Raise (ValueError "grouping_feature is not set.")) /\
  (forall args gf k f self,
     SingleFitGrouped.__init__ SingleFit_init args gf k f = Ok self ->
     gf = Some (SingleFitGrouped.grouping_feature self)) /\
  (forall self,
     exists self1,
       SingleFitGrouped.filter_training_dataset
         (SingleFitGrouped.set_group_info get_logo_indices self) = Ok self1 /\
       forall b,
         SingleFit_set_data (SingleFitGrouped.base self1) = Ok b ->
         SingleFitGrouped.testing_target_data b = None ->
         SingleFitGrouped.set_data SingleFit_set_data get_logo_indices self
         = Raise (ValueError "testing target data cannot be None") /\
         rbind (SingleFitGrouped.set_data SingleFit_set_data get_logo_indices self)
           rest
         = Raise (ValueError "testing target data cannot be None")) /\
  (forall self self',
     SingleFitGrouped.set_data SingleFit_set_data get_logo_indices self
     = Ok self' ->
     is_Some (SingleFitGrouped.testing_target_data
                (SingleFitGrouped.base self'))).
Proof.
  split_and!.
  - intros args k f. unfold SingleFitGrouped.__init__.
    destruct (SingleFit_init args) as [b|e]; cbn [rbind].
    + split_and!; [by eexists|by eexists|done].
    + split_and!; [by eexists|by eexists|discriminate].
  - intros args gf k f self. unfold SingleFitGrouped.__init__.
    intros (b & _ & H)%rbind_Ok. destruct gf as [g|]; [|discriminate].
    by injection H as <-.
  - intros self.
    assert (exists self1,
      SingleFitGrouped.filter_training_dataset
        (SingleFitGrouped.set_group_info get_logo_indices self) = Ok self1)
      as [self1 H1].
    { unfold SingleFitGrouped.filter_training_dataset.
      case_decide; [|by eexists].
      cbn [SingleFitGrouped.set_group_info SingleFitGrouped.train_groups
           SingleFitGrouped.test_groups Py.not_none rbind]. by eexists. }
    exists self1. split; [done|]. intros b Hb Hnone.
    unfold SingleFitGrouped.set_data. rewrite H1. cbn [rbind].
    rewrite Hb. cbn [rbind SingleFitGrouped.set_base SingleFitGrouped.base].
    rewrite Hnone. done.
  - intros self self'. unfold SingleFitGrouped.set_data.
    intros (self1 & _ & H)%rbind_Ok.
    apply rbind_Ok in H as (b & _ & H).
    cbn [SingleFitGrouped.set_base SingleFitGrouped.base] in H.
    destruct (SingleFitGrouped.testing_target_data b) as [y|] eqn:Hy;
      [|discriminate].
    injection H as <-. cbn [SingleFitGrouped.set_base SingleFitGrouped.base].
    rewrite Hy. by eexists.
Qed.

Lemma missing_configuration_raises_witness :
  SingleFitGrouped.__init__ Scenario.parent_init tt None 2 0
  = Raise (ValueError "grouping_feature is not set.") /\
  SingleFitGrouped.__init__ Scenario.parent_init tt (Some "group") 2 0
  = Ok Scenario.constructed /\
  SingleFitGrouped.set_data Scenario.parent_set_data Gttd.get_logo_indices
    Scenario.constructed
  = Raise (ValueError "testing target data cannot be None").
Proof.
  pose proof (missing_configuration_raises Scenario.parent_init
                Scenario.parent_set_data Gttd.get_logo_indices
                (fun self => Ok self)) as (Hinit & _ & Hdata & _).
  split; [|split].
  - exact (proj2 (proj2 (Hinit tt 2%Z 0%Z)) _ eq_refl).
  - reflexivity.
  - destruct (Hdata Scenario.constructed) as (self1 & Hself1 & Hraise).
    injection Hself1 as <-.
    exact (proj1 (Hraise _ eq_refl eq_refl)).
Defined.

(** ** [min] and [index] on the list of highest RMSEs *)

Lemma entry_lt_value (a b : Py.entry) :
  Py.entry_lt a b = true -> (a.1 <= b.1)%R.
Proof.
  unfold Py.entry_lt. case_decide as E; [rewrite E; lra|].
  case_bool_decide; [lra|discriminate].
Qed.

Lemma entry_not_lt_value (a b : Py.entry) :
  Py.entry_lt a b = false -> (b.1 <= a.1)%R.
Proof.
  unfold Py.entry_lt. case_decide as E; [rewrite E; lra|].
  case_bool_decide; [discriminate|lra].
Qed.

Lemma min_from_elem_of best l : Py.min_from best l ∈ best :: l.
Proof.
  revert best. induction l as [|e l IH]; intros best; simpl; [left|].
  specialize (IH (if Py.entry_lt e best then e else best)).
  apply elem_of_cons in IH as [->|IH].
  - destruct (Py.entry_lt e best); [right; left|left].
  - right. by right.
Qed.

(** The minimum has the least value. *)
Lemma min_from_least_value best l e :
  e ∈ best :: l -> ((Py.min_from best l).1 <= e.1)%R.
Proof.
  revert best e. induction l as [|e0 l IH]; intros best e He; simpl.
  - apply list_elem_of_singleton in He as ->. lra.
  - destruct (Py.entry_lt e0 best) eqn:Hlt.
    + apply entry_lt_value in Hlt.
      apply elem_of_cons in He as [->|He].
      * pose proof (IH e0 e0 ltac:(left)). lra.
      * by apply IH.
    + apply entry_not_lt_value in Hlt.
      apply elem_of_cons in He as [->|He]; [apply IH; left|].
      apply elem_of_cons in He as [->|He].
      * pose proof (IH best best ltac:(left)). lra.
      * apply IH. by right.
Qed.

Lemma min_returns l :
  l <> [] ->
  exists m, Py.min l = Ok m /\ m ∈ l /\ forall e, e ∈ l -> (m.1 <= e.1)%R.
Proof.
  destruct l as [|e0 l]; [done|]. intros _. exists (Py.min_from e0 l).
  split_and!; [done|apply min_from_elem_of|apply min_from_least_value].
Qed.

Lemma index_returns (l : list Py.entry) x :
  x ∈ l ->
  exists i, Py.index l x = Ok i /\ l !! i = Some x /\
            forall j, j < i -> l !! j <> Some x.
Proof.
  induction l as [|e l IH]; intros Hx; [by apply elem_of_nil in Hx|].
  simpl. destruct (decide (e = x)) as [->|Hne].
  - exists 0. split_and!; [done..|]. intros j Hj. lia.
  - apply elem_of_cons in Hx as [->|Hx]; [done|].
    destruct (IH Hx) as (i & Hi & Hl & Hfirst). exists (S i).
    rewrite Hi. split_and!; [done..|].
    intros [|j] Hj; simpl; [congruence|]. apply Hfirst. lia.
Qed.

(** ** Outlying groups (SingleFitGrouped.py, lines 191-211) *)

(** One pass of the loop body, when there is at least one slot. *)
Lemma mark_group_returns self hr g stats :
  hr <> [] ->
  SingleFitGrouped.per_group_statistics self !! g = Some stats ->
  exists mn i,
    Py.min hr = Ok mn /\
    hr !! i = Some mn /\
    (forall j, j < i -> hr !! j <> Some mn) /\
    (forall e, e ∈ hr -> (mn.1 <= e.1)%R) /\
    SingleFitGrouped.mark_group self hr g
    = Ok (match stats !! SingleFitGrouped.criterion self with
          | Some g_rmse =>
              if decide (g_rmse > mn.1)%R then <[i := (g_rmse, g)]> hr else hr
          | None => hr
          end).
Proof.
  intros Hne Hst.
  destruct (min_returns hr Hne) as (mn & Hmin & Hin & Hleast).
  destruct (index_returns hr mn Hin) as (i & Hi & Hl & Hfirst).
  exists mn, i. split_and!; [done..|].
  unfold SingleFitGrouped.mark_group. rewrite Hmin. cbn [rbind].
  rewrite Hst. destruct (stats !! _) as [v|]; [|done].
  case_decide; [|done]. rewrite Hi. done.
Qed.

Lemma candidate_Some self g c :
  candidate self g = Some c ->
  c.2 = g /\ (0 < c.1)%R /\ criterion_value self g = Some c.1.
Proof.
  unfold candidate. destruct (criterion_value self g) as [v|]; [|discriminate].
  case_decide; [|discriminate]. by intros [= <-].
Qed.

Lemma elem_of_candidates self groups c :
  c ∈ candidates self groups <->
  c.2 ∈ groups /\ candidate self c.2 = Some c.
Proof.
  unfold candidates. rewrite list_elem_of_omap. split.
  - intros (g & Hg & Hc). pose proof (candidate_Some _ _ _ Hc) as (<- & _).
    done.
  - intros [Hg Hc]. eauto.
Qed.

Lemma candidates_snoc self groups g :
  candidates self (groups ++ [g])
  = candidates self groups
    ++ match candidate self g with Some c => [c] | None => [] end.
Proof.
  unfold candidates. rewrite omap_app. simpl.
  by destruct (candidate self g).
Qed.

Lemma NoDup_candidates self groups :
  NoDup groups -> NoDup (candidates self groups).
Proof.
  induction 1 as [|g groups Hg Hnd IH]; [constructor|].
  unfold candidates. simpl. fold (candidates self groups).
  destruct (candidate self g) as [c|] eqn:Hc; [|done].
  apply NoDup_cons. split; [|done].
  intros [Hin _]%elem_of_candidates.
  apply candidate_Some in Hc as (Hc & _). congruence.
Qed.

Lemma candidate_not_nogroup self groups c :
  c ∈ candidates self groups -> c <> SingleFitGrouped.nogroup.
Proof.
  intros [_ (_ & Hpos & _)%candidate_Some]%elem_of_candidates ->.
  simpl in Hpos. lra.
Qed.

Lemma elem_of_real_entries hr e :
  e ∈ real_entries hr <-> e <> SingleFitGrouped.nogroup /\ e ∈ hr.
Proof. unfold real_entries. by rewrite list_elem_of_filter. Qed.

Lemma selection_inv_init self n :
  selection_inv self [] (replicate n SingleFitGrouped.nogroup).
Proof.
  split_and!.
  - intros e He. left. by apply elem_of_replicate_inv in He.
  - unfold real_entries. induction n as [|n IH]; [constructor|].
    change (replicate (S n) SingleFitGrouped.nogroup)
      with (SingleFitGrouped.nogroup :: replicate n SingleFitGrouped.nogroup).
    by rewrite filter_cons_False by (intros H; by apply H).
  - intros c Hc. by apply elem_of_nil in Hc.
Qed.

Lemma candidates_mono self groups g c :
  c ∈ candidates self groups -> c ∈ candidates self (groups ++ [g]).
Proof. intros Hc. rewrite candidates_snoc, elem_of_app. by left. Qed.

Lemma elem_of_candidates_snoc self groups g c :
  c ∈ candidates self (groups ++ [g]) ->
  c ∈ candidates self groups \/ candidate self g = Some c.
Proof.
  rewrite candidates_snoc, elem_of_app. intros [Hc|Hc]; [by left|right].
  destruct (candidate self g) as [c'|]; [|by apply elem_of_nil in Hc].
  by apply list_elem_of_singleton in Hc as ->.
Qed.

(** The group looked at leaves the slots as they are. *)
Lemma selection_inv_keep self done hr g :
  selection_inv self done hr ->
  (forall c, candidate self g = Some c ->
     forall e, e ∈ hr -> (c.1 <= e.1)%R) ->
  selection_inv self (done ++ [g]) hr.
Proof.
  intros (I1 & I2 & I3) Hlow. split_and!; [|done|].
  - intros e [->|He]%I1; [by left|right]. by apply candidates_mono.
  - intros c [Hc|Hc]%elem_of_candidates_snoc; [by apply I3|].
    right. by apply Hlow.
Qed.

(** The group looked at takes the place of a slot of least value. *)
Lemma selection_inv_replace self done l1 mn l2 v g :
  selection_inv self done (l1 ++ mn :: l2) ->
  g ∉ done ->
  candidate self g = Some (v, g) ->
  (forall e, e ∈ l1 ++ mn :: l2 -> (mn.1 <= e.1)%R) ->
  (mn.1 < v)%R ->
  selection_inv self (done ++ [g]) (l1 ++ (v, g) :: l2).
Proof.
  intros (I1 & I2 & I3) Hg Hc Hleast Hgt.
  assert (Hnew : (v, g) ∈ candidates self (done ++ [g])).
  { rewrite candidates_snoc, Hc, elem_of_app. right. left. }
  assert (Hreal : (v, g) <> SingleFitGrouped.nogroup)
    by (by apply (candidate_not_nogroup self (done ++ [g]))).
  assert (Hfresh : (v, g) ∉ l1 ++ mn :: l2).
  { intros [E|Hin]%I1; [done|].
    apply elem_of_candidates in Hin as [Hin _]. done. }
  assert (Hold : forall e, e ∈ l1 \/ e ∈ l2 -> e ∈ l1 ++ mn :: l2).
  { intros e [He|He]; rewrite elem_of_app, elem_of_cons; tauto. }
  split_and!.
  - intros e. rewrite elem_of_app, elem_of_cons.
    intros [He|[->|He]]; [|by right|].
    + destruct (I1 e) as [->|Hin]; [apply Hold; by left|by left|].
      right. by apply candidates_mono.
    + destruct (I1 e) as [->|Hin]; [apply Hold; by right|by left|].
      right. by apply candidates_mono.
  - unfold real_entries in *. rewrite filter_app, filter_cons in I2.
    rewrite filter_app, filter_cons_True by done.
    assert (NoDup (filter (fun e => e <> SingleFitGrouped.nogroup) l1) /\
            NoDup (filter (fun e => e <> SingleFitGrouped.nogroup) l2) /\
            forall e, e ∈ filter (fun e => e <> SingleFitGrouped.nogroup) l1 ->
                      e ∉ filter (fun e => e <> SingleFitGrouped.nogroup) l2)
      as (N1 & N2 & N12).
    { apply NoDup_app in I2 as (N1 & N12 & N2). split; [done|].
      case_decide.
      - apply NoDup_cons in N2 as [_ N2]. split; [done|].
        intros e He Hin. apply (N12 e He). by right.
      - done. }
    apply NoDup_app. split_and!; [done| |].
    + intros e He. rewrite not_elem_of_cons. split; [|by apply N12].
      intros ->. apply Hfresh, Hold. left.
      by apply list_elem_of_filter in He as [_ ?].
    + apply NoDup_cons. split; [|done].
      intros [_ Hin]%list_elem_of_filter. apply Hfresh, Hold. by right.
  - intros c [Hin|Hin]%elem_of_candidates_snoc.
    + destruct (I3 c Hin) as [Hheld|Hlow].
      * apply elem_of_app in Hheld as [H1|H2];
          [left; rewrite elem_of_app; by left|].
        apply elem_of_cons in H2 as [->|H2];
          [|left; rewrite elem_of_app, elem_of_cons; tauto].
        right. intros e. rewrite elem_of_app, elem_of_cons.
        intros [He|[->|He]]; [apply Hleast, Hold; by left|simpl; lra|].
        apply Hleast, Hold. by right.
      * right. intros e. rewrite elem_of_app, elem_of_cons.
        intros [He|[->|He]]; [apply Hlow, Hold; by left| |].
        -- pose proof (Hlow mn) as Hmn. simpl.
           assert (mn ∈ l1 ++ mn :: l2) as Hin'
             by (rewrite elem_of_app, elem_of_cons; tauto).
           specialize (Hmn Hin'). lra.
        -- apply Hlow, Hold. by right.
    + rewrite Hc in Hin. injection Hin as <-.
      left. rewrite elem_of_app, elem_of_cons. tauto.
Qed.

Lemma selection_step self done hr g stats :
  selection_inv self done hr ->
  g ∉ done -> hr <> [] ->
  SingleFitGrouped.per_group_statistics self !! g = Some stats ->
  exists hr',
    SingleFitGrouped.mark_group self hr g = Ok hr' /\
    length hr' = length hr /\
    selection_inv self (done ++ [g]) hr'.
Proof.
  intros Inv Hg Hne Hst.
  destruct (mark_group_returns self hr g stats Hne Hst)
    as (mn & i & _ & Hi & _ & Hleast & Hrun).
  assert (Hcv : criterion_value self g
                = stats !! SingleFitGrouped.criterion self)
    by (unfold criterion_value; by rewrite Hst).
  assert (Hmn : (0 <= mn.1)%R).
  { destruct Inv as (I1 & _).
    destruct (I1 mn) as [->|Hc]; [by eapply list_elem_of_lookup_2|simpl; lra|].
    apply elem_of_candidates in Hc as [_ (_ & Hpos & _)%candidate_Some]. lra. }
  rewrite Hrun. destruct (stats !! SingleFitGrouped.criterion self) as [v|].
  - case_decide as Hgt.
    + assert (Hc : candidate self g = Some (v, g)).
      { unfold candidate. rewrite Hcv. rewrite decide_True by lra. done. }
      eexists. split; [done|]. split; [apply length_insert|].
      rewrite insert_take_drop by (by eapply lookup_lt_Some).
      rewrite <- (take_drop_middle hr i mn Hi) in Inv, Hleast.
      apply (selection_inv_replace self done _ mn); try done; lra.
    + eexists. split; [done|]. split; [done|].
      apply selection_inv_keep; [done|].
      intros c Hc e He. apply candidate_Some in Hc as (_ & _ & Hc).
      rewrite Hcv in Hc. injection Hc as ->.
      specialize (Hleast e He). lra.
  - eexists. split; [done|]. split; [done|].
    apply selection_inv_keep; [done|].
    intros c (_ & _ & Hc)%candidate_Some. congruence.
Qed.

Lemma selection_loop self todo :
  forall done hr,
    NoDup (done ++ todo) ->
    (forall g, g ∈ todo ->
       is_Some (SingleFitGrouped.per_group_statistics self !! g)) ->
    (todo <> [] -> hr <> []) ->
    selection_inv self done hr ->
    exists hr',
      for_each todo (SingleFitGrouped.mark_group self) hr = Ok hr' /\
      length hr' = length hr /\
      selection_inv self (done ++ todo) hr'.
Proof.
  induction todo as [|g todo IH]; intros done hr Hnd Hstats Hne Inv.
  - exists hr. rewrite app_nil_r. done.
  - destruct (Hstats g) as [stats Hst]; [left|].
    assert (Hg : g ∉ done).
    { apply NoDup_app in Hnd as (_ & Hd & _). intros Hin.
      apply (Hd g Hin). left. }
    destruct (selection_step self done hr g stats) as (hr1 & Hrun & Hlen & Inv1);
      [done|done|by apply Hne|done|].
    destruct (IH (done ++ [g]) hr1) as (hr' & Hloop & Hlen' & Inv').
    + by rewrite <- (assoc_L (++)).
    + intros g' Hg'. apply Hstats. by right.
    + intros _ E. rewrite E in Hlen. specialize (Hne ltac:(done)).
      destruct hr; [done|discriminate].
    + done.
    + exists hr'. cbn [for_each]. rewrite Hrun. cbn [rbind].
      split; [done|]. split; [congruence|].
      by rewrite <- (assoc_L (++)) in Inv'.
Qed.

Lemma filter_all {A} (P : A -> Prop) `{!forall x, Decision (P x)} (l : list A) :
  (forall x, x ∈ l -> P x) -> filter P l = l.
Proof.
  induction l as [|x l IH]; intros Hall; [done|].
  rewrite filter_cons_True by (apply Hall; left).
  f_equal. apply IH. intros y Hy. apply Hall. by right.
Qed.

Lemma length_candidates self groups :
  length (candidates self groups) <= length groups.
Proof.
  unfold candidates. induction groups as [|g groups IH]; [done|].
  cbn [omap list_omap]. fold (omap (candidate self) groups).
  destruct (candidate self g); cbn [length]; lia.
Qed.

(** *** Evaluating the loop on given RMSEs *)

Lemma entry_lt_below (a b : Py.entry) :
  (a.1 < b.1)%R -> Py.entry_lt a b = true.
Proof.
  intros H. unfold Py.entry_lt. rewrite decide_False by lra.
  by rewrite bool_decide_eq_true_2.
Qed.

Lemma entry_lt_above (a b : Py.entry) :
  (b.1 < a.1)%R -> Py.entry_lt a b = false.
Proof.
  intros H. unfold Py.entry_lt. rewrite decide_False by lra.
  rewrite bool_decide_eq_false_2; [done|lra].
Qed.

Lemma entry_lt_tie (a b : Py.entry) :
  a.1 = b.1 -> Py.entry_lt a b = String.ltb a.2 b.2.
Proof. intros H. unfold Py.entry_lt. by rewrite decide_True. Qed.

Lemma mark_group_eval self hr g stats v mn i :
  SingleFitGrouped.per_group_statistics self !! g = Some stats ->
  stats !! SingleFitGrouped.criterion self = Some v ->
  Py.min hr = Ok mn ->
  Py.index hr mn = Ok i ->
  SingleFitGrouped.mark_group self hr g
  = Ok (if decide (v > mn.1)%R then <[i := (v, g)]> hr else hr).
Proof.
  intros Hst Hv Hmin Hi. unfold SingleFitGrouped.mark_group.
  rewrite Hmin. cbn [rbind]. rewrite Hst, Hv.
  case_decide; [|done]. by rewrite Hi.
Qed.

Ltac eval_ltb :=
  match goal with
  | |- context [String.ltb ?a ?b] =>
      let r := eval vm_compute in (String.ltb a b) in
      change (String.ltb a b) with r
  end.

Ltac eval_min :=
  unfold Py.min, SingleFitGrouped.nogroup;
  repeat (cbn [Py.min_from];
          first [ rewrite entry_lt_below by (cbn [fst]; lra)
                | rewrite entry_lt_above by (cbn [fst]; lra)
                | rewrite entry_lt_tie by (cbn [fst]; lra); cbn [snd]; eval_ltb ]);
  reflexivity.

Ltac eval_index :=
  unfold SingleFitGrouped.nogroup; cbn [Py.index];
  repeat first
    [ rewrite decide_True by reflexivity
    | rewrite decide_False
        by (let E := fresh in intros E; injection E; intros;
            first [lra | discriminate]) ];
  reflexivity.

Ltac eval_mark_group stats v mn i :=
  cbn [for_each];
  rewrite (mark_group_eval _ _ _ stats v mn i);
    [ unfold SingleFitGrouped.nogroup; cbn [rbind fst];
      first [ rewrite decide_True by lra | rewrite decide_False by lra ];
      cbn [insert list_insert]
    | reflexivity | reflexivity | eval_min | eval_index ].

Ltac eval_highest_rmses :=
  unfold SingleFitGrouped.highest_rmses;
  cbn [SingleFitGrouped.test_groups Scenario.four_groups
       Scenario.perfect_group Scenario.tied_groups Scenario.no_marks
       Scenario.all_filtered Scenario.with_rmses Py.not_none rbind];
  match goal with
  | |- context [Z.to_nat ?z] =>
      let n := eval vm_compute in (Z.to_nat z) in
      change (Z.to_nat z) with n
  end;
  cbn [replicate fmap list_fmap fst].

Lemma highest_rmses_four_groups :
  SingleFitGrouped.highest_rmses Scenario.four_groups
  = Ok [(3%R, "C"); (5%R, "B")].
Proof.
  eval_highest_rmses.
  eval_mark_group ({["rmse" := 1%R]} : gmap string R) 1%R
    SingleFitGrouped.nogroup 0.
  eval_mark_group ({["rmse" := 5%R]} : gmap string R) 5%R
    SingleFitGrouped.nogroup 1.
  eval_mark_group ({["rmse" := 3%R]} : gmap string R) 3%R (1%R, "A") 0.
  eval_mark_group ({["rmse" := 2%R]} : gmap string R) 2%R (3%R, "C") 0.
  reflexivity.
Qed.

Lemma mark_group_eval_absent self hr g stats mn :
  SingleFitGrouped.per_group_statistics self !! g = Some stats ->
  stats !! SingleFitGrouped.criterion self = None ->
  Py.min hr = Ok mn ->
  SingleFitGrouped.mark_group self hr g = Ok hr.
Proof.
  intros Hst Hv Hmin. unfold SingleFitGrouped.mark_group.
  rewrite Hmin. cbn [rbind]. by rewrite Hst, Hv.
Qed.

Lemma highest_rmses_perfect_group :
  SingleFitGrouped.highest_rmses Scenario.perfect_group
  = Ok [SingleFitGrouped.nogroup].
Proof.
  eval_highest_rmses.
  eval_mark_group ({["rmse" := 0%R]} : gmap string R) 0%R
    SingleFitGrouped.nogroup 0.
  reflexivity.
Qed.

Lemma highest_rmses_tied_groups :
  for_each ["A"; "B"; "C"] (SingleFitGrouped.mark_group Scenario.tied_groups)
    [SingleFitGrouped.nogroup; SingleFitGrouped.nogroup]
  = Ok [(5%R, "C"); (5%R, "B")] /\
  SingleFitGrouped.mark_group Scenario.tied_groups
    [(5%R, "C"); (5%R, "B")] "D"
  = Ok [(5%R, "C"); (6%R, "D")] /\
  SingleFitGrouped.highest_rmses Scenario.tied_groups
  = Ok [(5%R, "C"); (6%R, "D")].
Proof.
  split_and!.
  - eval_mark_group ({["rmse" := 1%R]} : gmap string R) 1%R
      SingleFitGrouped.nogroup 0.
    eval_mark_group ({["rmse" := 5%R]} : gmap string R) 5%R
      SingleFitGrouped.nogroup 1.
    eval_mark_group ({["rmse" := 5%R]} : gmap string R) 5%R (1%R, "A") 0.
    reflexivity.
  - rewrite (mark_group_eval _ _ _ ({["rmse" := 6%R]} : gmap string R) 6%R
               (5%R, "B") 1);
      [|reflexivity|reflexivity|eval_min|eval_index].
    cbn [fst]. by rewrite decide_True by lra.
  - eval_highest_rmses.
    eval_mark_group ({["rmse" := 1%R]} : gmap string R) 1%R
      SingleFitGrouped.nogroup 0.
    eval_mark_group ({["rmse" := 5%R]} : gmap string R) 5%R
      SingleFitGrouped.nogroup 1.
    eval_mark_group ({["rmse" := 5%R]} : gmap string R) 5%R (1%R, "A") 0.
    eval_mark_group ({["rmse" := 6%R]} : gmap string R) 6%R (5%R, "B") 1.
    reflexivity.
Qed.

Lemma highest_rmses_all_filtered :
  SingleFitGrouped.highest_rmses Scenario.all_filtered
  = Ok [SingleFitGrouped.nogroup].
Proof.
  eval_highest_rmses. cbn [for_each].
  rewrite (mark_group_eval_absent _ _ _ ({["rmse" := 1%R]} : gmap string R)
             SingleFitGrouped.nogroup); reflexivity.
Qed.

(** With no group to mark and at least one group, [min] is called on an
    empty list. *)
Lemma highest_rmses_no_marks :
  SingleFitGrouped.highest_rmses Scenario.no_marks
  = Raise (ValueError "min() arg is an empty sequence").
Proof. reflexivity. Qed.

(** C2, as stated, fails: a group predicted without error (RMSE 0) has the
    criterion present, one slot is asked for, and the slot keeps the
    sentinel. *)
Lemma perfect_group_is_not_selected :
  ~ selects_all_present Scenario.perfect_group.
Proof.
  intros H.
  specialize (H ["A"] [SingleFitGrouped.nogroup] eq_refl
                highest_rmses_perfect_group).
  assert (Hin : "A" ∈ (real_entries [SingleFitGrouped.nogroup]).*2).
  { apply H.
    - vm_compute. discriminate.
    - left.
    - exists 0%R. reflexivity. }
  unfold real_entries in Hin.
  rewrite filter_cons_False in Hin by (intros E; by apply E).
  by apply elem_of_nil in Hin.
Qed.

(** C2 (amended): with at least one group to mark, the entries that are not
    the sentinel are candidates, that is, groups whose criterion statistic
    is present and strictly positive, no group twice; they are all the
    candidates when the number asked for is at least the number of
    candidates; otherwise they are as many as asked for; and in every case
    no candidate left out has a higher value than a selected one.  For
    groups A, B, C, D with RMSE 1, 5, 3, 2 and two groups to mark, the
    entries are (5, B) and (3, C). *)
Theorem outlying_groups_are_top_k (self : SingleFitGrouped.t)
    (groups : list string)
    (Hgroups : SingleFitGrouped.test_groups self = Some groups)
    (Hnd : NoDup groups)
    (Hstats : forall g, g ∈ groups ->
       is_Some (SingleFitGrouped.per_group_statistics self !! g))
    (Hk : (1 <= SingleFitGrouped.mark_outlying_groups self)%Z) :
  let k := Z.to_nat (SingleFitGrouped.mark_outlying_groups self) in
  let cands := candidates self groups in
  exists hr,
    SingleFitGrouped.highest_rmses self = Ok hr /\
    SingleFitGrouped.get_outlying_groups self
    = Ok (SingleFitGrouped.set_outlying_groups self hr.*2) /\
    length hr = k `min` length groups /\
    NoDup (real_entries hr) /\
    (forall e, e ∈ real_entries hr -> e ∈ cands) /\
    (length cands <= k -> real_entries hr ≡ₚ cands) /\
    (k < length cands -> real_entries hr = hr /\ length hr = k) /\
    (forall e c, e ∈ real_entries hr -> c ∈ cands -> c ∉ real_entries hr ->
                 (c.1 <= e.1)%R) /\
    SingleFitGrouped.highest_rmses Scenario.four_groups
    = Ok [(3%R, "C"); (5%R, "B")] /\
    real_entries [(3%R, "C"); (5%R, "B")] ≡ₚ [(5%R, "B"); (3%R, "C")].
Proof.
  intros k cands.
  set (m := Z.to_nat (Z.min (SingleFitGrouped.mark_outlying_groups self)
                        (Z.of_nat (length groups)))).
  assert (Hm : m = k `min` length groups) by (unfold m, k; lia).
  destruct (selection_loop self groups [] (replicate m SingleFitGrouped.nogroup))
    as (hr & Hloop & Hlen & I1 & I2 & I3).
  { done. }
  { done. }
  { intros Hne E. apply (f_equal length) in E.
    rewrite length_replicate in E. destruct groups; [done|].
    cbn [length] in Hm, E. unfold k in Hm. lia. }
  { apply selection_inv_init. }
  rewrite length_replicate in Hlen. cbn [app] in I1, I3. fold cands in I1, I3.
  assert (Hrun : SingleFitGrouped.highest_rmses self = Ok hr).
  { unfold SingleFitGrouped.highest_rmses. rewrite Hgroups.
    cbn [Py.not_none rbind]. exact Hloop. }
  assert (Hsub : forall e, e ∈ real_entries hr -> e ∈ cands).
  { intros e [Hreal Hin]%elem_of_real_entries.
    by destruct (I1 e Hin). }
  assert (Hout : forall c, c ∈ cands -> c ∉ real_entries hr ->
            forall e, e ∈ hr -> (c.1 <= e.1)%R).
  { intros c Hc Hnot. destruct (I3 c Hc) as [Hin|Hlow]; [|done].
    exfalso. apply Hnot. apply elem_of_real_entries. split; [|done].
    by apply (candidate_not_nogroup self groups). }
  assert (Hfull : forall c, c ∈ cands -> c ∉ real_entries hr ->
            real_entries hr = hr).
  { intros c Hc Hnot. apply filter_all. intros e He ->.
    pose proof (Hout c Hc Hnot _ He) as Hle.
    apply elem_of_candidates in Hc as [_ (_ & Hpos & _)%candidate_Some].
    simpl in Hle. lra. }
  assert (Hndc : NoDup cands) by (by apply NoDup_candidates).
  assert (Hlc : length cands <= length groups) by apply length_candidates.
  exists hr. split_and!; try done.
  - unfold SingleFitGrouped.get_outlying_groups. by rewrite Hrun.
  - congruence.
  - intros Hle. apply NoDup_Permutation; [done..|].
    intros c. split; [apply Hsub|]. intros Hc.
    destruct (decide (c ∈ real_entries hr)) as [|Hnot]; [done|].
    exfalso. apply Hnot.
    pose proof (Hfull c Hc Hnot) as Hall.
    assert (real_entries hr ≡ₚ cands) as Hperm.
    { apply submseteq_length_Permutation; [by apply NoDup_submseteq|].
      rewrite Hall. lia. }
    by rewrite Hperm.
  - intros Hlt.
    destruct (Forall_Exists_dec (fun c => c ∈ real_entries hr)
                (fun c => c ∉ real_entries hr)
                (fun c => decide (c ∈ real_entries hr)) cands)
      as [Hall|Hex].
    + exfalso.
      assert (cands ⊆+ real_entries hr) as Hsm.
      { apply NoDup_submseteq; [done|]. by apply Forall_forall. }
      apply submseteq_length in Hsm.
      pose proof (length_filter (fun e => e <> SingleFitGrouped.nogroup) hr).
      unfold real_entries in Hsm. lia.
    + apply Exists_exists in Hex as (c & Hc & Hnot).
      split; [by apply (Hfull c)|lia].
  - intros e c [_ He]%elem_of_real_entries Hc Hnot. by apply (Hout c).
  - apply highest_rmses_four_groups.
  - unfold real_entries.
    rewrite !filter_cons_True, filter_nil
      by (unfold SingleFitGrouped.nogroup; intros [= E]; lra).
    apply Permutation_swap.
Qed.

Lemma outlying_groups_are_top_k_witness :
  SingleFitGrouped.test_groups Scenario.four_groups
  = Some ["A"; "B"; "C"; "D"] /\
  NoDup ["A"; "B"; "C"; "D"] /\
  (1 <= SingleFitGrouped.mark_outlying_groups Scenario.four_groups)%Z /\
  exists hr,
    SingleFitGrouped.highest_rmses Scenario.four_groups = Ok hr /\
    length hr = 2 /\
    NoDup (real_entries hr).
Proof.
  assert (Hnd : NoDup ["A"; "B"; "C"; "D"]) by (by apply (bool_decide_unpack _)).
  assert (Hstats : forall g, g ∈ ["A"; "B"; "C"; "D"] ->
            is_Some (SingleFitGrouped.per_group_statistics
                       Scenario.four_groups !! g)).
  { intros g Hg. repeat (apply elem_of_cons in Hg as [->|Hg]; [by eexists|]).
    by apply elem_of_nil in Hg. }
  assert (Hk : (1 <= SingleFitGrouped.mark_outlying_groups
                        Scenario.four_groups)%Z) by (simpl; lia).
  split; [reflexivity|]. split; [exact Hnd|]. split; [exact Hk|].
  destruct (outlying_groups_are_top_k Scenario.four_groups
              ["A"; "B"; "C"; "D"] eq_refl Hnd Hstats Hk)
    as (hr & Hrun & _ & Hlen & Hndr & _).
  exists hr. split; [exact Hrun|]. split; [exact Hlen|exact Hndr].
Defined.

(** *** The order of the entries *)

Lemma string_compare_refl s : String.compare s s = Eq.
Proof.
  induction s as [|a s IH]; simpl; [done|].
  unfold Ascii.compare. by rewrite N.compare_refl.
Qed.

Lemma string_compare_trans a b c :
  String.compare a b = Lt -> String.compare b c = Lt ->
  String.compare a c = Lt.
Proof.
  revert b c. induction a as [|x a IH]; intros [|y b] [|z c]; simpl;
    try done.
  destruct (Ascii.compare x y) eqn:Hxy, (Ascii.compare y z) eqn:Hyz;
    try done.
  - apply Ascii.compare_eq_iff in Hxy as ->.
    apply Ascii.compare_eq_iff in Hyz as ->.
    unfold Ascii.compare. rewrite N.compare_refl. apply IH.
  - apply Ascii.compare_eq_iff in Hxy as ->. by rewrite Hyz.
  - apply Ascii.compare_eq_iff in Hyz as <-. by rewrite Hxy.
  - unfold Ascii.compare in *.
    apply N.compare_lt_iff in Hxy. apply N.compare_lt_iff in Hyz.
    by rewrite (proj2 (N.compare_lt_iff _ _) (N.lt_trans _ _ _ Hxy Hyz)).
Qed.

Lemma string_ltb_trans a b c :
  String.ltb a b = true -> String.ltb b c = true -> String.ltb a c = true.
Proof.
  unfold String.ltb. intros Hab Hbc.
  destruct (String.compare a b) eqn:E1; try discriminate.
  destruct (String.compare b c) eqn:E2; try discriminate.
  by rewrite (string_compare_trans a b c).
Qed.

Lemma string_ltb_irrefl a : String.ltb a a = false.
Proof. unfold String.ltb. by rewrite string_compare_refl. Qed.

Lemma string_ltb_total a b :
  String.ltb a b = false -> String.ltb b a = false -> a = b.
Proof.
  unfold String.ltb. rewrite (String.compare_antisym b a).
  destruct (String.compare a b) eqn:E; simpl; try discriminate.
  intros _ _. by apply String.compare_eq_iff.
Qed.

Lemma entry_lt_trans (a b c : Py.entry) :
  Py.entry_lt a b = true -> Py.entry_lt b c = true -> Py.entry_lt a c = true.
Proof.
  unfold Py.entry_lt.
  destruct (decide (a.1 = b.1)) as [Eab|Nab],
    (decide (b.1 = c.1)) as [Ebc|Nbc].
  - rewrite decide_True by congruence. apply string_ltb_trans.
  - rewrite decide_False by congruence. rewrite Eab. done.
  - rewrite decide_False by congruence. rewrite Ebc. done.
  - intros Hab%bool_decide_eq_true Hbc%bool_decide_eq_true.
    rewrite decide_False by lra. apply bool_decide_eq_true. lra.
Qed.

Lemma entry_lt_total (a b : Py.entry) :
  Py.entry_lt a b = false -> Py.entry_lt b a = false -> a = b.
Proof.
  unfold Py.entry_lt. destruct a as [va la], b as [vb lb]. cbn [fst snd].
  destruct (decide (va = vb)) as [->|Nab].
  - rewrite decide_True by done. intros H1 H2.
    by rewrite (string_ltb_total la lb).
  - rewrite decide_False by congruence.
    intros H1%bool_decide_eq_false H2%bool_decide_eq_false. lra.
Qed.

Lemma entry_lt_not_above (a b c : Py.entry) :
  Py.entry_lt a b = true -> Py.entry_lt c b = false -> Py.entry_lt a c = true.
Proof.
  intros Hab Hcb. destruct (Py.entry_lt b c) eqn:Hbc.
  - by apply (entry_lt_trans a b c).
  - by rewrite <- (entry_lt_total b c).
Qed.

Lemma entry_lt_irrefl (a : Py.entry) : Py.entry_lt a a = false.
Proof.
  unfold Py.entry_lt. rewrite decide_True by done. apply string_ltb_irrefl.
Qed.

(** No entry is below the minimum, in the order of tuples. *)
Lemma min_from_least best l e :
  e ∈ best :: l -> Py.entry_lt e (Py.min_from best l) = false.
Proof.
  revert best e. induction l as [|e0 l IH]; intros best e He; simpl.
  - apply list_elem_of_singleton in He as ->. apply entry_lt_irrefl.
  - destruct (Py.entry_lt e0 best) eqn:Hlt.
    + apply elem_of_cons in He as [->|He]; [|by apply IH].
      destruct (Py.entry_lt best (Py.min_from e0 l)) eqn:Hb; [|done].
      rewrite <- (IH e0 e0 ltac:(left)). symmetry.
      by apply (entry_lt_trans e0 best).
    + apply elem_of_cons in He as [->|He]; [apply IH; left|].
      apply elem_of_cons in He as [->|He]; [|apply IH; by right].
      destruct (Py.entry_lt e0 (Py.min_from best l)) eqn:Hb; [|done].
      rewrite <- Hlt. symmetry.
      apply (entry_lt_not_above e0 (Py.min_from best l) best); [done|].
      apply IH. left.
Qed.

Lemma least_entry_slot_unique slots i j :
  least_entry_slot slots i -> least_entry_slot slots j -> i = j.
Proof.
  intros (m & Hi & Hleast & Hfirst) (m' & Hj & Hleast' & Hfirst').
  assert (m = m') as <-.
  { apply entry_lt_total.
    - apply Hleast'. by eapply list_elem_of_lookup_2.
    - apply Hleast. by eapply list_elem_of_lookup_2. }
  destruct (Nat.lt_trichotomy i j) as [Hlt|[->|Hlt]]; [|done|].
  - by destruct (Hfirst' i Hlt).
  - by destruct (Hfirst j Hlt).
Qed.

Lemma min_least l m e :
  Py.min l = Ok m -> e ∈ l -> Py.entry_lt e m = false.
Proof.
  destruct l as [|e0 l]; [discriminate|]. intros [= <-].
  apply min_from_least.
Qed.

Lemma selection_step_spec_deterministic criterion_of slots g s1 s2 :
  selection_step_spec criterion_of slots g s1 ->
  selection_step_spec criterion_of slots g s2 -> s1 = s2.
Proof.
  intros H1 H2.
  destruct H1 as [v i m Hv Hi Hm Hgt|v i m Hv Hi Hm Hle|Hv];
    destruct H2 as [v' i' m' Hv' Hi' Hm' Hgt'|v' i' m' Hv' Hi' Hm' Hle'|Hv'];
    try congruence.
  - by rewrite (least_entry_slot_unique slots i i' Hi Hi'), Hv in *;
      injection Hv' as <-.
  - exfalso. rewrite (least_entry_slot_unique slots i i' Hi Hi') in Hm.
    assert (m = m') as -> by congruence. assert (v = v') as -> by congruence.
    done.
  - exfalso. rewrite (least_entry_slot_unique slots i i' Hi Hi') in Hm.
    assert (m = m') as -> by congruence. assert (v = v') as -> by congruence.
    done.
Qed.

Lemma selection_spec_deterministic criterion_of slots groups s1 s2 :
  selection_spec criterion_of slots groups s1 ->
  selection_spec criterion_of slots groups s2 -> s1 = s2.
Proof.
  intros H1. revert s2.
  induction H1 as [slots|slots g slots' groups slots'' Hstep _ IH];
    intros s2 H2; inversion H2 as [|? ? t ? ? Hstep' Hrest]; subst; [done|].
  apply IH.
  by rewrite (selection_step_spec_deterministic _ _ _ _ _ Hstep Hstep').
Qed.

(** One pass of the loop body is one step of the amended selection. *)
Lemma mark_group_refines self hr g stats :
  hr <> [] ->
  SingleFitGrouped.per_group_statistics self !! g = Some stats ->
  exists hr',
    SingleFitGrouped.mark_group self hr g = Ok hr' /\
    length hr' = length hr /\
    selection_step_spec (criterion_value self) hr g hr'.
Proof.
  intros Hne Hst.
  destruct (mark_group_returns self hr g stats Hne Hst)
    as (mn & i & Hmin & Hi & Hfirst & _ & Hrun).
  assert (Hslot : least_entry_slot hr i).
  { exists mn. split_and!; [done| |done].
    intros e He. by apply (min_least hr). }
  assert (Hcv : criterion_value self g
                = stats !! SingleFitGrouped.criterion self)
    by (unfold criterion_value; by rewrite Hst).
  rewrite Hrun.
  destruct (stats !! SingleFitGrouped.criterion self) as [v|] eqn:Hv.
  - case_decide as Hgt.
    + eexists. split; [done|]. split; [apply length_insert|].
      by apply (step_replace _ _ _ v i mn).
    + eexists. split; [done|]. split; [done|].
      by apply (step_not_above _ _ _ v i mn).
  - eexists. split; [done|]. split; [done|]. by apply step_absent.
Qed.

Lemma for_each_mark_group_refines self groups :
  forall hr,
    (groups <> [] -> hr <> []) ->
    (forall g, g ∈ groups ->
       is_Some (SingleFitGrouped.per_group_statistics self !! g)) ->
    exists hr',
      for_each groups (SingleFitGrouped.mark_group self) hr = Ok hr' /\
      length hr' = length hr /\
      selection_spec (criterion_value self) hr groups hr'.
Proof.
  induction groups as [|g groups IH]; intros hr Hne Hstats.
  - exists hr. split_and!; [done..|constructor].
  - destruct (Hstats g) as [stats Hst]; [left|].
    destruct (mark_group_refines self hr g stats) as (hr1 & Hrun & Hlen & Hstep);
      [by apply Hne|done|].
    destruct (IH hr1) as (hr' & Hloop & Hlen' & Hspec).
    + intros _ E. rewrite E in Hlen. specialize (Hne ltac:(done)).
      destruct hr; [done|discriminate].
    + intros g' Hg'. apply Hstats. by right.
    + exists hr'. cbn [for_each]. rewrite Hrun. cbn [rbind].
      split_and!; [done|congruence|].
      by apply (selection_next _ hr g hr1).
Qed.

(** C3, as stated, fails: the result has one slot where the statement gives
    none (the only group has no filtered RMSE), and with two slots of the
    same least value the code replaces the slot of the lesser label, not the
    first slot. *)
Lemma selection_departs_from_statement :
  ~ has_stated_length Scenario.all_filtered /\
  ~ follows_stated_rule Scenario.tied_groups.
Proof.
  split.
  - intros H.
    specialize (H ["A"] [SingleFitGrouped.nogroup] eq_refl
                  highest_rmses_all_filtered).
    vm_compute in H. discriminate.
  - intros H.
    destruct highest_rmses_tied_groups as (Hdone & Hstep & _).
    destruct (H ["A"; "B"; "C"] "D" [] _ _ eq_refl Hdone Hstep)
      as (i & v & (m & Hi & Hleast & Hfirst) & Heq).
    { intros E. discriminate E. }
    destruct i as [|[|i]]; simpl in Hi.
    + simpl in Heq. discriminate Heq.
    + injection Hi as <-.
      specialize (Hfirst 0 (5%R, "C") ltac:(lia) eq_refl). simpl in Hfirst. lra.
    + discriminate.
Qed.

(** C3 (amended): the selector keeps a working list of exactly
    min(k, number of groups) slots, initialised to the sentinel
    (0, "nogroup"); for each group, in order, whose criterion statistic is
    present and whose value strictly exceeds the value of the least entry,
    it replaces the first slot holding the least entry, the entries being
    ordered as tuples (by value, then by label); with at least one group to
    mark the run returns, and the result has min(k, number of groups)
    entries, whose labels become the outlying groups. *)
Theorem selection_is_min_replacement (self : SingleFitGrouped.t)
    (groups : list string)
    (Hgroups : SingleFitGrouped.test_groups self = Some groups)
    (Hstats : forall g, g ∈ groups ->
       is_Some (SingleFitGrouped.per_group_statistics self !! g))
    (Hk : (1 <= SingleFitGrouped.mark_outlying_groups self)%Z) :
  let slots := Z.to_nat (SingleFitGrouped.mark_outlying_groups self)
                 `min` length groups in
  exists hr,
    SingleFitGrouped.highest_rmses self = Ok hr /\
    selection_spec (criterion_value self)
      (replicate slots SingleFitGrouped.nogroup) groups hr /\
    (forall hr',
       selection_spec (criterion_value self)
         (replicate slots SingleFitGrouped.nogroup) groups hr' -> hr' = hr) /\
    length hr = slots /\
    SingleFitGrouped.get_outlying_groups self
    = Ok (SingleFitGrouped.set_outlying_groups self hr.*2).
Proof.
  intros slots.
  set (m := Z.to_nat (Z.min (SingleFitGrouped.mark_outlying_groups self)
                        (Z.of_nat (length groups)))).
  assert (Hm : m = slots) by (unfold m, slots; lia).
  destruct (for_each_mark_group_refines self groups
              (replicate m SingleFitGrouped.nogroup))
    as (hr & Hloop & Hlen & Hspec).
  { intros Hne E. apply (f_equal length) in E.
    rewrite length_replicate in E. destruct groups; [done|].
    cbn [length] in Hm, E. unfold slots in Hm. cbn [length] in Hm. lia. }
  { done. }
  rewrite length_replicate in Hlen. rewrite Hm in Hspec.
  assert (Hrun : SingleFitGrouped.highest_rmses self = Ok hr).
  { unfold SingleFitGrouped.highest_rmses. rewrite Hgroups.
    cbn [Py.not_none rbind]. exact Hloop. }
  exists hr. split_and!; [done|done| |congruence|].
  - intros hr' Hspec'. by apply (selection_spec_deterministic _ _ _ _ _ Hspec').
  - unfold SingleFitGrouped.get_outlying_groups. by rewrite Hrun.
Qed.

Lemma selection_is_min_replacement_witness :
  (1 <= SingleFitGrouped.mark_outlying_groups Scenario.tied_groups)%Z /\
  exists hr,
    SingleFitGrouped.highest_rmses Scenario.tied_groups = Ok hr /\
    length hr = 2.
Proof.
  assert (Hstats : forall g, g ∈ ["A"; "B"; "C"; "D"] ->
            is_Some (SingleFitGrouped.per_group_statistics
                       Scenario.tied_groups !! g)).
  { intros g Hg. repeat (apply elem_of_cons in Hg as [->|Hg]; [by eexists|]).
    by apply elem_of_nil in Hg. }
  assert (Hk : (1 <= SingleFitGrouped.mark_outlying_groups
                        Scenario.tied_groups)%Z) by (simpl; lia).
  split; [exact Hk|].
  destruct (selection_is_min_replacement Scenario.tied_groups
              ["A"; "B"; "C"; "D"] eq_refl Hstats Hk)
    as (hr & Hrun & _ & _ & Hlen & _).
  exists hr. split; [exact Hrun|exact Hlen].
Defined.

(** * Further properties of the code *)

(** ** The outcome of [ExtrapolateFull.execute] *)

Lemma mean_squared_error_no_sample ys ps e :
  length ys = length ps ->
  Sklearn.mean_squared_error ys ps = Raise e ->
  e = no_sample /\ ys = [].
Proof.
  intros Hlen. unfold Sklearn.mean_squared_error.
  rewrite decide_True by done.
  case_decide as Hz; [|discriminate]. intros [= <-].
  split; [done|]. by destruct ys.
Qed.

Lemma take_zeros n index l :
  Np.take (Np.zeros n) index = Ok l -> l = Np.zeros (length index).
Proof.
  revert l. induction index as [|i index IH]; intros l; simpl.
  - by intros [= <-].
  - unfold Np.item, Np.zeros at 1.
    destruct (replicate n 0%R !! i) as [a|] eqn:Ha; [|discriminate].
    apply lookup_replicate in Ha as [-> _]. cbn [rbind].
    destruct (Np.take (Np.zeros n) index) as [rest|]; [|discriminate].
    cbn [rbind]. intros [= <-]. by rewrite (IH rest).
Qed.

Section execute_outcome.
Context {Model : Type}.
Variable fit : Model -> list (list R) -> list R -> Model * result unit.
Variable predict : Model -> list (list R) -> result (list R).
Variable get_field_logo_indices : DataParser.dataset -> index_map.

(** The rows of the evaluation data of a group seen in training are the
    supported rows. *)
Lemma supported_rows_seen data topredict_data :
  indexes (DataParser.get_group_data data) (get_field_logo_indices data) ->
  indexes (DataParser.get_group_data topredict_data)
    (get_field_logo_indices topredict_data) ->
  let ti := get_field_logo_indices topredict_data in
  let mgs := Np.intersect1d (Py.keys (get_field_logo_indices data)) (Py.keys ti) in
  (forall i, i ∈ filter (fun g => g ∈ mgs) (Py.keys ti) ≫= group_rows ti <->
     exists r, topredict_data !! i = Some r /\
       DataParser.group r ∈ DataParser.get_group_data data) /\
  (forall i, i ∈ filter (fun g => g ∉ mgs) (Py.keys ti) ≫= group_rows ti <->
     exists r, topredict_data !! i = Some r /\
       DataParser.group r ∉ DataParser.get_group_data data).
Proof.
  intros Hfit Htop ti mgs. fold ti in Htop.
  assert (Hm : forall g, g ∈ mgs <->
            g ∈ DataParser.get_group_data data /\
            g ∈ DataParser.get_group_data topredict_data).
  { intros g. unfold mgs. rewrite elem_of_intersect1d.
    by rewrite (indexes_keys _ _ g Hfit), (indexes_keys _ _ g Htop). }
  assert (Hk : forall r i, topredict_data !! i = Some r ->
            DataParser.group r ∈ Py.keys ti /\
            DataParser.group r ∈ DataParser.get_group_data topredict_data).
  { intros r i Hi.
    assert (DataParser.group r ∈ DataParser.get_group_data topredict_data).
    { unfold DataParser.get_group_data. apply list_elem_of_fmap.
      exists r. split; [done|]. by eapply list_elem_of_lookup_2. }
    split; [|done]. by apply (indexes_keys _ _ _ Htop). }
  split; intros i; rewrite list_elem_of_bind; split.
  - intros (g & Hi & [Hg Hkg]%list_elem_of_filter).
    apply (indexes_key_rows _ _ _ _ Htop Hkg) in Hi.
    apply lookup_group_data in Hi as (r & Hr & <-).
    exists r. split; [done|]. by apply Hm in Hg as [? _].
  - intros (r & Hr & Hg). destruct (Hk r i Hr) as [Hkr Hlr].
    exists (DataParser.group r). split.
    + apply (indexes_key_rows _ _ _ _ Htop Hkr).
      apply lookup_group_data. eauto.
    + apply list_elem_of_filter. split; [|done]. by apply Hm.
  - intros (g & Hi & [Hg Hkg]%list_elem_of_filter).
    apply (indexes_key_rows _ _ _ _ Htop Hkg) in Hi.
    apply lookup_group_data in Hi as (r & Hr & <-).
    exists r. split; [done|]. intros Hd. apply Hg, Hm. split; [done|].
    by apply (Hk r i).
  - intros (r & Hr & Hg). destruct (Hk r i Hr) as [Hkr Hlr].
    exists (DataParser.group r). split.
    + apply (indexes_key_rows _ _ _ _ Htop Hkr).
      apply lookup_group_data. eauto.
    + apply list_elem_of_filter. split; [|done]. rewrite Hm. tauto.
Qed.

Ltac run_unfold :=
  unfold ExtrapolateFull.execute, bind, lift, ret,
    ExtrapolateFull.model_fit, ExtrapolateFull.model_predict,
    ExtrapolateFull.mean_squared_error,
    ExtrapolateFull.single_supported_unsupported.

Ltac run_cases_eq :=
  repeat match goal with
    | H : context [match ?r with Ok _ => _ | Raise _ => _ end] |- _ =>
        destruct r eqn:?; cbn [fst snd log model] in H; try discriminate H
    end.

(** When the model calls return, [predict] giving one value per row, the
    only exception of a run is that of a metric on no sample. *)
Lemma execute_raises_no_sample data topredict_data std_data measerrfield
    plot_filter_out fit_only_on_matched_groups w X fy w' e :
  indexes (DataParser.get_group_data data) (get_field_logo_indices data) ->
  indexes (DataParser.get_group_data topredict_data)
    (get_field_logo_indices topredict_data) ->
  ExtrapolateFull.fit_data data (get_field_logo_indices data)
    (Np.intersect1d (Py.keys (get_field_logo_indices data))
       (Py.keys (get_field_logo_indices topredict_data)))
    fit_only_on_matched_groups = Ok (X, fy) ->
  (fit (model w) X fy).2 = Ok tt ->
  (forall X', exists Yp,
     predict (fit (model w) X fy).1 X' = Ok Yp /\ length Yp = length X') ->
  ExtrapolateFull.execute fit predict get_field_logo_indices
    data topredict_data std_data measerrfield plot_filter_out
    fit_only_on_matched_groups w = (w', Raise e) ->
  e = no_sample.
Proof.
  intros Hfit Htop Hfd Hfitted Hpred.
  set (fi := get_field_logo_indices data) in *.
  set (ti := get_field_logo_indices topredict_data) in *.
  set (mgs := Np.intersect1d (Py.keys fi) (Py.keys ti)) in *.
  set (n := length topredict_data).
  set (sup := filter (fun g => g ∈ mgs) (Py.keys ti) ≫= group_rows ti).
  set (unsup := filter (fun g => g ∉ mgs) (Py.keys ti) ≫= group_rows ti).
  assert (Hrange : forall gs : list string,
            (forall g, g ∈ gs -> g ∈ Py.keys ti) ->
            Forall (fun i => i < n) (gs ≫= group_rows ti)).
  { intros gs Hgs'. apply Forall_forall. intros i.
    rewrite list_elem_of_bind. intros (g & Hi & Hk%Hgs').
    apply (indexes_key_rows _ _ _ _ Htop Hk) in Hi.
    apply lookup_lt_Some in Hi. unfold DataParser.get_group_data in Hi.
    by rewrite length_map in Hi. }
  set (ty := DataParser.get_y_data topredict_data).
  destruct (Hpred (DataParser.get_x_data topredict_data))
    as (Yp & HYp & LYp').
  set (err := match measerrfield with
              | Some _ => DataParser.get_err_data topredict_data
              | None => Np.zeros (length ty)
              end).
  assert (Lty : length ty = n)
    by (unfold ty, DataParser.get_y_data; by rewrite length_map).
  assert (LYp : length Yp = n).
  { rewrite LYp'. unfold DataParser.get_x_data. by rewrite length_map. }
  assert (Lerr : length err = n).
  { unfold err. destruct measerrfield.
    - unfold DataParser.get_err_data. by rewrite length_map.
    - unfold Np.zeros. by rewrite length_replicate. }
  assert (Hin : forall (arr : list R) idx, length arr = n ->
            (idx = sup \/ idx = unsup) ->
            Forall (fun i => i < length arr) idx).
  { intros arr idx -> [->| ->]; apply Hrange; intros g Hg;
      by apply list_elem_of_filter in Hg as [_ ?]. }
  run_unfold. fold fi ti mgs. rewrite Hfd, supported_unsupported_rows.
  fold sup unsup ty err.
  destruct (fit (model w) X fy) as [m' fitted].
  cbn [fst snd] in Hfitted, HYp, Hpred. subst fitted.
  cbn [fst snd log model]. rewrite HYp.
  destruct std_data as [std|]; cbn [fst snd log model];
    [destruct (Hpred (DataParser.get_x_data std)) as (sYp & -> & _)|];
    cbn [fst snd log model];
    repeat match goal with
      | |- context [match ?r with Ok _ => _ | Raise _ => _ end] =>
          destruct r eqn:?; cbn [fst snd log model]
      end;
    intros [= <- <-];
    repeat match goal with
      | H : Np.take _ _ = Ok _ |- _ => apply take_length in H
      end;
    match goal with
    | H : Sklearn.mean_squared_error _ _ = Raise _ |- _ =>
        apply mean_squared_error_no_sample in H; [by destruct H|congruence]
    | H : Np.take _ _ = Raise _ |- _ =>
        exfalso; apply take_raises in H; apply H; apply Hin; tauto
    end.
Qed.

(** An exception of a model call is the exception of the run. *)
Lemma execute_raises_in_model data topredict_data std_data measerrfield
    plot_filter_out fit_only_on_matched_groups w X fy :
  ExtrapolateFull.fit_data data (get_field_logo_indices data)
    (Np.intersect1d (Py.keys (get_field_logo_indices data))
       (Py.keys (get_field_logo_indices topredict_data)))
    fit_only_on_matched_groups = Ok (X, fy) ->
  let outcome :=
    (ExtrapolateFull.execute fit predict get_field_logo_indices
       data topredict_data std_data measerrfield plot_filter_out
       fit_only_on_matched_groups w).2 in
  (forall e, (fit (model w) X fy).2 = Raise e -> outcome = Raise e) /\
  (forall e, (fit (model w) X fy).2 = Ok tt ->
     predict (fit (model w) X fy).1 (DataParser.get_x_data topredict_data)
     = Raise e ->
     outcome = Raise e).
Proof.
  intros Hfd outcome. subst outcome. run_unfold.
  rewrite Hfd, supported_unsupported_rows.
  destruct (fit (model w) X fy) as [m' fitted]. cbn [fst snd log model].
  split.
  - by intros e ->.
  - intros e -> Hp. cbn [fst snd log model]. by rewrite Hp.
Qed.

(** With no evaluation row of a group seen in training, the training arrays
    selected for the matched groups have no row. *)
Lemma fit_data_unmatched data topredict_data X fy :
  indexes (DataParser.get_group_data data) (get_field_logo_indices data) ->
  indexes (DataParser.get_group_data topredict_data)
    (get_field_logo_indices topredict_data) ->
  ExtrapolateFull.fit_data data (get_field_logo_indices data)
    (Np.intersect1d (Py.keys (get_field_logo_indices data))
       (Py.keys (get_field_logo_indices topredict_data))) 1 = Ok (X, fy) ->
  ~ (exists r, r ∈ topredict_data /\
       DataParser.group r ∈ DataParser.get_group_data data) ->
  X = [] /\ fy = [].
Proof.
  intros Hfit Htop Hfd Hnot.
  set (mgs := Np.intersect1d _ _) in *.
  destruct (fit_data_matched data (get_field_logo_indices data) mgs)
    as (fit_index & X' & y' & _ & Hfd' & HX & Hy & _ & Hin);
    [done|apply NoDup_intersect1d| |].
  { intros g Hg. by apply elem_of_intersect1d in Hg as [? _]. }
  rewrite Hfd in Hfd'. injection Hfd' as <- <-.
  assert (fit_index = []) as ->.
  { destruct fit_index as [|i l]; [done|]. exfalso.
    destruct (proj1 (Hin i)) as (r & _ & Hg); [left|].
    apply elem_of_intersect1d in Hg as [Hg1 Hg2].
    apply (indexes_keys _ _ _ Hfit) in Hg1.
    apply (indexes_keys _ _ _ Htop) in Hg2.
    unfold DataParser.get_group_data in Hg2.
    apply list_elem_of_fmap in Hg2 as (r' & Hr' & Hin').
    apply Hnot. exists r'. split; [done|]. by rewrite <- Hr'. }
  apply take_length in HX. apply take_length in Hy.
  by destruct X, fy.
Qed.

(** X1: with index maps that are those of the label columns, [execute]
    calls [fit] on the training arrays that [fit_data] selects, which have no
    row when fitting is on matched groups only and the evaluation data has
    no row of a group seen in training.  An exception raised by [fit], or by
    [predict] on the evaluation matrix, is the exception of the run.  When
    the call of [fit] returns and the fitted model predicts one value per
    row, the run returns if and only if the evaluation data has a row of a
    group seen in training and a row of a group not seen in training; in
    every other case it raises the [ValueError] of [mean_squared_error] on
    no sample. *)
Theorem execute_returns_iff data topredict_data std_data measerrfield
    plot_filter_out fit_only_on_matched_groups w
    (Hfit : indexes (DataParser.get_group_data data)
              (get_field_logo_indices data))
    (Htop : indexes (DataParser.get_group_data topredict_data)
              (get_field_logo_indices topredict_data)) :
  let fit_indices := get_field_logo_indices data in
  let match_groups :=
    Np.intersect1d (Py.keys fit_indices)
      (Py.keys (get_field_logo_indices topredict_data)) in
  let outcome :=
    (ExtrapolateFull.execute fit predict get_field_logo_indices
       data topredict_data std_data measerrfield plot_filter_out
       fit_only_on_matched_groups w).2 in
  let seen := exists r, r ∈ topredict_data /\
                DataParser.group r ∈ DataParser.get_group_data data in
  let unseen := exists r, r ∈ topredict_data /\
                  DataParser.group r ∉ DataParser.get_group_data data in
  exists X y,
    ExtrapolateFull.fit_data data fit_indices match_groups
      fit_only_on_matched_groups = Ok (X, y) /\
    (fit_only_on_matched_groups = 1%Z -> ~ seen -> X = [] /\ y = []) /\
    (forall e, (fit (model w) X y).2 = Raise e -> outcome = Raise e) /\
    (forall e, (fit (model w) X y).2 = Ok tt ->
       predict (fit (model w) X y).1 (DataParser.get_x_data topredict_data)
       = Raise e ->
       outcome = Raise e) /\
    ((fit (model w) X y).2 = Ok tt ->
     (forall X', exists Yp,
        predict (fit (model w) X y).1 X' = Ok Yp /\
        length Yp = length X') ->
     ((exists out, outcome = Ok out) <-> seen /\ unseen) /\
     (~ (seen /\ unseen) -> outcome = Raise no_sample)).
Proof.
  intros fit_indices match_groups outcome seen unseen.
  destruct (fit_data_returns data fit_indices match_groups
              fit_only_on_matched_groups)
    as (X & y & Hfd); [done|apply NoDup_intersect1d| |].
  { intros g Hg. by apply elem_of_intersect1d in Hg as [? _]. }
  exists X, y. split; [exact Hfd|].
  split.
  { intros -> Hnot. by apply (fit_data_unmatched data topredict_data). }
  destruct (execute_raises_in_model data topredict_data std_data measerrfield
              plot_filter_out fit_only_on_matched_groups w X y Hfd)
    as [Hrf Hrp].
  do 2 (split; [done|]).
  intros Hfitted Hpred.
  assert (Hret : (exists out, outcome = Ok out) <-> seen /\ unseen).
  { split.
    - intros [out Hout]. unfold outcome in Hout.
      destruct (ExtrapolateFull.execute _ _ _ _ _ _ _ _ _ w) as [w' r] eqn:Hrun.
      simpl in Hout. subst r.
      pose proof (execute_returns fit predict get_field_logo_indices
                    _ _ _ _ _ _ _ _ _ Hrun)
        as (Hsu & Hmg & _ & Hs & Hu & _).
      rewrite Hmg, supported_unsupported_rows in Hsu.
      injection Hsu as Es Eu.
      destruct (supported_rows_seen data topredict_data Hfit Htop)
        as [Hsup Hunsup].
      split.
      + destruct (ExtrapolateFull.supported_index out) as [|i l] eqn:E; [done|].
        destruct (proj1 (Hsup i)) as (r & Hr & Hg).
        { rewrite Es. left. }
        exists r. split; [by eapply list_elem_of_lookup_2|done].
      + destruct (ExtrapolateFull.unsupported_index out) as [|i l] eqn:E; [done|].
        destruct (proj1 (Hunsup i)) as (r & Hr & Hg).
        { rewrite Eu. left. }
        exists r. split; [by eapply list_elem_of_lookup_2|done].
    - intros [Hs Hu].
      destruct (execute_total_fitted fit predict get_field_logo_indices
                  data topredict_data std_data measerrfield plot_filter_out
                  fit_only_on_matched_groups w X y Hfit Htop Hfd Hfitted
                  Hpred Hs Hu)
        as (w' & out & Hrun).
      exists out. unfold outcome. by rewrite Hrun. }
  split; [exact Hret|]. intros Hnot.
  unfold outcome in *.
  destruct (ExtrapolateFull.execute _ _ _ _ _ _ _ _ _ w) as [w' [out|e]] eqn:Hrun.
  - exfalso. apply Hnot, Hret. by exists out.
  - simpl. f_equal.
    exact (execute_raises_no_sample _ _ _ _ _ _ _ _ _ _ _ Hfit Htop Hfd
             Hfitted Hpred Hrun).
Qed.

(** X3: a run of [execute] that returns has called the plot function once,
    as its last call, with the three RMSEs as notes; the measured values,
    the predictions and the errors passed for the supported rows are taken
    at the same row indices, and so for the unsupported rows; without a
    measured-error field every error passed is zero. *)
Theorem execute_plots_once data topredict_data std_data measerrfield
    plot_filter_out fit_only_on_matched_groups w w' out
    (Hrun : ExtrapolateFull.execute fit predict get_field_logo_indices
              data topredict_data std_data measerrfield plot_filter_out
              fit_only_on_matched_groups w = (w', Ok out)) :
  let y := DataParser.get_y_data topredict_data in
  let sup := ExtrapolateFull.supported_index out in
  let unsup := ExtrapolateFull.unsupported_index out in
  exists calls sy sp uy up xs xu,
    log w' = log w ++ calls
             ++ [EvPlot sy sp uy up xs xu
                   [ExtrapolateFull.overall_rms out;
                    ExtrapolateFull.supported_rms out;
                    ExtrapolateFull.unsupported_rms out]] /\
    Forall (fun e => is_plot_call e = false) calls /\
    Np.take y sup = Ok sy /\
    Np.take (ExtrapolateFull.Ypredict out) sup = Ok sp /\
    Np.take y unsup = Ok uy /\
    Np.take (ExtrapolateFull.Ypredict out) unsup = Ok up /\
    length xs = length sup /\ length xu = length unsup /\
    (forall field, measerrfield = Some field ->
       Np.take (DataParser.get_err_data topredict_data) sup = Ok xs /\
       Np.take (DataParser.get_err_data topredict_data) unsup = Ok xu) /\
    (measerrfield = None ->
       xs = Np.zeros (length sup) /\ xu = Np.zeros (length unsup)).
Proof.
  intros y sup unsup. subst y sup unsup. revert Hrun. run_unfold.
  rewrite supported_unsupported_rows.
  destruct (ExtrapolateFull.fit_data _ _ _ _) as [[X fy]|]; [|discriminate].
  cbn [fst snd log model].
  intros Hrun.
  destruct std_data as [std|]; cbn [fst snd log model] in Hrun;
    run_cases_eq; injection Hrun as <- <-;
    cbn [log ExtrapolateFull.supported_index ExtrapolateFull.unsupported_index
         ExtrapolateFull.Ypredict ExtrapolateFull.overall_rms
         ExtrapolateFull.supported_rms ExtrapolateFull.unsupported_rms];
    [eexists [_; _; _; _; _; _], _, _, _, _, _, _
    |eexists [_; _; _; _; _], _, _, _, _, _, _].
  all: split; [rewrite <- !(assoc_L (++)); reflexivity|].
  all: split; [repeat constructor|].
  all: do 4 (split; [eassumption|]).
  all: split; [by eapply take_length|].
  all: split; [by eapply take_length|].
  all: split; [intros field ->; by split|].
  all: intros ->; split; by eapply take_zeros.
Qed.

End execute_outcome.

Lemma execute_returns_iff_witness :
  (exists out, (Scenario.execute Scenario.evaluation).2 = Ok out) /\
  Scenario.execute_unmatched.2 = Raise Scenario.no_row.
Proof.
  split.
  - destruct (execute_returns_iff Scenario.fit Scenario.predict
                Scenario.get_field_logo_indices Scenario.train
                Scenario.evaluation None None "" 0 Scenario.w0
                (get_logo_indices_indexes _) (get_logo_indices_indexes _))
      as (X & y & _ & _ & _ & _ & Hiff).
    destruct Hiff as [Hret _]; [reflexivity| |].
    { intros X'. eexists. split; [reflexivity|].
      unfold Scenario.predicted_values. by rewrite length_map. }
    apply Hret. split.
    + exists (DataParser.Row [1%R] 1%R "Y" 0%R). split; [left|].
      by apply (bool_decide_unpack _).
    + exists (DataParser.Row [6%R] 4%R "Z" 0%R). split.
      * do 3 right. left.
      * by apply (bool_decide_unpack _).
  - destruct (execute_returns_iff Scenario.strict_fit Scenario.predict
                Scenario.get_field_logo_indices Scenario.train
                Scenario.unseen None None "" 1 Scenario.w0
                (get_logo_indices_indexes _) (get_logo_indices_indexes _))
      as (X & y & _ & Hempty & Hraise & _).
    destruct Hempty as [-> ->]; [reflexivity| |].
    { intros (r & ->%list_elem_of_singleton & Hg). revert Hg.
      by apply (bool_decide_unpack _). }
    exact (Hraise _ eq_refl).
Defined.

Lemma execute_plots_once_witness :
  exists (w' : world unit) calls plot,
    log w' = log Scenario.w0 ++ calls ++ [plot] /\
    is_plot_call plot = true /\
    Forall (fun e => is_plot_call e = false) calls.
Proof.
  destruct scenario_run as (w' & out & Hrun & _).
  destruct (execute_plots_once Scenario.fit Scenario.predict
              Scenario.get_field_logo_indices Scenario.train
              Scenario.evaluation None None "" 0 Scenario.w0 w' out Hrun)
    as (calls & sy & sp & uy & up & xs & xu & Hlog & Hcalls & _).
  eexists w', calls, _. split; [exact Hlog|].
  split; [reflexivity|exact Hcalls].
Defined.

(** ** Supported and unsupported rows *)

(** The rows of the groups of an index map, taken group by group, are the
    rows of the label column, once each. *)
Lemma indexes_rows_once labels im :
  indexes labels im ->
  NoDup (Py.keys im ≫= group_rows im) /\
  forall i, i ∈ Py.keys im ≫= group_rows im <-> i < length labels.
Proof.
  intros Hidx. split.
  - apply NoDup_bind.
    + intros g1 g2 i Hg1 Hg2 Hi1 Hi2.
      apply (indexes_key_rows labels) in Hi1; [|done..].
      apply (indexes_key_rows labels) in Hi2; [|done..].
      congruence.
    + intros g Hg. destruct (getitem_key im g Hg) as [idx Hi].
      unfold group_rows. rewrite Hi. apply getitem_elem_of in Hi.
      destruct Hidx as (_ & _ & Hrows). by apply (Hrows g idx).
    + by destruct Hidx as (? & _).
  - intros i. rewrite list_elem_of_bind. split.
    + intros (g & Hi & Hg).
      apply (indexes_key_rows labels) in Hi; [|done..].
      by apply lookup_lt_Some in Hi.
    + intros Hi. destruct (lookup_lt_is_Some_2 labels i Hi) as [g Hg].
      assert (g ∈ Py.keys im) as Hk.
      { apply (indexes_keys labels); [done|]. by eapply list_elem_of_lookup_2. }
      exists g. split; [|done]. by apply (indexes_key_rows labels).
Qed.

Lemma bind_filter_Permutation {A B} (P : A -> Prop) `{!forall x, Decision (P x)}
    (f : A -> list B) (l : list A) :
  (filter P l ≫= f) ++ (filter (fun x => ~ P x) l ≫= f) ≡ₚ l ≫= f.
Proof.
  induction l as [|x l IH]; [done|].
  rewrite !filter_cons. destruct (decide (P x)) as [HP|HP].
  - rewrite decide_False by tauto. cbn [mbind list_bind].
    rewrite <- (assoc_L (++)). by rewrite IH.
  - rewrite decide_True by done. cbn [mbind list_bind].
    rewrite <- IH. by rewrite Permutation_app_swap_app.
Qed.

(** X2: every row of the evaluation data is listed once, as a supported or
    as an unsupported row: the two lists together are a rearrangement of
    the row indices 0, 1, ..., n - 1. *)
Theorem supported_unsupported_once (labels : list string)
    (fit_indices topredict_indices : index_map)
    (Hidx : indexes labels topredict_indices) :
  let mgs := Np.intersect1d (Py.keys fit_indices) (Py.keys topredict_indices) in
  exists supported unsupported,
    ExtrapolateFull.supported_unsupported topredict_indices mgs
    = Ok (supported, unsupported) /\
    supported ++ unsupported ≡ₚ seq 0 (length labels) /\
    length supported + length unsupported = length labels.
Proof.
  intros mgs. eexists _, _. split; [apply supported_unsupported_rows|].
  destruct (indexes_rows_once labels topredict_indices Hidx) as [Hnd Hin].
  assert (Hperm : (filter (fun g => g ∈ mgs) (Py.keys topredict_indices)
                     ≫= group_rows topredict_indices)
                  ++ (filter (fun g => g ∉ mgs) (Py.keys topredict_indices)
                        ≫= group_rows topredict_indices)
                  ≡ₚ seq 0 (length labels)).
  { rewrite bind_filter_Permutation.
    apply NoDup_Permutation; [done|apply NoDup_seq|].
    intros i. rewrite Hin, elem_of_seq. lia. }
  split; [exact Hperm|].
  apply Permutation_length in Hperm.
  by rewrite length_app, length_seq in Hperm.
Qed.

Lemma supported_unsupported_once_witness :
  indexes ["A"; "B"; "A"] (Gttd.get_logo_indices ["A"; "B"; "A"]) /\
  exists supported unsupported,
    ExtrapolateFull.supported_unsupported
      (Gttd.get_logo_indices ["A"; "B"; "A"])
      (Np.intersect1d (Py.keys (Gttd.get_logo_indices ["A"; "C"]))
         (Py.keys (Gttd.get_logo_indices ["A"; "B"; "A"])))
    = Ok (supported, unsupported) /\
    supported ++ unsupported ≡ₚ seq 0 3.
Proof.
  split; [apply get_logo_indices_indexes|].
  destruct (supported_unsupported_once ["A"; "B"; "A"]
              (Gttd.get_logo_indices ["A"; "C"])
              (Gttd.get_logo_indices ["A"; "B"; "A"])
              (get_logo_indices_indexes _))
    as (s & u & H1 & H2 & _).
  exists s, u. split; [exact H1|exact H2].
Defined.

(** ** The outcome of [get_outlying_groups] *)

(** With at least one slot, a group that has a record leaves as many
    slots. *)
Lemma mark_group_length self hr g :
  hr <> [] ->
  is_Some (SingleFitGrouped.per_group_statistics self !! g) ->
  exists hr', SingleFitGrouped.mark_group self hr g = Ok hr' /\
              length hr' = length hr.
Proof.
  intros Hne [stats Hst].
  destruct (mark_group_returns self hr g stats Hne Hst)
    as (mn & i & _ & _ & _ & _ & Hrun).
  rewrite Hrun. eexists. split; [done|].
  destruct (stats !! _); [|done]. case_decide; [apply length_insert|done].
Qed.

Lemma mark_group_missing self hr g :
  hr <> [] ->
  SingleFitGrouped.per_group_statistics self !! g = None ->
  SingleFitGrouped.mark_group self hr g = Raise (KeyError g).
Proof.
  intros Hne Hst. unfold SingleFitGrouped.mark_group.
  destruct (min_returns hr Hne) as (mn & -> & _). cbn [rbind].
  by rewrite Hst.
Qed.

Lemma mark_groups_length self groups hr :
  hr <> [] ->
  (forall g, g ∈ groups ->
     is_Some (SingleFitGrouped.per_group_statistics self !! g)) ->
  exists hr', for_each groups (SingleFitGrouped.mark_group self) hr = Ok hr' /\
              length hr' = length hr.
Proof.
  revert hr. induction groups as [|g groups IH]; intros hr Hne Hst.
  - by exists hr.
  - destruct (mark_group_length self hr g Hne) as (hr1 & Hrun & Hlen).
    { apply Hst. left. }
    destruct (IH hr1) as (hr' & Hloop & Hlen').
    { intros ->. destruct hr; [done|discriminate]. }
    { intros g' Hg'. apply Hst. by right. }
    exists hr'. cbn [for_each]. rewrite Hrun. cbn [rbind].
    split; [done|congruence].
Qed.

(** X4: with no slot asked for (a number of groups to mark that is zero or
    negative), [get_outlying_groups] raises the [ValueError] of [min] on an
    empty list as soon as there is a testing group; with no testing group it
    returns the empty list. *)
Theorem get_outlying_groups_without_slots (self : SingleFitGrouped.t)
    (groups : list string)
    (Hgroups : SingleFitGrouped.test_groups self = Some groups)
    (Hk : (SingleFitGrouped.mark_outlying_groups self <= 0)%Z \/ groups = []) :
  SingleFitGrouped.get_outlying_groups self
  = match groups with
    | [] => Ok (SingleFitGrouped.set_outlying_groups self [])
    | _ :: _ => Raise (ValueError "min() arg is an empty sequence")
    end.
Proof.
  unfold SingleFitGrouped.get_outlying_groups, SingleFitGrouped.highest_rmses.
  rewrite Hgroups. cbn [Py.not_none rbind].
  destruct groups as [|g groups].
  - replace (Z.to_nat _) with 0 by (cbn [length]; lia).
    reflexivity.
  - destruct Hk as [Hk|]; [|done].
    replace (Z.to_nat _) with 0 by (cbn [length]; lia).
    reflexivity.
Qed.

Lemma get_outlying_groups_without_slots_witness :
  SingleFitGrouped.test_groups Scenario.no_marks = Some ["A"] /\
  SingleFitGrouped.get_outlying_groups Scenario.no_marks
  = Raise (ValueError "min() arg is an empty sequence").
Proof.
  split; [reflexivity|].
  apply (get_outlying_groups_without_slots Scenario.no_marks ["A"] eq_refl).
  left. simpl. lia.
Defined.

(** X5: with at least one group to mark, [get_outlying_groups] raises
    [KeyError] for the first testing group, in order, that has no record in
    the per-group statistics; so it does for the first group when
    [get_per_group_statistics] has not run. *)
Theorem get_outlying_groups_missing_record (self : SingleFitGrouped.t)
    (done : list string) (group : string) (todo : list string)
    (Hgroups : SingleFitGrouped.test_groups self = Some (done ++ group :: todo))
    (Hk : (1 <= SingleFitGrouped.mark_outlying_groups self)%Z)
    (Hdone : forall g, g ∈ done ->
       is_Some (SingleFitGrouped.per_group_statistics self !! g))
    (Hmissing : SingleFitGrouped.per_group_statistics self !! group = None) :
  SingleFitGrouped.get_outlying_groups self = Raise (KeyError group).
Proof.
  unfold SingleFitGrouped.get_outlying_groups, SingleFitGrouped.highest_rmses.
  rewrite Hgroups. cbn [Py.not_none rbind].
  set (hr := replicate _ _).
  assert (Hne : hr <> []).
  { intros E. apply (f_equal length) in E. unfold hr in E.
    rewrite length_replicate, length_app in E. cbn [length] in E. lia. }
  rewrite for_each_app.
  destruct (mark_groups_length self done hr Hne Hdone) as (hr1 & -> & Hlen).
  cbn [rbind for_each].
  rewrite mark_group_missing; [done| |done].
  intros ->. destruct hr; [done|discriminate].
Qed.

Lemma get_outlying_groups_missing_record_witness :
  SingleFitGrouped.get_outlying_groups
    (SingleFitGrouped.set_group_info Gttd.get_logo_indices Scenario.constructed)
  = Raise (KeyError "Y").
Proof.
  apply (get_outlying_groups_missing_record _ [] "Y" ["Z"]).
  - reflexivity.
  - simpl. lia.
  - intros g Hg. by apply elem_of_nil in Hg.
  - reflexivity.
Defined.

(** The slots when the loop ends, with what the loop keeps true. *)
Lemma highest_rmses_returns self groups :
  SingleFitGrouped.test_groups self = Some groups ->
  NoDup groups ->
  (forall g, g ∈ groups ->
     is_Some (SingleFitGrouped.per_group_statistics self !! g)) ->
  (1 <= SingleFitGrouped.mark_outlying_groups self)%Z ->
  exists hr,
    SingleFitGrouped.highest_rmses self = Ok hr /\
    length hr = Z.to_nat (SingleFitGrouped.mark_outlying_groups self)
                `min` length groups /\
    selection_inv self groups hr.
Proof.
  intros Hgroups Hnd Hstats Hk.
  set (m := Z.to_nat (Z.min (SingleFitGrouped.mark_outlying_groups self)
                        (Z.of_nat (length groups)))).
  destruct (selection_loop self groups [] (replicate m SingleFitGrouped.nogroup))
    as (hr & Hloop & Hlen & Inv).
  { done. }
  { done. }
  { intros Hne E. apply (f_equal length) in E.
    rewrite length_replicate in E. destruct groups; [done|].
    unfold m in E. cbn [length] in E. lia. }
  { apply selection_inv_init. }
  rewrite length_replicate in Hlen. exists hr. split_and!.
  - unfold SingleFitGrouped.highest_rmses. rewrite Hgroups.
    cbn [Py.not_none rbind]. exact Hloop.
  - unfold m in Hlen. lia.
  - exact Inv.
Qed.

Lemma length_real_entries hr :
  length hr
  = length (real_entries hr)
    + length (filter (fun e => e = SingleFitGrouped.nogroup) hr).
Proof.
  unfold real_entries. induction hr as [|e hr IH]; [done|].
  rewrite !filter_cons.
  destruct (decide (e = SingleFitGrouped.nogroup)) as [->|Hne].
  - rewrite decide_False by (intros H; by apply H). cbn [length]. lia.
  - rewrite decide_True by done. cbn [length]. lia.
Qed.

(** X6: with distinct testing groups that all have a record and at least
    one group to mark, [get_outlying_groups] returns, and the list
    [outlying_groups] it assigns has as many labels as slots (the lesser of
    the number to mark and the number of testing groups); each label is the
    placeholder "nogroup" or a testing group whose criterion statistic is
    present and strictly positive; no testing group is listed twice; and
    when fewer groups qualify than there are slots, the slots left over
    hold the placeholder. *)
Theorem outlying_groups_padded (self : SingleFitGrouped.t)
    (groups : list string)
    (Hgroups : SingleFitGrouped.test_groups self = Some groups)
    (Hnd : NoDup groups)
    (Hstats : forall g, g ∈ groups ->
       is_Some (SingleFitGrouped.per_group_statistics self !! g))
    (Hk : (1 <= SingleFitGrouped.mark_outlying_groups self)%Z) :
  let slots := Z.to_nat (SingleFitGrouped.mark_outlying_groups self)
               `min` length groups in
  exists self',
    SingleFitGrouped.get_outlying_groups self = Ok self' /\
    length (SingleFitGrouped.outlying_groups self') = slots /\
    (forall g, g ∈ SingleFitGrouped.outlying_groups self' ->
       g = "nogroup" \/
       g ∈ groups /\ exists v, criterion_value self g = Some v /\ (0 < v)%R) /\
    (forall g, g ∈ groups -> g <> "nogroup" ->
       length (filter (fun g' => g' = g)
                 (SingleFitGrouped.outlying_groups self')) <= 1) /\
    slots - length (candidates self groups)
    <= length (filter (fun g => g = "nogroup")
                 (SingleFitGrouped.outlying_groups self')).
Proof.
  intros slots.
  destruct (highest_rmses_returns self groups Hgroups Hnd Hstats Hk)
    as (hr & Hrun & Hlen & I1 & I2 & I3).
  exists (SingleFitGrouped.set_outlying_groups self hr.*2).
  unfold SingleFitGrouped.get_outlying_groups. rewrite Hrun.
  cbn [rbind SingleFitGrouped.outlying_groups
       SingleFitGrouped.set_outlying_groups].
  split; [done|]. split; [by rewrite length_fmap|].
  assert (Hlabel : forall e, e ∈ hr -> e.2 = "nogroup" \/
            e <> SingleFitGrouped.nogroup /\ e ∈ candidates self groups).
  { intros e He. destruct (decide (e = SingleFitGrouped.nogroup)) as [->|Hne];
      [by left|right]. split; [done|]. by destruct (I1 e He). }
  split_and!.
  - intros g [e [-> He]]%list_elem_of_fmap.
    destruct (Hlabel e He) as [?|[_ Hc]]; [by left|right].
    apply elem_of_candidates in Hc as [Hin (_ & Hpos & Hv)%candidate_Some].
    eauto.
  - intros g Hg Hne.
    assert (Hsub : filter (fun g' => g' = g) hr.*2
                   = (filter (fun e => e.2 = g) (real_entries hr)).*2).
    { unfold real_entries. clear -Hne. induction hr as [|e hr IH]; [done|].
      cbn [fmap list_fmap].
      destruct (decide (e = SingleFitGrouped.nogroup)) as [->|Hreal].
      - rewrite filter_cons_False by (simpl; congruence).
        rewrite (filter_cons_False (fun e => e <> SingleFitGrouped.nogroup))
          by (intros H; by apply H).
        exact IH.
      - rewrite (filter_cons_True (fun e => e <> SingleFitGrouped.nogroup))
          by done.
        rewrite !filter_cons. destruct (decide (e.2 = g)); [|done].
        cbn [fmap list_fmap]. by f_equal. }
    rewrite Hsub, length_fmap.
    destruct (filter _ (real_entries hr)) as [|e1 [|e2 l]] eqn:E;
      [cbn [length]; lia..|].
    exfalso.
    assert (He1 : e1 ∈ filter (fun e => e.2 = g) (real_entries hr))
      by (rewrite E; left).
    assert (He2 : e2 ∈ filter (fun e => e.2 = g) (real_entries hr))
      by (rewrite E; right; left).
    apply list_elem_of_filter in He1 as [Hg1 Hr1].
    apply list_elem_of_filter in He2 as [Hg2 Hr2].
    assert (e1 = e2) as ->.
    { apply elem_of_real_entries in Hr1 as [N1 H1].
      apply elem_of_real_entries in Hr2 as [N2 H2].
      destruct (I1 e1 H1) as [|C1]; [done|].
      destruct (I1 e2 H2) as [|C2]; [done|].
      apply elem_of_candidates in C1 as [_ C1].
      apply elem_of_candidates in C2 as [_ C2].
      rewrite Hg1 in C1. rewrite Hg2 in C2. congruence. }
    assert (NoDup (e2 :: e2 :: l)) as Hdup.
    { rewrite <- E. by apply NoDup_filter. }
    apply NoDup_cons in Hdup as [Hdup _]. apply Hdup. left.
  - assert (Hsent : length (filter (fun e => e = SingleFitGrouped.nogroup) hr)
                    <= length (filter (fun g => g = "nogroup") hr.*2)).
    { clear. induction hr as [|e hr IH]; [done|].
      cbn [fmap list_fmap]. rewrite !filter_cons.
      destruct (decide (e = SingleFitGrouped.nogroup)) as [->|Hne].
      - rewrite decide_True by done. cbn [length]. lia.
      - case_decide; cbn [length]; lia. }
    assert (Hreal : length (real_entries hr) <= length (candidates self groups)).
    { apply submseteq_length, NoDup_submseteq; [done|].
      intros e [Hne He]%elem_of_real_entries.
      by destruct (I1 e He). }
    pose proof (length_real_entries hr). unfold slots. lia.
Qed.

Lemma outlying_groups_padded_witness :
  exists self',
    SingleFitGrouped.get_outlying_groups Scenario.perfect_group = Ok self' /\
    length (SingleFitGrouped.outlying_groups self') = 1 /\
    1 <= length (filter (fun g => g = "nogroup")
                   (SingleFitGrouped.outlying_groups self')).
Proof.
  assert (Hnd : NoDup ["A"]) by (by apply (bool_decide_unpack _)).
  assert (Hstats : forall g, g ∈ ["A"] ->
            is_Some (SingleFitGrouped.per_group_statistics
                       Scenario.perfect_group !! g)).
  { intros g Hg. apply elem_of_cons in Hg as [->|Hg]; [by eexists|].
    by apply elem_of_nil in Hg. }
  assert (Hk : (1 <= SingleFitGrouped.mark_outlying_groups
                        Scenario.perfect_group)%Z) by (simpl; lia).
  destruct (outlying_groups_padded Scenario.perfect_group ["A"]
              eq_refl Hnd Hstats Hk)
    as (self' & Hrun & Hlen & _ & _ & Hpad).
  exists self'. split; [exact Hrun|]. split; [exact Hlen|].
  assert (Hc : candidates Scenario.perfect_group ["A"] = []).
  { unfold candidates, candidate, criterion_value. cbn [omap list_omap].
    change (SingleFitGrouped.per_group_statistics Scenario.perfect_group !! "A"
            ≫= (fun stats => stats
                  !! SingleFitGrouped.criterion Scenario.perfect_group))
      with (Some 0%R).
    cbv beta iota. rewrite decide_False by lra. done. }
  rewrite Hc in Hpad. exact Hpad.
Defined.

(** ** Recomputing the per-group statistics *)

(** X7: under the conditions in which [get_per_group_statistics] returns,
    running it a second time changes nothing; the records of labels that
    are not testing groups are left as they were; and the records written
    for the testing groups do not depend on the records held before. *)
Theorem get_per_group_statistics_idempotent
    (self : SingleFitGrouped.t) (labels : list string) (ti : index_map)
    (y : list R)
    (Htg : SingleFitGrouped.test_groups self = Some (Py.keys ti))
    (Hti : SingleFitGrouped.test_group_indices self = Some ti)
    (Hidx : indexes labels ti)
    (Hy : SingleFitGrouped.testing_target_data (SingleFitGrouped.base self)
          = Some y)
    (Hly : length y = length labels)
    (Hlp : length (SingleFitGrouped.testing_target_prediction
                     (SingleFitGrouped.base self)) = length labels) :
  exists self',
    SingleFitGrouped.get_per_group_statistics self = Ok self' /\
    SingleFitGrouped.get_per_group_statistics self' = Ok self' /\
    (forall g, g ∉ Py.keys ti ->
       SingleFitGrouped.per_group_statistics self' !! g
       = SingleFitGrouped.per_group_statistics self !! g) /\
    (forall stats,
       exists stats',
         SingleFitGrouped.get_per_group_statistics
           (SingleFitGrouped.set_per_group_statistics self stats)
         = Ok (SingleFitGrouped.set_per_group_statistics self stats') /\
         forall g, g ∈ Py.keys ti ->
           stats' !! g = SingleFitGrouped.per_group_statistics self' !! g).
Proof.
  destruct (get_per_group_statistics_returns self labels ti y)
    as (stats1 & Hrun1 & Hlook1); try done.
  exists (SingleFitGrouped.set_per_group_statistics self stats1).
  split; [exact Hrun1|]. split_and!.
  - destruct (get_per_group_statistics_returns
                (SingleFitGrouped.set_per_group_statistics self stats1)
                labels ti y)
      as (stats2 & Hrun2 & Hlook2); try done.
    rewrite Hrun2. do 2 f_equal. apply map_eq. intros g.
    rewrite Hlook2. case_decide as Hg; [|done].
    rewrite Hlook1. by rewrite decide_True.
  - intros g Hg.
    cbn [SingleFitGrouped.per_group_statistics
         SingleFitGrouped.set_per_group_statistics].
    rewrite Hlook1. by rewrite decide_False.
  - intros stats.
    destruct (get_per_group_statistics_returns
                (SingleFitGrouped.set_per_group_statistics self stats)
                labels ti y)
      as (stats2 & Hrun2 & Hlook2); try done.
    exists stats2. split; [exact Hrun2|].
    intros g Hg.
    cbn [SingleFitGrouped.per_group_statistics
         SingleFitGrouped.set_per_group_statistics].
    rewrite Hlook2, Hlook1. by rewrite !decide_True.
Qed.

Lemma get_per_group_statistics_idempotent_witness :
  indexes ["Y"; "Y"; "Y"; "Z"] (Gttd.get_logo_indices ["Y"; "Y"; "Y"; "Z"]) /\
  exists self',
    SingleFitGrouped.get_per_group_statistics Scenario.grouped = Ok self' /\
    SingleFitGrouped.get_per_group_statistics self' = Ok self'.
Proof.
  split; [apply get_logo_indices_indexes|].
  destruct (get_per_group_statistics_idempotent Scenario.grouped
              ["Y"; "Y"; "Y"; "Z"] (Gttd.get_logo_indices ["Y"; "Y"; "Y"; "Z"])
              [1%R; 2%R; 3%R; 4%R]
              eq_refl eq_refl (get_logo_indices_indexes _)
              eq_refl eq_refl eq_refl)
    as (self' & H1 & H2 & _).
  exists self'. split; [exact H1|exact H2].
Defined.

(** ** [get_plotting_dict] *)

Lemma plotted_rows_in_range self labels ti g :
  indexes labels ti -> g ∈ Py.keys ti ->
  Forall (fun i => i < length labels) (plotted_rows self ti g).
Proof.
  intros Hidx Hg.
  destruct (indexes_rows_in_range labels ti g Hidx Hg) as [_ Hr].
  unfold plotted_rows. destruct (SingleFitGrouped.plot_filter_out _); [|done].
  apply Forall_forall. intros i [Hi _]%elem_of_intersect1d_idx.
  by apply (proj1 (Forall_forall _ _) Hr).
Qed.

Lemma plotting_entry_returns self err labels ti y g :
  SingleFitGrouped.test_group_indices self = Some ti ->
  indexes labels ti -> g ∈ Py.keys ti ->
  SingleFitGrouped.testing_target_data (SingleFitGrouped.base self) = Some y ->
  length y = length labels ->
  length (SingleFitGrouped.testing_target_prediction (SingleFitGrouped.base self))
  = length labels ->
  (forall er, err = Some er -> length er = length labels) ->
  is_Some (SingleFitGrouped.per_group_statistics self !! g) ->
  exists e,
    SingleFitGrouped.plotting_entry self err g = Ok e /\
    Np.take y (plotted_rows self ti g) = Ok (SingleFitGrouped.xdata e) /\
    Np.take (SingleFitGrouped.testing_target_prediction
               (SingleFitGrouped.base self)) (plotted_rows self ti g)
    = Ok (SingleFitGrouped.ydata e) /\
    match err with
    | None => SingleFitGrouped.xerrdata e
              = Np.zeros (length (plotted_rows self ti g))
    | Some er => Np.take er (plotted_rows self ti g)
                 = Ok (SingleFitGrouped.xerrdata e)
    end /\
    SingleFitGrouped.rmse e = criterion_value self g.
Proof.
  intros Hti Hidx Hg Hy Hly Hlp Herr [stats Hst].
  pose proof (plotted_rows_in_range self labels ti g Hidx Hg) as Hr.
  unfold SingleFitGrouped.plotting_entry. rewrite Hti.
  cbn [Py.not_none rbind].
  destruct (getitem_key ti g Hg) as [idx Hi]. rewrite Hi. cbn [rbind].
  assert (Hrows : match SingleFitGrouped.plot_filter_out (SingleFitGrouped.base self) with
                  | None => idx
                  | Some _ => Np.intersect1d_idx idx
                      (SingleFitGrouped.plotting_index (SingleFitGrouped.base self))
                  end = plotted_rows self ti g).
  { unfold plotted_rows, group_rows. by rewrite Hi. }
  rewrite Hrows. set (rows := plotted_rows self ti g) in *.
  destruct (take_in_range (SingleFitGrouped.testing_target_prediction
                             (SingleFitGrouped.base self)) rows)
    as (ps & Hps & _); [by rewrite Hlp|].
  destruct (take_in_range y rows) as (ys & Hys & _); [by rewrite Hly|].
  rewrite Hps, Hy. cbn [Py.not_none rbind]. rewrite Hys. cbn [rbind].
  unfold criterion_value. rewrite Hst. cbn [mbind option_bind].
  destruct err as [er|].
  - destruct (take_in_range er rows) as (es & Hes & _);
      [by rewrite (Herr er eq_refl)|].
    rewrite Hes. cbn [rbind]. eexists. split; [reflexivity|].
    by cbn.
  - cbn [rbind]. eexists. split; [reflexivity|]. by cbn.
Qed.

Lemma get_plotting_dict_entries
    (self : SingleFitGrouped.t) (err : option (list R))
    (labels : list string) (ti : index_map) (y : list R)
    (Htg : SingleFitGrouped.test_groups self = Some (Py.keys ti))
    (Hti : SingleFitGrouped.test_group_indices self = Some ti)
    (Hidx : indexes labels ti)
    (Hy : SingleFitGrouped.testing_target_data (SingleFitGrouped.base self)
          = Some y)
    (Hly : length y = length labels)
    (Hlp : length (SingleFitGrouped.testing_target_prediction
                     (SingleFitGrouped.base self)) = length labels)
    (Herr : forall er, err = Some er -> length er = length labels)
    (Hstats : forall g, g ∈ Py.keys ti ->
       is_Some (SingleFitGrouped.per_group_statistics self !! g)) :
  exists plot_dict,
    SingleFitGrouped.get_plotting_dict self err = Ok plot_dict /\
    (forall g, is_Some (plot_dict !! g) <-> g ∈ Py.keys ti) /\
    forall g e, plot_dict !! g = Some e ->
      let rows := plotted_rows self ti g in
      Np.take y rows = Ok (SingleFitGrouped.xdata e) /\
      Np.take (SingleFitGrouped.testing_target_prediction
                 (SingleFitGrouped.base self)) rows
      = Ok (SingleFitGrouped.ydata e) /\
      length (SingleFitGrouped.xdata e) = length rows /\
      length (SingleFitGrouped.ydata e) = length rows /\
      length (SingleFitGrouped.xerrdata e) = length rows /\
      match err with
      | None => SingleFitGrouped.xerrdata e = Np.zeros (length rows)
      | Some er => Np.take er rows = Ok (SingleFitGrouped.xerrdata e)
      end /\
      SingleFitGrouped.rmse e = criterion_value self g.
Proof.
  unfold SingleFitGrouped.get_plotting_dict. rewrite Htg.
  cbn [Py.not_none rbind].
  set (entry := fun g =>
         match SingleFitGrouped.plotting_entry self err g with
         | Ok e => e
         | Raise _ => SingleFitGrouped.PlotEntry [] [] [] None
         end).
  edestruct (for_each_inserts
               (fun plot_dict group =>
                  rbind (SingleFitGrouped.plotting_entry self err group)
                    (fun e => Ok (<[group := e]> plot_dict)))
               entry (Py.keys ti) ∅)
    as (pd & Hloop & Hlook).
  { intros st g Hg.
    destruct (plotting_entry_returns self err labels ti y g)
      as (e & He & _); try done; [by apply Hstats|].
    unfold entry. by rewrite He. }
  exists pd. split; [exact Hloop|]. split.
  - intros g. rewrite Hlook. case_decide as Hg.
    + split; [done|]. intros _. by eexists.
    + rewrite lookup_empty. split; [by intros [? ?]|done].
  - intros g e. rewrite Hlook. case_decide as Hg; [|by rewrite lookup_empty].
    intros [= <-].
    destruct (plotting_entry_returns self err labels ti y g)
      as (e & He & Hx & Hyd & Herrd & Hrmse); try done; [by apply Hstats|].
    unfold entry. rewrite He. cbn zeta.
    split_and!; try done.
    + by apply take_length in Hx.
    + by apply take_length in Hyd.
    + destruct err as [er|].
      * by apply take_length in Herrd.
      * rewrite Herrd. unfold Np.zeros. by rewrite length_replicate.
Qed.



(** X10: after [get_per_group_statistics], the RMSE that
    [get_plotting_dict] attaches to the entry of a group is the RMSE of the
    points of that entry, that is, the square root of the mean squared error
    between its predictions ([ydata]) and its measured values ([xdata]); it
    is [None] exactly when the entry has no point. *)
Theorem plotted_rmse_is_of_plotted_points
    (self : SingleFitGrouped.t) (err : option (list R))
    (labels : list string) (ti : index_map) (y : list R)
    (Htg : SingleFitGrouped.test_groups self = Some (Py.keys ti))
    (Hti : SingleFitGrouped.test_group_indices self = Some ti)
    (Hidx : indexes labels ti)
    (Hy : SingleFitGrouped.testing_target_data (SingleFitGrouped.base self)
          = Some y)
    (Hly : length y = length labels)
    (Hlp : length (SingleFitGrouped.testing_target_prediction
                     (SingleFitGrouped.base self)) = length labels)
    (Herr : forall er, err = Some er -> length er = length labels) :
  exists self' plot_dict,
    SingleFitGrouped.get_per_group_statistics self = Ok self' /\
    SingleFitGrouped.get_plotting_dict self' err = Ok plot_dict /\
    forall g e, plot_dict !! g = Some e ->
      (SingleFitGrouped.rmse e = None <-> SingleFitGrouped.xdata e = []) /\
      forall v, SingleFitGrouped.rmse e = Some v ->
        rbind (Sklearn.mean_squared_error (SingleFitGrouped.ydata e)
                 (SingleFitGrouped.xdata e))
          (fun mse => Ok (Np.sqrt mse))
        = Ok v.
Proof.
  destruct (get_per_group_statistics_returns self labels ti y)
    as (stats' & Hrun & Hlook); try done.
  set (self' := SingleFitGrouped.set_per_group_statistics self stats').
  destruct (get_plotting_dict_entries self' err labels ti y)
    as (pd & Hpd & Hdom & Hent); try done.
  { intros g Hg. cbn [self' SingleFitGrouped.per_group_statistics
                      SingleFitGrouped.set_per_group_statistics].
    rewrite Hlook, decide_True by done. by eexists. }
  exists self', pd. split; [exact Hrun|]. split; [exact Hpd|].
  intros g e Hge.
  assert (Hg : g ∈ Py.keys ti) by (apply Hdom; by eexists).
  destruct (Hent g e Hge) as (Hx & Hyd & Hlx & _ & _ & _ & Hrmse).
  set (pred := SingleFitGrouped.testing_target_prediction
                 (SingleFitGrouped.base self)) in *.
  assert (Hcv : criterion_value self' g
                = group_record_spec
                    (SingleFitGrouped.plot_filter_out (SingleFitGrouped.base self))
                    (SingleFitGrouped.plotting_index (SingleFitGrouped.base self))
                    pred y (group_rows ti g)
                  !! SingleFitGrouped.criterion self).
  { unfold criterion_value.
    cbn [self' SingleFitGrouped.per_group_statistics
         SingleFitGrouped.set_per_group_statistics].
    rewrite Hlook, decide_True by done. done. }
  rewrite Hrmse, Hcv.
  destruct (group_record_spec_lookup
              (SingleFitGrouped.plot_filter_out (SingleFitGrouped.base self))
              (SingleFitGrouped.plotting_index (SingleFitGrouped.base self))
              pred y (group_rows ti g)) as [Hr Hf].
  change (SingleFitGrouped.testing_target_prediction
            (SingleFitGrouped.base self')) with pred in Hyd.
  pose proof (rmse_rows pred y _ _ _ Hyd Hx) as Hrows.
  revert Hx Hyd Hlx Hrows. unfold plotted_rows.
  change (SingleFitGrouped.plot_filter_out (SingleFitGrouped.base self'))
    with (SingleFitGrouped.plot_filter_out (SingleFitGrouped.base self)).
  change (SingleFitGrouped.plotting_index (SingleFitGrouped.base self'))
    with (SingleFitGrouped.plotting_index (SingleFitGrouped.base self)).
  unfold SingleFitGrouped.criterion.
  destruct (SingleFitGrouped.plot_filter_out (SingleFitGrouped.base self))
    as [pf|].
  - rewrite Hf.
    destruct (Np.intersect1d_idx _ _) as [|i l]; intros Hx Hyd Hlx Hrows.
    + split; [|discriminate]. split; [|done]. intros _.
      by destruct (SingleFitGrouped.xdata e).
    + split.
      * split; [discriminate|]. intros E. rewrite E in Hlx. discriminate.
      * intros v [= <-]. by destruct Hrows as [_ ->].
  - rewrite Hr.
    destruct (indexes_rows_in_range labels ti g Hidx Hg) as [Hne _].
    destruct (group_rows ti g) as [|i l]; [done|].
    intros Hx Hyd Hlx Hrows. split.
    + split; [discriminate|]. intros E. rewrite E in Hlx. discriminate.
    + intros v [= <-]. by destruct Hrows as [_ ->].
Qed.

Lemma plotted_rmse_is_of_plotted_points_witness :
  indexes ["Y"; "Y"; "Y"; "Z"] (Gttd.get_logo_indices ["Y"; "Y"; "Y"; "Z"]) /\
  exists self' plot_dict,
    SingleFitGrouped.get_per_group_statistics Scenario.grouped = Ok self' /\
    SingleFitGrouped.get_plotting_dict self' None = Ok plot_dict.
Proof.
  split; [apply get_logo_indices_indexes|].
  destruct (plotted_rmse_is_of_plotted_points Scenario.grouped None
              ["Y"; "Y"; "Y"; "Z"] (Gttd.get_logo_indices ["Y"; "Y"; "Y"; "Z"])
              [1%R; 2%R; 3%R; 4%R]
              eq_refl eq_refl (get_logo_indices_indexes _)
              eq_refl eq_refl eq_refl)
    as (self' & plot_dict & Hrun & Hpd & _).
  - intros er [=].
  - exists self', plot_dict. split; [exact Hrun|exact Hpd].
Defined.

(** ** [print_statistics] *)





Section print_statistics.
Variable SingleFit_print_statistics
  : list SingleFitGrouped.readme_line
    -> result (list SingleFitGrouped.readme_line).


End print_statistics.


(** ** [get_statistics] and [plot_results] *)

Section get_statistics.
Variable SingleFit_get_statistics
  : SingleFitGrouped.SingleFit -> result SingleFitGrouped.SingleFit.
Variable SingleFit_plot_results
  : list SingleFitGrouped.readme_line
    -> result (list SingleFitGrouped.readme_line).

(** The object that [get_statistics] leaves. *)
Lemma get_statistics_run
    (self : SingleFitGrouped.t) (b : SingleFitGrouped.SingleFit)
    (labels : list string) (ti : index_map) (y : list R) :
  SingleFit_get_statistics (SingleFitGrouped.base self) = Ok b ->
  SingleFitGrouped.test_groups self = Some (Py.keys ti) ->
  SingleFitGrouped.test_group_indices self = Some ti ->
  indexes labels ti ->
  SingleFitGrouped.testing_target_data b = Some y ->
  length y = length labels ->
  length (SingleFitGrouped.testing_target_prediction b) = length labels ->
  (1 <= SingleFitGrouped.mark_outlying_groups self)%Z ->
  exists stats hr,
    SingleFitGrouped.get_statistics SingleFit_get_statistics self
    = Ok (SingleFitGrouped.set_outlying_groups
            (SingleFitGrouped.set_per_group_statistics
               (SingleFitGrouped.set_base self b) stats) hr.*2) /\
    (forall g, g ∈ Py.keys ti ->
       stats !! g
       = Some (group_record_spec (SingleFitGrouped.plot_filter_out b)
                 (SingleFitGrouped.plotting_index b)
                 (SingleFitGrouped.testing_target_prediction b)
                 y (group_rows ti g))) /\
    length hr = Z.to_nat (SingleFitGrouped.mark_outlying_groups self)
                `min` length (Py.keys ti) /\
    (forall e, e ∈ hr -> e = SingleFitGrouped.nogroup \/ e.2 ∈ Py.keys ti).
Proof.
  intros Hparent Htg Hti Hidx Hy Hly Hlp Hk.
  unfold SingleFitGrouped.get_statistics. rewrite Hparent. cbn [rbind].
  set (self0 := SingleFitGrouped.set_base self b).
  destruct (get_per_group_statistics_returns self0 labels ti y)
    as (stats1 & Hrun1 & Hlook1); try done.
  rewrite Hrun1. cbn [rbind].
  set (self1 := SingleFitGrouped.set_per_group_statistics self0 stats1).
  assert (Hnd : NoDup (Py.keys ti)) by (by destruct Hidx as (? & _)).
  assert (Hstats : forall g, g ∈ Py.keys ti ->
            is_Some (SingleFitGrouped.per_group_statistics self1 !! g)).
  { intros g Hg. cbn [self1 SingleFitGrouped.per_group_statistics
                      SingleFitGrouped.set_per_group_statistics].
    rewrite Hlook1. rewrite decide_True by done. by eexists. }
  destruct (highest_rmses_returns self1 (Py.keys ti) Htg Hnd Hstats Hk)
    as (hr & Hrun & Hlen & I1 & _).
  unfold SingleFitGrouped.get_outlying_groups. rewrite Hrun. cbn [rbind].
  exists stats1, hr. split_and!; [done| |done|].
  - intros g Hg. rewrite Hlook1. by rewrite decide_True.
  - intros e He. destruct (I1 e He) as [->|Hc]; [by left|right].
    by apply elem_of_candidates in Hc as [? _].
Qed.

(** X8: when the parent's [get_statistics] returns and leaves arrays with
    one entry per row, [get_statistics] returns: every testing group has
    its record when [get_outlying_groups] looks it up, so that no
    [KeyError] is raised; the list of outlying groups has as many labels as
    slots, each a testing group or the placeholder "nogroup". *)
Theorem get_statistics_returns
    (self : SingleFitGrouped.t) (b : SingleFitGrouped.SingleFit)
    (labels : list string) (ti : index_map) (y : list R)
    (Hparent : SingleFit_get_statistics (SingleFitGrouped.base self) = Ok b)
    (Htg : SingleFitGrouped.test_groups self = Some (Py.keys ti))
    (Hti : SingleFitGrouped.test_group_indices self = Some ti)
    (Hidx : indexes labels ti)
    (Hy : SingleFitGrouped.testing_target_data b = Some y)
    (Hly : length y = length labels)
    (Hlp : length (SingleFitGrouped.testing_target_prediction b)
           = length labels)
    (Hk : (1 <= SingleFitGrouped.mark_outlying_groups self)%Z) :
  exists self',
    SingleFitGrouped.get_statistics SingleFit_get_statistics self = Ok self' /\
    SingleFitGrouped.base self' = b /\
    (forall g, g ∈ Py.keys ti ->
       SingleFitGrouped.per_group_statistics self' !! g
       = Some (group_record_spec (SingleFitGrouped.plot_filter_out b)
                 (SingleFitGrouped.plotting_index b)
                 (SingleFitGrouped.testing_target_prediction b)
                 y (group_rows ti g))) /\
    length (SingleFitGrouped.outlying_groups self')
    = Z.to_nat (SingleFitGrouped.mark_outlying_groups self)
      `min` length (Py.keys ti) /\
    (forall g, g ∈ SingleFitGrouped.outlying_groups self' ->
       g = "nogroup" \/ g ∈ Py.keys ti).
Proof.
  destruct (get_statistics_run self b labels ti y)
    as (stats & hr & Hrun & Hstats & Hlen & Hhr); try done.
  eexists. split; [exact Hrun|].
  cbn [SingleFitGrouped.outlying_groups SingleFitGrouped.set_outlying_groups
       SingleFitGrouped.per_group_statistics SingleFitGrouped.base].
  split_and!; [done|done|by rewrite length_fmap|].
  intros g [e [-> He]]%list_elem_of_fmap.
  destruct (Hhr e He) as [->|?]; [by left|by right].
Qed.

(** X12: [plot_results] after [get_statistics]: it returns when the
    parent's [plot_results] does and the overall statistic of the criterion
    is present; the dict passed to the plot is the one just built, with the
    testing groups as keys; every outlying group passed with it is a key of
    that dict or the placeholder "nogroup"; the plot goes to the subfolder
    [per_group_info] of the save path; the notes are two without a plot
    filter and three more than the filter strings with one, the last note
    being the overall RMSE. *)
Theorem plot_results_after_statistics
    (self : SingleFitGrouped.t) (b : SingleFitGrouped.SingleFit)
    (labels : list string) (ti : index_map) (y : list R)
    (err : option (list R)) (statistics : gmap string R) (overall : R)
    (xlabel ylabel save_path : string) (stepsize : R)
    (readme_list parent_lines : list SingleFitGrouped.readme_line)
    (Hparent : SingleFit_get_statistics (SingleFitGrouped.base self) = Ok b)
    (Htg : SingleFitGrouped.test_groups self = Some (Py.keys ti))
    (Hti : SingleFitGrouped.test_group_indices self = Some ti)
    (Hidx : indexes labels ti)
    (Hy : SingleFitGrouped.testing_target_data b = Some y)
    (Hly : length y = length labels)
    (Hlp : length (SingleFitGrouped.testing_target_prediction b)
           = length labels)
    (Hk : (1 <= SingleFitGrouped.mark_outlying_groups self)%Z)
    (Herr : forall er, err = Some er -> length er = length labels)
    (Hplot : SingleFit_plot_results readme_list = Ok parent_lines)
    (Hoverall : statistics
                !! match SingleFitGrouped.plot_filter_out b with
                   | None => "rmse"
                   | Some _ => "rmse_plot_filter_out"
                   end = Some overall) :
  exists self' plot_dict call,
    SingleFitGrouped.get_statistics SingleFit_get_statistics self = Ok self' /\
    SingleFitGrouped.plot_results SingleFit_plot_results self' err statistics
      xlabel ylabel save_path stepsize readme_list
    = Ok (plot_dict, call,
          parent_lines
          ++ [SingleFitGrouped.Line
                ("Plot in subfolder per_group_info created"
                 +:+ SingleFitGrouped.nl);
              SingleFitGrouped.Line
                ("    labeling outlying groups and their RMSEs."
                 +:+ SingleFitGrouped.nl)]) /\
    SingleFitGrouped.call_group_dict call = plot_dict /\
    (forall g, is_Some (plot_dict !! g) <-> g ∈ Py.keys ti) /\
    SingleFitGrouped.call_outlying_groups call
    = SingleFitGrouped.outlying_groups self' /\
    (forall g, g ∈ SingleFitGrouped.call_outlying_groups call ->
       g = "nogroup" \/ is_Some (plot_dict !! g)) /\
    SingleFitGrouped.kw_save_path call
    = Os.path_join save_path "per_group_info" /\
    length (SingleFitGrouped.call_group_notelist call)
    = match SingleFitGrouped.plot_filter_out b with
      | None => 2
      | Some plot_filter_out => 3 + length plot_filter_out
      end /\
    last (SingleFitGrouped.call_group_notelist call)
    = Some (SingleFitGrouped.OverallNote overall).
Proof.
  destruct (get_statistics_run self b labels ti y)
    as (stats & hr & Hrun & Hstats & Hlen & Hhr); try done.
  set (self' := SingleFitGrouped.set_outlying_groups _ _) in Hrun.
  destruct (get_plotting_dict_entries self' err labels ti y)
    as (pd & Hpd & Hdom & _); try done.
  { intros g Hg. cbn [self' SingleFitGrouped.per_group_statistics
                      SingleFitGrouped.set_outlying_groups
                      SingleFitGrouped.set_per_group_statistics].
    rewrite (Hstats g Hg). by eexists. }
  assert (Hnotes : exists notes,
            SingleFitGrouped.group_notelist self' statistics = Ok notes /\
            length notes
            = match SingleFitGrouped.plot_filter_out b with
              | None => 2
              | Some plot_filter_out => 3 + length plot_filter_out
              end /\
            last notes = Some (SingleFitGrouped.OverallNote overall)).
  { unfold SingleFitGrouped.group_notelist.
    change (SingleFitGrouped.plot_filter_out (SingleFitGrouped.base self'))
      with (SingleFitGrouped.plot_filter_out b).
    destruct (SingleFitGrouped.plot_filter_out b) as [pf|]; rewrite Hoverall.
    - eexists. split; [reflexivity|]. split.
      + rewrite length_app. cbn [length]. rewrite length_map. lia.
      + match goal with
        | |- last (?l ++ [?n1; ?n2]) = _ =>
            change (l ++ [n1; n2]) with (l ++ [n1] ++ [n2])
        end.
        rewrite (assoc_L (++)). apply last_snoc.
    - eexists. split; [reflexivity|]. done. }
  destruct Hnotes as (notes & Hnotes & Hnlen & Hnlast).
  eexists self', pd, _. split; [exact Hrun|].
  unfold SingleFitGrouped.plot_results. rewrite Hplot. cbn [rbind].
  rewrite Hpd. cbn [rbind]. rewrite Hnotes. cbn [rbind].
  split; [reflexivity|].
  cbn [SingleFitGrouped.plot_group_splits_with_outliers
       SingleFitGrouped.call_group_dict SingleFitGrouped.call_outlying_groups
       SingleFitGrouped.kw_save_path SingleFitGrouped.call_group_notelist].
  split_and!; try done.
  intros g Hg. cbn [self' SingleFitGrouped.outlying_groups
                    SingleFitGrouped.set_outlying_groups] in Hg.
  apply list_elem_of_fmap in Hg as [e [-> He]].
  destruct (Hhr e He) as [->|Hk']; [by left|right]. by apply Hdom.
Qed.

End get_statistics.

Lemma get_statistics_returns_witness :
  indexes ["Y"; "Y"; "Y"; "Z"] (Gttd.get_logo_indices ["Y"; "Y"; "Y"; "Z"]) /\
  exists self',
    SingleFitGrouped.get_statistics Scenario.parent_get_statistics
      Scenario.grouped = Ok self' /\
    length (SingleFitGrouped.outlying_groups self') = 2.
Proof.
  split; [apply get_logo_indices_indexes|].
  assert (Hk : (1 <= SingleFitGrouped.mark_outlying_groups Scenario.grouped)%Z)
    by (simpl; lia).
  destruct (get_statistics_returns Scenario.parent_get_statistics
              Scenario.grouped (SingleFitGrouped.base Scenario.grouped)
              ["Y"; "Y"; "Y"; "Z"] (Gttd.get_logo_indices ["Y"; "Y"; "Y"; "Z"])
              [1%R; 2%R; 3%R; 4%R]
              eq_refl eq_refl eq_refl (get_logo_indices_indexes _)
              eq_refl eq_refl eq_refl Hk)
    as (self' & Hrun & _ & _ & Hlen & _).
  exists self'. split; [exact Hrun|exact Hlen].
Defined.

Lemma plot_results_after_statistics_witness :
  indexes ["Y"; "Y"; "Y"; "Z"] (Gttd.get_logo_indices ["Y"; "Y"; "Y"; "Z"]) /\
  exists self' plot_dict call,
    SingleFitGrouped.get_statistics Scenario.parent_get_statistics
      Scenario.grouped = Ok self' /\
    SingleFitGrouped.call_group_dict call = plot_dict /\
    SingleFitGrouped.kw_save_path call = "out/per_group_info" /\
    length (SingleFitGrouped.call_group_notelist call) = 4.
Proof.
  split; [apply get_logo_indices_indexes|].
  assert (Hk : (1 <= SingleFitGrouped.mark_outlying_groups Scenario.grouped)%Z)
    by (simpl; lia).
  destruct (plot_results_after_statistics Scenario.parent_get_statistics
              Scenario.parent_readme
              Scenario.grouped (SingleFitGrouped.base Scenario.grouped)
              ["Y"; "Y"; "Y"; "Z"] (Gttd.get_logo_indices ["Y"; "Y"; "Y"; "Z"])
              [1%R; 2%R; 3%R; 4%R] None {["rmse_plot_filter_out" := 0%R]} 0%R
              "Measured" "Predicted" "out" 1%R [] []
              eq_refl eq_refl eq_refl (get_logo_indices_indexes _)
              eq_refl eq_refl eq_refl Hk)
    as (self' & plot_dict & call & Hrun & _ & Hdict & _ & _ & _ & Hpath
        & Hnotes & _).
  - intros er [=].
  - reflexivity.
  - reflexivity.
  - exists self', plot_dict, call.
    split; [exact Hrun|]. split; [exact Hdict|].
    split; [exact Hpath|exact Hnotes].
Defined.

(** ** The group information after [set_data] *)

Lemma length_filter_lt {A} (P : A -> Prop) `{!forall a, Decision (P a)}
    (l : list A) (a : A) :
  a ∈ l -> ~ P a -> length (filter P l) < length l.
Proof.
  induction l as [|x l IH]; intros Hin Hn; [by apply elem_of_nil in Hin|].
  pose proof (length_filter P l) as Hle.
  rewrite filter_cons. destruct (decide (P x)) as [HP|HP]; cbn [length].
  - apply elem_of_cons in Hin as [->|Hin]; [done|].
    specialize (IH Hin Hn). lia.
  - lia.
Qed.

Section set_data.
Variable SingleFit_set_data
  : SingleFitGrouped.SingleFit -> result SingleFitGrouped.SingleFit.
Variable get_logo_indices : list string -> index_map.

(** X13: [set_data] gathers the group information before it filters the
    training dataset and does not gather it again: when [set_data]
    returns, the parent's [set_data] has run on the filtered training
    dataset, while [train_group_data], [train_group_indices] and
    [train_groups] still describe the dataset before the filter.  With
    fitting on matched groups only and a training row whose group is not in
    the testing data, the group column kept has more entries than the
    training dataset has rows, and [train_groups] names a group that the
    training dataset no longer has. *)
Theorem set_data_keeps_unfiltered_group_info
    (self self' : SingleFitGrouped.t)
    (Hgli : forall labels, indexes labels (get_logo_indices labels))
    (Hrun : SingleFitGrouped.set_data SingleFit_set_data get_logo_indices self
            = Ok self') :
  let train := SingleFitGrouped.training_dataset (SingleFitGrouped.base self) in
  let test := SingleFitGrouped.testing_dataset (SingleFitGrouped.base self) in
  let kept :=
    if decide (SingleFitGrouped.fit_only_on_matched_groups self = 1%Z)
    then filter (fun r => DataParser.group r ∈ DataParser.get_group_data test)
           train
    else train in
  exists b,
    SingleFit_set_data
      (SingleFitGrouped.set_training_dataset (SingleFitGrouped.base self) kept)
    = Ok b /\
    SingleFitGrouped.base self' = b /\
    SingleFitGrouped.train_group_data self'
    = Some (DataParser.get_group_data train) /\
    SingleFitGrouped.train_group_indices self'
    = Some (get_logo_indices (DataParser.get_group_data train)) /\
    SingleFitGrouped.test_group_data self'
    = Some (DataParser.get_group_data test) /\
    (SingleFitGrouped.fit_only_on_matched_groups self = 1%Z ->
     forall r, r ∈ train ->
       DataParser.group r ∉ DataParser.get_group_data test ->
       length kept < length (DataParser.get_group_data train) /\
       exists groups,
         SingleFitGrouped.train_groups self' = Some groups /\
         DataParser.group r ∈ groups /\
         DataParser.group r ∉ DataParser.get_group_data kept).
Proof.
  intros train test kept.
  pose proof (Hgli (DataParser.get_group_data train)) as Hfit.
  pose proof (Hgli (DataParser.get_group_data test)) as Htest.
  revert Hrun. unfold SingleFitGrouped.set_data.
  assert (Hf : SingleFitGrouped.filter_training_dataset
                 (SingleFitGrouped.set_group_info get_logo_indices self)
               = Ok (SingleFitGrouped.set_base
                       (SingleFitGrouped.set_group_info get_logo_indices self)
                       (SingleFitGrouped.set_training_dataset
                          (SingleFitGrouped.base self) kept))).
  { unfold SingleFitGrouped.filter_training_dataset, kept.
    cbn [SingleFitGrouped.fit_only_on_matched_groups
         SingleFitGrouped.set_group_info SingleFitGrouped.train_groups
         SingleFitGrouped.test_groups SingleFitGrouped.base].
    case_decide as Hone.
    - cbn [Py.not_none rbind]. fold train test.
      rewrite exclusive_filters_matched.
      + do 3 f_equal. apply filter_ext_elem. intros r Hr.
        by rewrite (indexes_keys _ _ _ Htest).
      + intros r Hr. apply (indexes_keys _ _ _ Hfit).
        unfold DataParser.get_group_data. apply list_elem_of_fmap. by exists r.
    - destruct self as [[]]; reflexivity. }
  rewrite Hf. cbn [rbind SingleFitGrouped.base SingleFitGrouped.set_base].
  destruct (SingleFit_set_data _) as [b|] eqn:Hb; [|discriminate].
  cbn [rbind SingleFitGrouped.base SingleFitGrouped.set_base].
  destruct (SingleFitGrouped.testing_target_data b); [|discriminate].
  intros [= <-]. exists b. split_and!; try done.
  intros Hone r Hr Hg. unfold kept. rewrite decide_True by done. split.
  - change (length (DataParser.get_group_data train))
      with (length (map DataParser.group train)). rewrite length_map.
    by apply (length_filter_lt _ train r).
  - eexists. split; [reflexivity|]. split.
    + apply (indexes_keys _ _ _ Hfit).
      unfold DataParser.get_group_data. apply list_elem_of_fmap. by exists r.
    + unfold DataParser.get_group_data.
      intros (r' & Hgr & [Hk _]%list_elem_of_filter)%list_elem_of_fmap.
      apply Hg. by rewrite Hgr.
Qed.

End set_data.

Lemma set_data_keeps_unfiltered_group_info_witness :
  (forall labels, indexes labels (Gttd.get_logo_indices labels)) /\
  exists self',
    SingleFitGrouped.set_data Scenario.parent_set_data Gttd.get_logo_indices
      Scenario.matched_only = Ok self' /\
    SingleFitGrouped.train_group_data self' = Some ["X"; "Y"] /\
    length (SingleFitGrouped.training_dataset (SingleFitGrouped.base self')) = 1.
Proof.
  split; [exact get_logo_indices_indexes|].
  destruct (SingleFitGrouped.set_data Scenario.parent_set_data
              Gttd.get_logo_indices Scenario.matched_only)
    as [self'|e] eqn:Hrun; [|vm_compute in Hrun; discriminate].
  destruct (set_data_keeps_unfiltered_group_info Scenario.parent_set_data
              Gttd.get_logo_indices Scenario.matched_only self'
              get_logo_indices_indexes Hrun)
    as (b & Hb & Hbase & Hdata & _).
  exists self'. split; [reflexivity|]. split; [exact Hdata|].
  rewrite Hbase. vm_compute in Hb. injection Hb as <-. reflexivity.
Defined.

(** ** Strings *)

Lemma split_nonempty sep s : Py.split sep s <> [].
Proof.
  destruct s as [|c s]; simpl; [done|].
  case_decide; [done|]. by destruct (Py.split sep s).
Qed.

Lemma length_split sep s : length (Py.split sep s) = S (occurrences sep s).
Proof.
  induction s as [|c s IH]; simpl; [done|].
  case_decide; simpl; [by rewrite IH|].
  destruct (Py.split sep s); simpl in *; done.
Qed.

Lemma split_without sep s : occurrences sep s = 0 -> Py.split sep s = [s].
Proof.
  induction s as [|c s IH]; simpl; [done|].
  case_decide; [done|]. simpl. intros Hz. by rewrite IH.
Qed.

Lemma split_app sep a b :
  occurrences sep a = 0 ->
  Py.split sep (a +:+ String sep b) = a :: Py.split sep b.
Proof.
  induction a as [|c a IH]; simpl.
  - intros _. by rewrite decide_True.
  - case_decide; [done|]. simpl. intros Hz. by rewrite IH.
Qed.

Lemma occurrences_app c a b :
  occurrences c (a +:+ b) = occurrences c a + occurrences c b.
Proof. induction a as [|c' a IH]; simpl; [done|]. rewrite IH. lia. Qed.

Lemma split_concat sep pieces :
  pieces <> [] ->
  Forall (fun piece => occurrences sep piece = 0) pieces ->
  Py.split sep (String.concat (String sep EmptyString) pieces) = pieces.
Proof.
  intros Hne Hall. induction Hall as [|p pieces Hp Hall IH]; [done|].
  destruct pieces as [|q pieces].
  - simpl. by apply split_without.
  - change (String.concat (String sep "") (p :: q :: pieces))
      with (p +:+ String sep (String.concat (String sep "") (q :: pieces))).
    rewrite split_app by done. by rewrite IH.
Qed.

Lemma split_trailing sep s :
  exists pieces,
    Py.split sep (s +:+ String sep EmptyString) = pieces ++ [EmptyString] /\
    pieces <> [].
Proof.
  induction s as [|c s (pieces & IH & Hne)]; simpl.
  - rewrite decide_True by done. by exists [EmptyString].
  - rewrite IH. case_decide.
    + by exists (EmptyString :: pieces).
    + destruct pieces as [|p pieces]; [done|].
      by exists (String c p :: pieces).
Qed.

Lemma occurrences_length c s : occurrences c s <= String.length s.
Proof. induction s as [|c' s IH]; simpl; [done|]. case_decide; lia. Qed.

(** ** The plot filters of [ExtrapolateFullFit.execute] *)

Lemma for_each_outcome {S A} (P : A -> Prop) `{!forall a, Decision (P a)}
    (e : exn)
    (body : S -> A -> result S) (l : list A) (s : S) :
  (forall s a, a ∈ l ->
     (P a -> exists s', body s a = Ok s') /\ (~ P a -> body s a = Raise e)) ->
  (Forall P l -> exists s', for_each l body s = Ok s') /\
  (~ Forall P l -> for_each l body s = Raise e).
Proof.
  revert s. induction l as [|a l IH]; intros s Hbody.
  - split; [by exists s|]. intros Hn. by destruct Hn.
  - destruct (Hbody s a ltac:(left)) as [Hok Hraise]. cbn [for_each]. split.
    + intros [Ha Hl]%Forall_cons. destruct (Hok Ha) as [s' ->]. cbn [rbind].
      apply IH; [|done]. intros s0 a0 Ha0. apply Hbody. by right.
    + intros Hnot. destruct (decide (P a)) as [Ha|Ha].
      * destruct (Hok Ha) as [s' ->]. cbn [rbind].
        apply IH; [intros s0 a0 Ha0; apply Hbody; by right|].
        intros Hl. apply Hnot. by constructor.
      * by rewrite (Hraise Ha).
Qed.

Lemma for_each_map_foldl {S A B} (f : A -> B) (g : S -> A -> S)
    (body : S -> B -> result S) (l : list A) (s : S) :
  (forall s a, a ∈ l -> body s (f a) = Ok (g s a)) ->
  for_each (map f l) body s = Ok (foldl g s l).
Proof.
  revert s. induction l as [|a l IH]; intros s Hbody; [done|].
  cbn [map for_each foldl]. rewrite Hbody by left. cbn [rbind].
  apply IH. intros s' a' Ha'. apply Hbody. by right.
Qed.

Section plot_filters.
Variable float : string -> option R.
Variable data_add_exclusive_filter
  : DataParser.dataset -> string -> string -> ExtrapolateFullFit.fval
    -> DataParser.dataset.

Let filter_triplet := ExtrapolateFullFit.filter_triplet float.
Let add_plot_filters :=
  ExtrapolateFullFit.add_plot_filters float data_add_exclusive_filter.

Lemma filter_triplet_outcome ftriplet :
  (2 <= occurrences "," ftriplet ->
   exists triplet, filter_triplet ftriplet = Ok triplet) /\
  (~ 2 <= occurrences "," ftriplet ->
   filter_triplet ftriplet = Raise IndexError).
Proof.
  unfold filter_triplet, ExtrapolateFullFit.filter_triplet.
  pose proof (length_split "," ftriplet) as Hlen.
  destruct (Py.split "," ftriplet) as [|p0 [|p1 [|p2 ps]]];
    cbn [length] in Hlen; split; intros Hc; try lia.
  - reflexivity.
  - reflexivity.
  - eexists. reflexivity.
Qed.

(** X14: a filter text in the documented format is read back as its
    triplets: for triplets whose parts hold no comma and no semicolon, the
    text that joins the parts with commas and the triplets with semicolons
    makes [add_plot_filters] add, in order, one filter per triplet, with
    the field, the operator and the value stripped of surrounding
    whitespace, the value as a number when [float] reads it as one.  The
    empty text adds no filter. *)
Theorem add_plot_filters_reads_triplets
    (triplets : list (string * string * string))
    (test_data : DataParser.dataset)
    (Hplain : Forall (fun t => plain t.1.1 /\ plain t.1.2 /\ plain t.2)
                triplets) :
  add_plot_filters (render_filters triplets) test_data
  = Ok (foldl
          (fun d t =>
             data_add_exclusive_filter d (Py.strip t.1.1) (Py.strip t.1.2)
               match float (Py.strip t.2) with
               | Some x => ExtrapolateFullFit.FFloat x
               | None => ExtrapolateFullFit.FStr (Py.strip t.2)
               end)
          test_data triplets).
Proof.
  unfold add_plot_filters, ExtrapolateFullFit.add_plot_filters.
  destruct triplets as [|t0 triplets]; [done|].
  set (ts := t0 :: triplets) in *.
  assert (Hlen : 0 < String.length (render_filters ts)).
  { pose proof (occurrences_length "," (render_filters ts)) as Hocc.
    enough (2 <= occurrences "," (render_filters ts)) by lia.
    unfold render_filters, ts. destruct t0 as [[a b] c].
    cbn [map]. unfold render_triplet at 1. cbn [fst snd String.concat].
    destruct (map render_triplet triplets);
      rewrite !occurrences_app; simpl; lia. }
  rewrite decide_True by done.
  unfold render_filters. rewrite split_concat.
  - apply for_each_map_foldl. intros d [[a b] c] Ht.
    apply (proj1 (Forall_forall _ _) Hplain) in Ht as ([Ha _] & [Hb _] & [Hc _]).
    unfold ExtrapolateFullFit.filter_triplet, render_triplet.
    cbn [fst snd] in *.
    rewrite (split_concat "," [a; b; c]) by (by repeat constructor).
    reflexivity.
  - unfold ts. done.
  - apply Forall_fmap. eapply Forall_impl; [exact Hplain|].
    intros [[a b] c] ([_ Ha] & [_ Hb] & [_ Hc]). cbn [fst snd] in *.
    unfold render_triplet. cbn [fst snd String.concat compose].
    rewrite !occurrences_app. simpl. lia.
Qed.

(** X15: on a text that is not empty, [add_plot_filters] returns if and
    only if every piece between semicolons holds at least two commas;
    otherwise it raises [IndexError].  So it does on every text that ends
    with a semicolon, whose last piece is empty. *)
Theorem add_plot_filters_raises_iff (plot_filter_out : string)
    (test_data : DataParser.dataset)
    (Hne : plot_filter_out <> EmptyString) :
  let well_formed :=
    Forall (fun ftriplet => 2 <= occurrences "," ftriplet)
      (Py.split ";" plot_filter_out) in
  ((exists filtered, add_plot_filters plot_filter_out test_data = Ok filtered)
   <-> well_formed) /\
  (~ well_formed ->
   add_plot_filters plot_filter_out test_data = Raise IndexError) /\
  forall s, add_plot_filters (s +:+ ";") test_data = Raise IndexError.
Proof.
  intros well_formed.
  assert (Hrun : forall pfo, pfo <> EmptyString ->
            (Forall (fun ftriplet => 2 <= occurrences "," ftriplet)
               (Py.split ";" pfo) ->
             exists filtered, add_plot_filters pfo test_data = Ok filtered) /\
            (~ Forall (fun ftriplet => 2 <= occurrences "," ftriplet)
                 (Py.split ";" pfo) ->
             add_plot_filters pfo test_data = Raise IndexError)).
  { intros pfo Hpfo.
    unfold add_plot_filters, ExtrapolateFullFit.add_plot_filters.
    rewrite decide_True by (destruct pfo; [done|simpl; lia]).
    apply (for_each_outcome (fun ftriplet => 2 <= occurrences "," ftriplet)
             IndexError).
    intros d ftriplet _.
    destruct (filter_triplet_outcome ftriplet) as [Hok Hraise]. split.
    - intros Hc. destruct (Hok Hc) as [[[ffield foperator] fval] Ht].
      unfold filter_triplet in Ht. rewrite Ht. cbn [rbind]. by eexists.
    - intros Hc. unfold filter_triplet in Hraise. by rewrite (Hraise Hc). }
  destruct (Hrun plot_filter_out Hne) as [Hok Hraise]. split_and!.
  - split; [|exact Hok]. intros [filtered Hf].
    destruct (decide well_formed) as [|Hnot]; [done|].
    rewrite (Hraise Hnot) in Hf. discriminate.
  - exact Hraise.
  - intros s. assert (Hs : s +:+ ";" <> EmptyString) by (by destruct s).
    destruct (Hrun _ Hs) as [_ Hr]. apply Hr.
    destruct (split_trailing ";" s) as (pieces & -> & _).
    rewrite Forall_app, Forall_singleton. simpl. lia.
Qed.

(** X16: with fitting on matched groups only and a grouping field, the
    training rows that [execute] keeps are the rows whose group is found in
    the test data after the plot filters were added to it: a plot filter
    that removes every test row of a group removes that group from the
    fit. *)
Theorem full_fit_inputs_match_filtered_test
    (data test_data filtered : DataParser.dataset) (x_features : list string)
    (plot_filter_out numeric_field_name group_field_name : string)
    (Hfiltered : ExtrapolateFullFit.add_plot_filters float
                   data_add_exclusive_filter plot_filter_out test_data
                 = Ok filtered) :
  let kept :=
    filter (fun r => DataParser.group r ∈ DataParser.get_group_data filtered)
      data in
  ExtrapolateFullFit.full_fit_inputs float data_add_exclusive_filter
    data x_features (Some test_data) plot_filter_out
    (Some numeric_field_name) (Some group_field_name) 1
  = Ok (kept, filtered, numeric_field_name,
        (DataParser.get_x_data kept, DataParser.get_y_data kept)).
Proof.
  intros kept. unfold ExtrapolateFullFit.full_fit_inputs.
  rewrite Hfiltered. cbn [rbind].
  unfold ExtrapolateFullFit.train_arrays. rewrite decide_True by done.
  rewrite exclusive_filters_matched; [done|].
  intros r Hr. unfold DataParser.get_group_data.
  apply list_elem_of_fmap. by exists r.
Qed.

End plot_filters.

Lemma add_plot_filters_reads_triplets_witness :
  ExtrapolateFullFit.add_plot_filters Scenario.no_float
    Scenario.add_group_filter "group , = , Y;group,=,Z" Scenario.evaluation
  = Ok [].
Proof.
  assert (Hplain : Forall (fun t => plain t.1.1 /\ plain t.1.2 /\ plain t.2)
                     [("group ", " = ", " Y"); ("group", "=", "Z")])
    by (repeat constructor).
  exact (add_plot_filters_reads_triplets Scenario.no_float
           Scenario.add_group_filter
           [("group ", " = ", " Y"); ("group", "=", "Z")]
           Scenario.evaluation Hplain).
Defined.

Lemma add_plot_filters_raises_iff_witness :
  ExtrapolateFullFit.add_plot_filters Scenario.no_float
    Scenario.add_group_filter "group,=,Y;" Scenario.evaluation
  = Raise IndexError.
Proof.
  assert (Hne : "group,=,Y;" <> EmptyString) by discriminate.
  destruct (add_plot_filters_raises_iff Scenario.no_float
              Scenario.add_group_filter "group,=,Y;" Scenario.evaluation Hne)
    as (_ & _ & Htrailing).
  exact (Htrailing "group,=,Y").
Defined.

Lemma full_fit_inputs_match_filtered_test_witness :
  ExtrapolateFullFit.full_fit_inputs Scenario.no_float
    Scenario.add_group_filter Scenario.train ["x"]
    (Some Scenario.evaluation) "group,=,Y" (Some "x") (Some "group") 1
  = Ok ([], [DataParser.Row [6%R] 4%R "Z" 0%R], "x", ([], [])) /\
  ExtrapolateFullFit.full_fit_inputs Scenario.no_float
    Scenario.add_group_filter Scenario.train ["x"]
    (Some Scenario.evaluation) "" (Some "x") (Some "group") 1
  = Ok ([DataParser.Row [2%R] 2%R "Y" 0%R], Scenario.evaluation, "x",
        ([[2%R]], [2%R])).
Proof.
  split.
  - rewrite (full_fit_inputs_match_filtered_test Scenario.no_float
               Scenario.add_group_filter Scenario.train Scenario.evaluation
               [DataParser.Row [6%R] 4%R "Z" 0%R] ["x"] "group,=,Y" "x" "group").
    + vm_compute. reflexivity.
    + vm_compute. reflexivity.
  - rewrite (full_fit_inputs_match_filtered_test Scenario.no_float
               Scenario.add_group_filter Scenario.train Scenario.evaluation
               Scenario.evaluation ["x"] "" "x" "group").
    + vm_compute. reflexivity.
    + reflexivity.
Defined.

(** ** The plots against the numeric field *)

Lemma take_omap {A} (arr : list A) index l :
  Np.take arr index = Ok l -> l = omap (fun i => arr !! i) index.
Proof.
  revert l. induction index as [|i index IH]; intros l; simpl.
  - by intros [= <-].
  - unfold Np.item. destruct (arr !! i) as [a|]; [|discriminate].
    cbn [rbind]. destruct (Np.take arr index) as [rest|]; [|discriminate].
    cbn [rbind]. intros [= <-]. by rewrite (IH rest).
Qed.

Lemma omap_lookup_filter_seq {A} (P : A -> Prop) (Q : nat -> Prop)
    `{!forall a, Decision (P a)} `{!forall i, Decision (Q i)}
    (pre arr : list A) :
  (forall i a, (pre ++ arr) !! i = Some a -> length pre <= i -> (Q i <-> P a)) ->
  omap (fun i => (pre ++ arr) !! i) (filter Q (seq (length pre) (length arr)))
  = filter P arr.
Proof.
  revert pre. induction arr as [|a arr IH]; intros pre HQ; [done|].
  cbn [length seq].
  assert (Ha : (pre ++ a :: arr) !! length pre = Some a)
    by (by rewrite lookup_app_r, Nat.sub_diag by lia).
  specialize (IH (pre ++ [a])).
  rewrite <- (assoc_L (++)), length_app in IH. cbn [length app] in IH.
  rewrite Nat.add_1_r in IH.
  assert (Hrest : omap (fun i => (pre ++ a :: arr) !! i)
                    (filter Q (seq (S (length pre)) (length arr)))
                  = filter P arr).
  { apply IH. intros i a' Hi Hle. apply HQ; [done|lia]. }
  rewrite !filter_cons. destruct (decide (P a)) as [HP|HP].
  - rewrite decide_True by (by apply (HQ _ a)).
    cbn [omap list_omap]. rewrite Ha. by f_equal.
  - rewrite decide_False; [done|]. intros Hq. by apply HP, (HQ (length pre)).
Qed.

(** The rows taken at the indices of a group are the rows of the group, in
    some order. *)
Lemma take_rows_Permutation {A} (P : A -> Prop) `{!forall a, Decision (P a)}
    (arr : list A) index l :
  NoDup index ->
  (forall i, i ∈ index <-> exists a, arr !! i = Some a /\ P a) ->
  Np.take arr index = Ok l ->
  l ≡ₚ filter P arr.
Proof.
  intros Hnd Hin Htake. rewrite (take_omap _ _ _ Htake).
  rewrite <- (omap_lookup_filter_seq P (fun i => i ∈ index) [] arr).
  - cbn [app length]. apply omap_Permutation.
    apply NoDup_Permutation; [done|apply NoDup_filter, NoDup_seq|].
    intros i. rewrite list_elem_of_filter, elem_of_seq. split; [|tauto].
    intros Hi. split; [done|].
    apply Hin in Hi as (a & Ha & _). apply lookup_lt_Some in Ha. lia.
  - intros i a Hi _. cbn [app] in Hi. rewrite Hin. split; [|by eauto].
    intros (a' & Ha' & HP). congruence.
Qed.

Lemma indexes_nil : indexes [] [].
Proof.
  split_and!; [constructor|by intros g ?%elem_of_nil|by intros g idx ?%elem_of_nil].
Qed.

Lemma group_rows_no_key im g : g ∉ Py.keys im -> group_rows im g = [].
Proof.
  intros Hg. unfold group_rows.
  destruct (Py.getitem im g) as [idx|] eqn:E; [|done].
  exfalso. apply Hg. apply getitem_elem_of in E.
  apply list_elem_of_fmap. by exists (g, idx).
Qed.

(** The rows of a group in an array, and the label read from the first. *)
Lemma group_index_returns (arr : list ExtrapolateFullFit.fit_row)
    (indices : index_map) (label : option string) (group : string) :
  indexes (map ExtrapolateFullFit.groupdata arr) indices ->
  exists rows,
    Np.take arr (group_rows indices group) = Ok rows /\
    rows ≡ₚ filter (fun r => ExtrapolateFullFit.groupdata r = group) arr /\
    (group ∈ Py.keys indices -> rows <> []) /\
    ExtrapolateFullFit.group_index (Py.keys indices) indices
      (map ExtrapolateFullFit.labeldata arr) label group
    = Ok (group_rows indices group,
          match head rows with
          | Some r => Some (ExtrapolateFullFit.labeldata r)
          | None => label
          end).
Proof.
  intros Hidx. unfold ExtrapolateFullFit.group_index.
  destruct (decide (group ∈ Py.keys indices)) as [Hg|Hg].
  - rewrite bool_decide_eq_true_2 by done.
    destruct (indexes_rows_in_range _ indices group Hidx Hg) as [Hne Hr].
    rewrite length_map in Hr.
    destruct (take_in_range arr _ Hr) as (rows & Hrows & Hlen).
    exists rows. split; [done|]. split_and!.
    + apply (take_rows_Permutation _ arr (group_rows indices group));
        [| |done].
      * destruct (getitem_key indices group Hg) as [idx Hi].
        unfold group_rows. rewrite Hi. apply getitem_elem_of in Hi.
        destruct Hidx as (_ & _ & Hrows'). by apply (Hrows' group idx).
      * intros i. rewrite (indexes_key_rows _ _ _ _ Hidx Hg).
        rewrite list_lookup_fmap. destruct (arr !! i) as [r|]; simpl.
        -- split; [intros [= <-]; eauto|]. by intros (a & [= <-] & ->).
        -- split; [discriminate|]. by intros (a & [=] & _).
    + intros _ ->. destruct (group_rows indices group); [done|discriminate].
    + destruct (getitem_key indices group Hg) as [idx Hi].
      assert (group_rows indices group = idx) as Hgr
        by (unfold group_rows; by rewrite Hi).
      rewrite Hgr in *. rewrite Hi. cbn [rbind].
      destruct idx as [|i0 idx]; [done|].
      cbn [Py.list_getitem lookup list_lookup rbind].
      simpl in Hrows. unfold Np.item in *.
      rewrite list_lookup_fmap.
      destruct (arr !! i0) as [r0|]; [|discriminate].
      cbn [rbind] in Hrows.
      destruct (Np.take arr idx) as [rest|]; [|discriminate].
      injection Hrows as <-. done.
  - rewrite bool_decide_eq_false_2 by done.
    rewrite (group_rows_no_key indices group Hg).
    exists []. split_and!; [done| |done|done].
    destruct (filter _ arr) as [|r rest] eqn:E; [done|]. exfalso.
    assert (Hr : r ∈ filter (fun r => ExtrapolateFullFit.groupdata r = group) arr)
      by (rewrite E; left).
    apply list_elem_of_filter in Hr as [Hgr Hr]. apply Hg.
    apply (indexes_keys _ _ _ Hidx). rewrite <- Hgr.
    apply list_elem_of_fmap. by exists r.
Qed.

Section plots.
Context {FS : Type}.
Variable isdir : FS -> string -> bool.
Variable mkdir : FS -> string -> FS.
Variable multiple_overlay : FS -> ExtrapolateFullFit.kwargs_p -> FS.
Variable get_logo_indices : list string -> index_map.

Let do_single_train_test_std_plot :=
  ExtrapolateFullFit.do_single_train_test_std_plot isdir mkdir multiple_overlay.
Let group_plots :=
  ExtrapolateFullFit.group_plots isdir mkdir multiple_overlay.
Let do_numeric_plots :=
  ExtrapolateFullFit.do_numeric_plots isdir mkdir multiple_overlay
    get_logo_indices.

(** X17: [do_single_train_test_std_plot] makes one call of
    [plotxy.multiple_overlay], after creating the folder of the plot label
    unless it exists; the data, error and label lists passed have one entry
    for each series given (the training series when [train_x] is given, the
    test series when [test_y] is, the standard series when [std_x] is), the
    error lists holding [None] only; the texts of line styles and of
    markers have as many comma-separated entries as there are series when
    the standard series is given and one more, an empty last entry,
    otherwise; the texts of sizes and of faces always have three. *)
Theorem do_single_train_test_std_plot_call
    (train_x train_y test_x test_y std_x std_y : option (list R))
    (xlabel ylabel savepath plotlabel : string)
    (w : FS * list ExtrapolateFullFit.kwargs_p) :
  let series := given train_x + given test_y + given std_x in
  let path := Os.path_join savepath plotlabel in
  exists kwargs,
    do_single_train_test_std_plot train_x train_y test_x test_y std_x std_y
      xlabel ylabel savepath plotlabel w
    = (multiple_overlay (if isdir w.1 path then w.1 else mkdir w.1 path) kwargs,
       w.2 ++ [kwargs]) /\
    ExtrapolateFullFit.kw_savepath kwargs = path /\
    length (ExtrapolateFullFit.kw_xdatalist kwargs) = series /\
    length (ExtrapolateFullFit.kw_ydatalist kwargs) = series /\
    length (ExtrapolateFullFit.kw_labellist kwargs) = series /\
    ExtrapolateFullFit.kw_xerrlist kwargs = replicate series None /\
    ExtrapolateFullFit.kw_yerrlist kwargs = replicate series None /\
    length (Py.split "," (ExtrapolateFullFit.kw_linestyles kwargs))
    = series + (1 - given std_x) /\
    length (Py.split "," (ExtrapolateFullFit.kw_markers kwargs))
    = series + (1 - given std_x) /\
    length (Py.split "," (ExtrapolateFullFit.kw_sizes kwargs)) = 3 /\
    length (Py.split "," (ExtrapolateFullFit.kw_faces kwargs)) = 3.
Proof.
  intros series path. eexists. split; [reflexivity|].
  subst series. destruct train_x, test_y, std_x; by vm_compute.
Qed.

Lemma group_arrays_returns test_array std_array ti si label group :
  indexes (map ExtrapolateFullFit.groupdata test_array) ti ->
  indexes (map ExtrapolateFullFit.groupdata (default [] std_array)) si ->
  exists test_rows std_rows,
    Np.take test_array (group_rows ti group) = Ok test_rows /\
    Np.take (default [] std_array) (group_rows si group) = Ok std_rows /\
    test_rows
    ≡ₚ filter (fun r => ExtrapolateFullFit.groupdata r = group) test_array /\
    std_rows
    ≡ₚ filter (fun r => ExtrapolateFullFit.groupdata r = group)
         (default [] std_array) /\
    (group ∈ Py.keys ti -> test_rows <> []) /\
    (group ∈ Py.keys si -> std_rows <> []) /\
    ExtrapolateFullFit.group_arrays test_array std_array ti si label group
    = Ok (map ExtrapolateFullFit.numericdata test_rows,
          map ExtrapolateFullFit.measured test_rows,
          map ExtrapolateFullFit.predicted_y test_rows,
          match std_array with
          | Some _ => Some (map ExtrapolateFullFit.numericdata std_rows)
          | None => None
          end,
          match std_array with
          | Some _ => Some (map ExtrapolateFullFit.predicted_y std_rows)
          | None => None
          end,
          match head (std_rows ++ test_rows) with
          | Some r => Some (ExtrapolateFullFit.labeldata r)
          | None => label
          end).
Proof.
  intros Hti Hsi.
  destruct (group_index_returns test_array ti label group Hti)
    as (test_rows & Htake & Hperm & Hne & Hgi).
  set (label1 := match head test_rows with
                 | Some r => Some (ExtrapolateFullFit.labeldata r)
                 | None => label
                 end) in *.
  destruct (group_index_returns (default [] std_array) si label1 group Hsi)
    as (std_rows & Htake' & Hperm' & Hne' & Hgi').
  exists test_rows, std_rows. split_and!; try done.
  unfold ExtrapolateFullFit.group_arrays. rewrite Hgi. cbn [rbind].
  rewrite Hgi'. cbn [rbind].
  rewrite !(take_map _ _ _ _ Htake). cbn [rbind].
  assert (Hlabel : match head std_rows with
                   | Some r => Some (ExtrapolateFullFit.labeldata r)
                   | None => label1
                   end
                   = match head (std_rows ++ test_rows) with
                     | Some r => Some (ExtrapolateFullFit.labeldata r)
                     | None => label
                     end).
  { unfold label1. by destruct std_rows. }
  rewrite Hlabel. destruct std_array as [std|]; [|done].
  cbn [default] in Htake'. by rewrite !(take_map _ _ _ _ Htake').
Qed.

Lemma group_plots_run test_array std_array ti si xlabel ylabel savepath
    groups label w :
  indexes (map ExtrapolateFullFit.groupdata test_array) ti ->
  indexes (map ExtrapolateFullFit.groupdata (default [] std_array)) si ->
  (forall g, g ∈ groups -> g ∈ Py.keys ti \/ g ∈ Py.keys si) ->
  exists w' plots,
    group_plots test_array std_array ti si xlabel ylabel savepath groups
      label w = (w', None) /\
    w'.2 = w.2 ++ plots /\
    Forall2 (group_plot_spec test_array std_array ti si) groups plots.
Proof.
  intros Hti Hsi. revert label w.
  induction groups as [|g groups IH]; intros label w Hin.
  - exists w, []. split_and!; [done|by rewrite app_nil_r|constructor].
  - destruct (group_arrays_returns test_array std_array ti si label g Hti Hsi)
      as (test_rows & std_rows & Ht & Hs & Hpt & Hps & Hnt & Hns & Hga).
    assert (exists first, head (std_rows ++ test_rows) = Some first)
      as [first Hfirst].
    { destruct (Hin g ltac:(left)) as [Hg|Hg].
      - specialize (Hnt Hg). destruct std_rows; [|by eexists].
        destruct test_rows; [done|by eexists].
      - specialize (Hns Hg). destruct std_rows; [done|by eexists]. }
    unfold group_plots. cbn [ExtrapolateFullFit.group_plots].
    rewrite Hga, Hfirst. fold group_plots.
    match goal with
    | |- context [group_plots _ _ _ _ _ _ _ groups ?l ?w1] =>
        destruct (IH l w1) as (w' & plots & Hrun & Hcalls & Hspec)
    end.
    { intros g' Hg'. apply Hin. by right. }
    rewrite Hrun.
    eexists w', (_ :: plots). split; [reflexivity|]. split.
    + rewrite Hcalls. cbn [snd ExtrapolateFullFit.do_single_train_test_std_plot].
      rewrite <- (assoc_L (++)). reflexivity.
    + constructor; [|done].
      exists test_rows, std_rows, first. split_and!; [done..| | |];
        by destruct std_array.
Qed.

(** X18: with a grouping field and an indexer that returns the index map
    of the label column, [do_numeric_plots] raises nothing, the local
    variable [label] being assigned before each use; it makes the plot of
    all data and then one plot for each distinct group of the test array
    and of the standard array, each group once; the plot of a group holds
    the measured and the predicted values of the rows of the group in the
    test array (no point when the group is in the standard array only) and,
    with a standard array, the predictions of its rows there; its label is
    the label of the first row of the group taken from the standard array
    or, failing that, from the test array. *)
Theorem do_numeric_plots_grouped
    (test_array : list ExtrapolateFullFit.fit_row)
    (std_array : option (list ExtrapolateFullFit.fit_row))
    (xlabel ylabel savepath group_field_name : string)
    (w : FS * list ExtrapolateFullFit.kwargs_p)
    (Hgli : forall labels, indexes labels (get_logo_indices labels)) :
  let test_indices :=
    get_logo_indices (map ExtrapolateFullFit.groupdata test_array) in
  let std_indices :=
    match std_array with
    | None => []
    | Some std_array =>
        get_logo_indices (map ExtrapolateFullFit.groupdata std_array)
    end in
  let all_groups :=
    match std_array with
    | None => Py.keys test_indices
    | Some _ => Np.union1d (Py.keys test_indices) (Py.keys std_indices)
    end in
  exists w' alldata plots,
    do_numeric_plots test_array std_array xlabel ylabel savepath
      (Some group_field_name) w = (w', None) /\
    w'.2 = w.2 ++ alldata :: plots /\
    ExtrapolateFullFit.kw_plotlabel alldata = "alldata" /\
    length plots = length all_groups /\
    (forall g, g ∈ all_groups <->
       g ∈ map ExtrapolateFullFit.groupdata test_array \/
       g ∈ map ExtrapolateFullFit.groupdata (default [] std_array)) /\
    NoDup all_groups /\
    Forall2 (group_plot_spec test_array std_array test_indices std_indices)
      all_groups plots.
Proof.
  intros ti si all_groups.
  assert (Hti : indexes (map ExtrapolateFullFit.groupdata test_array) ti)
    by apply Hgli.
  assert (Hsi : indexes
                  (map ExtrapolateFullFit.groupdata (default [] std_array)) si).
  { unfold si. destruct std_array; [apply Hgli|apply indexes_nil]. }
  assert (Hall : forall g, g ∈ all_groups <-> g ∈ Py.keys ti \/ g ∈ Py.keys si).
  { intros g. unfold all_groups. destruct std_array as [std|].
    - unfold Np.union1d. by rewrite elem_of_unique, elem_of_app.
    - unfold si. cbn [Py.keys fmap list_fmap]. rewrite elem_of_nil. tauto. }
  unfold do_numeric_plots, ExtrapolateFullFit.do_numeric_plots.
  fold ti si all_groups.
  match goal with
  | |- context [ExtrapolateFullFit.group_plots _ _ _ _ _ _ _ _ _ _ _ _ ?w1] =>
      destruct (group_plots_run test_array std_array ti si xlabel ylabel
                  savepath all_groups None w1 Hti Hsi)
        as (w' & plots & Hrun & Hcalls & Hspec)
  end.
  { intros g. apply Hall. }
  unfold group_plots in Hrun. rewrite Hrun.
  eexists w', _, plots. split; [reflexivity|]. split_and!.
  - rewrite Hcalls. cbn [snd ExtrapolateFullFit.do_single_train_test_std_plot].
    rewrite <- (assoc_L (++)). reflexivity.
  - by destruct std_array.
  - symmetry. by eapply Forall2_length.
  - intros g. rewrite Hall.
    by rewrite (indexes_keys _ _ g Hti), (indexes_keys _ _ g Hsi).
  - unfold all_groups. destruct std_array.
    + apply NoDup_unique.
    + by destruct Hti as (? & _).
  - exact Hspec.
Qed.

End plots.

Lemma do_numeric_plots_grouped_witness :
  (forall labels, indexes labels (Gttd.get_logo_indices labels)) /\
  exists w' alldata plots,
    ExtrapolateFullFit.do_numeric_plots Scenario.isdir Scenario.mkdir
      Scenario.multiple_overlay Gttd.get_logo_indices Scenario.test_array
      None "X" "Prediction" "out" (Some "group") (tt, [])
    = (w', None) /\
    w'.2 = alldata :: plots /\
    length plots = 2.
Proof.
  split; [exact get_logo_indices_indexes|].
  destruct (do_numeric_plots_grouped Scenario.isdir Scenario.mkdir
              Scenario.multiple_overlay Gttd.get_logo_indices
              Scenario.test_array None "X" "Prediction" "out" "group"
              (tt, []) get_logo_indices_indexes)
    as (w' & alldata & plots & Hrun & Hcalls & _ & Hlen & _).
  exists w', alldata, plots.
  split; [exact Hrun|]. split; [exact Hcalls|exact Hlen].
Defined.

(** ** Two ways of keeping the matched training rows *)

(** X19: fitting on matched groups only selects the same training rows in
    [ExtrapolateFull.execute], which takes the rows at the indices of the
    matched groups, as in [ExtrapolateFullFit.execute], which filters the
    other groups out of the dataset: the rows taken are a rearrangement of
    the rows kept, which are the training rows of the matched groups in
    their original order. *)
Theorem matched_rows_agree_up_to_order
    (get_logo_indices : list string -> index_map)
    (Hgli : forall labels, indexes labels (get_logo_indices labels))
    (train test : DataParser.dataset) (group_field_name : string) :
  let fit_indices := get_logo_indices (DataParser.get_group_data train) in
  let test_indices := get_logo_indices (DataParser.get_group_data test) in
  let matched := Np.intersect1d (Py.keys fit_indices) (Py.keys test_indices) in
  let kept :=
    (ExtrapolateFullFit.train_arrays train test (Some group_field_name) 1).1 in
  exists fit_index rows,
    ExtrapolateFull.fit_index fit_indices matched = Ok fit_index /\
    Np.take train fit_index = Ok rows /\
    ExtrapolateFull.fit_data train fit_indices matched 1
    = Ok (DataParser.get_x_data rows, DataParser.get_y_data rows) /\
    ExtrapolateFullFit.train_arrays train test (Some group_field_name) 1
    = (kept, (DataParser.get_x_data kept, DataParser.get_y_data kept)) /\
    rows ≡ₚ kept /\
    kept = filter (fun r => DataParser.group r ∈ matched) train.
Proof.
  intros fit_indices test_indices matched kept.
  pose proof (Hgli (DataParser.get_group_data train)) as Hfit.
  pose proof (Hgli (DataParser.get_group_data test)) as Htest.
  fold fit_indices in Hfit. fold test_indices in Htest.
  destruct (fit_data_matched train fit_indices matched Hfit)
    as (fit_index & X & y & Hfi & Hfd & HX & Hy & Hnd & Hin).
  { apply NoDup_intersect1d. }
  { intros g Hg. unfold matched in Hg. by apply elem_of_intersect1d in Hg as [? _]. }
  destruct (take_in_range train fit_index) as (rows & Hrows & _).
  { apply Forall_forall. intros i (r & Hr & _)%Hin. by apply lookup_lt_Some in Hr. }
  assert (Hkept : kept = filter (fun r => DataParser.group r ∈ matched) train).
  { unfold kept, ExtrapolateFullFit.train_arrays.
    rewrite decide_True by done. cbn [fst].
    rewrite exclusive_filters_matched.
    - apply filter_ext_elem. intros r Hr. unfold matched.
      rewrite elem_of_intersect1d.
      rewrite (indexes_keys _ _ _ Hfit), (indexes_keys _ _ _ Htest).
      assert (DataParser.group r ∈ DataParser.get_group_data train).
      { unfold DataParser.get_group_data. apply list_elem_of_fmap. by exists r. }
      tauto.
    - intros r Hr. unfold DataParser.get_group_data.
      apply list_elem_of_fmap. by exists r. }
  exists fit_index, rows. split_and!; [done|done| | |  |done].
  - rewrite Hfd. f_equal.
    pose proof (take_map DataParser.features _ _ _ Hrows) as HX'.
    pose proof (take_map DataParser.target _ _ _ Hrows) as Hy'.
    unfold DataParser.get_x_data, DataParser.get_y_data in *.
    congruence.
  - unfold kept, ExtrapolateFullFit.train_arrays.
    by rewrite decide_True by done.
  - rewrite Hkept.
    by apply (take_rows_Permutation _ train fit_index).
Qed.

Lemma matched_rows_agree_up_to_order_witness :
  (forall labels, indexes labels (Gttd.get_logo_indices labels)) /\
  exists rows,
    Np.take [DataParser.Row [1%R] 1%R "B" 0%R; DataParser.Row [2%R] 2%R "A" 0%R]
      [1; 0] = Ok rows /\
    rows ≡ₚ (ExtrapolateFullFit.train_arrays
               [DataParser.Row [1%R] 1%R "B" 0%R; DataParser.Row [2%R] 2%R "A" 0%R]
               [DataParser.Row [3%R] 3%R "A" 0%R; DataParser.Row [4%R] 4%R "B" 0%R]
               (Some "group") 1).1.
Proof.
  split; [exact get_logo_indices_indexes|].
  destruct (matched_rows_agree_up_to_order Gttd.get_logo_indices
              get_logo_indices_indexes
              [DataParser.Row [1%R] 1%R "B" 0%R; DataParser.Row [2%R] 2%R "A" 0%R]
              [DataParser.Row [3%R] 3%R "A" 0%R; DataParser.Row [4%R] 4%R "B" 0%R]
              "group")
    as (fit_index & rows & Hfi & Hrows & _ & _ & Hperm & _).
  exists rows. split; [|exact Hperm].
  vm_compute in Hfi. injection Hfi as <-. exact Hrows.
Defined.
